(** * OliLab: the client-side state store, API client and session guard

    A shallow embedding of [services/apiService.ts],
    [context/InventoryContext.tsx] and [context/AuthContext.tsx], and the
    properties of the specification that concern them.

    Conventions of the embedding.
    - A JavaScript array is a [list]; [map], [filter], [find], [includes]
      and the spread [[...xs, x]] are [map], [filter], [find], [existsb]
      and [xs ++ [x]].
    - [===] on identities is [String.eqb]: identities are strings.
    - A [number] that counts things (quantities) is a [Z]; an HTTP status
      is an [N]; a [Date] is the clock reading it was built from, a [Z].
      Where the code adds numbers up, the result is rounded as a double
      is ([roundToDouble]).
    - A promise is the outcome it settles with: [inr v] when it resolves
      with [v], [inl e] when it rejects with (an [await] throws) [e].
    - TypeScript types are erased at run time: a value typed
      [Omit<User, 'password'>] is whatever object was assigned, so the
      credential is an optional field of the one run-time user shape.
    - Objects are their values; where the identity of an object decides
      what happens (the dependencies of effect 2), it is kept as an
      address ([AuthContext.Provider]).
    - [console.log] and [console.error] are not modelled. *)

From Stdlib Require Import List String Ascii ZArith NArith Bool Lia.
From Stdlib Require Import DecimalString.
Import ListNotations.
Open Scope string_scope.

(* ================================================================== *)
(** * Data model *)

(** Modelled from the spec: the module [types] (the enum [UserStatus]) is
    not among the sources.  Section 3: "status in PENDING, APPROVED,
    DENIED". *)
Inductive UserStatus : Type := PENDING | APPROVED | DENIED.

(** Modelled from the spec: the enum [LogAction] of the missing module
    [types]; "action in BORROW, RETURN". *)
Inductive LogAction : Type := BORROW | RETURN.

(** Modelled from the spec: the enum [LogStatus] of the missing module
    [types]; "status (pending/approved/denied/returned)". *)
Inductive LogStatus : Type :=
  LOG_PENDING | LOG_APPROVED | LOG_DENIED | LOG_RETURNED.

(** Modelled from the spec: the enums [SuggestionType] and
    [SuggestionStatus] of the missing module [types]. *)
Inductive SuggestionType : Type := ITEM | FEATURE.
Inductive SuggestionStatus : Type := SUGG_PENDING | SUGG_APPROVED | SUGG_DENIED.

Definition UserStatus_eqb (a b : UserStatus) : bool :=
  match a, b with
  | PENDING, PENDING | APPROVED, APPROVED | DENIED, DENIED => true
  | _, _ => false
  end.

Module Item.
(** Modelled from the spec: the interface [Item] of the missing module
    [types]: "identity, name, category, total quantity, available
    quantity"; the field names are those the sources read. *)
Record t : Type := mk {
  id : string;
  name : string;
  category : string;
  totalQuantity : Z;
  availableQuantity : Z
}.
End Item.

Module User.
(** Modelled from the spec: the interface [User] of the missing module
    [types]: "identity, profile fields, status, isAdmin flag,
    credential (password) field".  [password = None] is an object
    without the field. *)
Record t : Type := mk {
  id : string;
  fullName : string;
  role : string;
  status : UserStatus;
  isAdmin : bool;
  password : option string
}.
End User.

Module LogEntry.
(** Modelled from the spec: the interface [LogEntry] of the missing
    module [types]. *)
Record t : Type := mk {
  id : string;
  itemId : string;
  userId : string;
  action : LogAction;
  quantity : Z;
  status : LogStatus;
  timestamp : string;
  adminNotes : option string
}.
End LogEntry.

Module Notification.
(** Modelled from the spec: the interface [Notification] of the missing
    module [types]: "identity, type tag, ..., read: boolean, payload". *)
Record t : Type := mk {
  id : string;
  type : string;
  message : string;
  read : bool
}.
End Notification.

Module Suggestion.
(** Modelled from the spec: the interface [Suggestion] of the missing
    module [types]. *)
Record t : Type := mk {
  id : string;
  type : SuggestionType;
  status : SuggestionStatus;
  timestamp : string;
  category : option string;
  description : string
}.
End Suggestion.

Module Comment.
(** Modelled from the spec: the interface [Comment] of the missing
    module [types]. *)
Record t : Type := mk {
  id : string;
  suggestionId : string;
  userId : string;
  text : string;
  timestamp : string
}.
End Comment.

(** Modelled from the spec: the interface [State] of the missing module
    [types], "the aggregate {items, users, logs, notifications,
    suggestions, comments}"; [initialEmptyState] below fixes the fields. *)
Record State : Type := mkState {
  items : list Item.t;
  users : list User.t;
  logs : list LogEntry.t;
  notifications : list Notification.t;
  suggestions : list Suggestion.t;
  comments : list Comment.t
}.

(** The request payloads: [Omit<Item, 'id' | 'availableQuantity'>],
    [Omit<User, 'id' | 'status'>] and
    [Omit<Suggestion, 'id' | 'status' | 'timestamp' | 'category'>]. *)
Record ItemData : Type := mkItemData {
  d_name : string;
  d_category : string;
  d_totalQuantity : Z
}.

Record UserData : Type := mkUserData {
  d_fullName : string;
  d_role : string;
  d_isAdmin : bool;
  d_password : option string
}.

Record SuggestionData : Type := mkSuggestionData {
  d_type : SuggestionType;
  d_description : string
}.

(** The object [{id: string}] a delete call answers with. *)
Record IdRef : Type := mkIdRef { ref_id : string }.

(** What the code throws and catches. *)
Inductive Exn : Type :=
| Error (message : string)
| TypeError (message : string)
| SyntaxError (message : string).

Definition exn_message (e : Exn) : string :=
  match e with Error m | TypeError m | SyntaxError m => m end.

(** [a || b] where [a] is a string that may be [undefined]: [a] unless it
    is falsy (absent or empty), else [b]. *)
Definition or_else (a : option string) (b : string) : string :=
  match a with
  | Some t => if t =? "" then b else t
  | None => b
  end.

(* ================================================================== *)
(** * services/apiService.ts *)

(** The body a request carries, before [JSON.stringify]. *)
Inductive Payload : Type :=
| PLogin (identifier password : string)
| PItemData (itemData : ItemData)
| PItem (itemData : Item.t)
| PUserData (userData : UserData)
| PUser (userData : User.t)
| PBorrow (userId itemId : string) (quantity : Z)
| PReason (reason : string)
| PReturn (borrowLog : LogEntry.t) (adminNotes : string)
| PImport (itemsToImport : list ItemData)
| PSuggestionData (suggestionData : SuggestionData)
| PApproveItem (suggestionId category : string) (totalQuantity : Z)
| PDenySuggestion (suggestionId reason adminId : string)
| PComment (suggestionId userId text : string).

(** The [options] argument of [apiFetch]; [fetch] issues a GET when no
    method is given. *)
Record RequestInit : Type := mkInit {
  init_method : option string;
  init_body : option Payload
}.

Definition noOptions : RequestInit := mkInit None None.

Record Request : Type := mkRequest {
  req_url : string;
  req_headers : list (string * string);
  req_method : string;
  req_body : option Payload
}.

(** A property of the error body as line 25 uses it: [||] keeps a value
    that is truthy, and [new Error] turns the value kept into a string.
    A JSON string is truthy unless empty and is its own text; of any
    other value (a number, a boolean, [null], an array, an object) the
    record keeps whether it is truthy and what [String] makes of it:
    [42] is [FieldOther true "42"], [0] is [FieldOther false "0"], an
    empty array is [FieldOther true ""]. *)
Inductive JsonField : Type :=
| FieldAbsent
| FieldString (text : string)
| FieldOther (truthy : bool) (rendered : string).

Definition isTruthy (field : JsonField) : bool :=
  match field with
  | FieldAbsent => false
  | FieldString text => negb (text =? "")
  | FieldOther truthy _ => truthy
  end.

(** [String(value)], the message [new Error(value)] gets. *)
Definition stringOf (field : JsonField) : string :=
  match field with
  | FieldAbsent => "undefined"
  | FieldString text => text
  | FieldOther _ rendered => rendered
  end.

(** The error body as [response.json()] delivers it.  [JsonObject m e]
    is an object with the [message] and [error] properties [m] and [e];
    [JsonNull] is the JSON text [null], on which a property read throws;
    [JsonScalar] is any other value, on which both reads are
    [undefined]. *)
Inductive JsonBody : Type :=
| JsonObject (message error : JsonField)
| JsonNull
| JsonScalar.

(** A [Response] as [apiFetch] uses it: the two flags it reads and the
    outcome of each reading of the body it performs.
    - [resp_json]: [await response.json()] on the failure path;
    - [resp_text]: [await response.text()] where the code calls it on
      the failure path, that is after [response.json()] has thrown.
      The body of a [Response] is a stream that is read once: when
      [response.json()] has read it, this second reading rejects (see
      [bodyAlreadyRead]);
    - [resp_value]: on the success path, the outcome of
      [responseText ? JSON.parse(responseText) : {}] read at the type
      the caller asks for (the cast [as T] checks nothing). *)
Record Response (T : Type) : Type := mkResponse {
  resp_ok : bool;
  resp_status : N;
  resp_json : Exn + JsonBody;
  resp_text : Exn + string;
  resp_value : Exn + T
}.

Arguments mkResponse {T}.
Arguments resp_ok {T}.
Arguments resp_status {T}.
Arguments resp_json {T}.
Arguments resp_text {T}.
Arguments resp_value {T}.

(** What the second reading of a body settles with: the Fetch standard
    has [text()] reject with a [TypeError] once the body has been read.
    The wording is the engine's; this is Chrome's. *)
Definition bodyAlreadyRead : Exn :=
  TypeError
    "Failed to execute 'text' on 'Response': body stream already read".

(** The transport, as a caller that reads the answer at type [T] sees
    it: what [fetch] settles with for a request. *)
Definition Fetch (T : Type) : Type := Request -> Exn + Response T.

(** An API call: the requests it issued, oldest first, and its outcome. *)
Definition ApiCall (T : Type) : Type := (list Request * (Exn + T))%type.

Definition status_text (status : N) : string :=
  NilZero.string_of_uint (N.to_uint status).

Module api.
Section Client.

(** [window.location.hostname], or [None] outside a browser. *)
Variable hostname : option string.

Definition BASE_URL : string :=
  match hostname with
  | Some h => "http://" ++ h ++ ":8080/api"
  | None => "http://localhost:8080/api"
  end.

Definition unknownServerError : string :=
  "An unknown server error occurred.".

(** The fallback of the inner [catch (jsonError)]: lines 26-29. *)
Definition textFallback {T} (response : Response T) : Exn + string :=
  match resp_text response with
  | inl thrown => inl thrown
  | inr textError =>
      inr (or_else (Some textError)
                   ("HTTP Error: " ++ status_text (resp_status response)))
  end.

(** The [errorMessage] of lines 22-29, or what escapes the inner
    [try]/[catch] instead. *)
Definition errorMessage {T} (response : Response T) : Exn + string :=
  match resp_json response with
  | inr (JsonObject message error) =>
      inr (if isTruthy message then stringOf message
           else if isTruthy error then stringOf error
           else unknownServerError)
  | inr JsonScalar => inr unknownServerError
  | inr JsonNull => textFallback response
  | inl _ => textFallback response
  end.

(** The outer [catch] of lines 36-45. *)
Definition outerCatch (error : Exn) : Exn :=
  match error with
  | TypeError m =>
      if m =? "Failed to fetch"
      then Error ("Could not connect to the backend server at " ++ BASE_URL
                  ++ ". Is your Java backend server running?")
      else error
  | _ => error
  end.

Definition requestOf (endpoint : string) (options : RequestInit) : Request :=
  mkRequest (BASE_URL ++ endpoint)
            [("Content-Type", "application/json")]
            (match init_method options with Some m => m | None => "GET" end)
            (init_body options).

Definition apiFetch {T} (fetch : Fetch T) (endpoint : string)
  (options : RequestInit) : ApiCall T :=
  let request := requestOf endpoint options in
  ([request],
   match fetch request with
   | inl error => inl (outerCatch error)
   | inr response =>
       if negb (resp_ok response) then
         match errorMessage response with
         | inr message => inl (outerCatch (Error message))
         | inl thrown => inl (outerCatch thrown)
         end
       else
         match resp_value response with
         | inr value => inr value
         | inl thrown => inl (outerCatch thrown)
         end
   end).

Definition post (body : option Payload) : RequestInit :=
  mkInit (Some "POST") body.

Definition login (fetch : Fetch User.t)
  (identifier password : string)
  : ApiCall User.t :=
  apiFetch fetch "/auth/login" (post (Some (PLogin identifier password))).

Definition getInitialData (fetch : Fetch State)
  : ApiCall State :=
  apiFetch fetch "/data" noOptions.

Definition addItem (fetch : Fetch Item.t) (itemData : ItemData)
  : ApiCall Item.t :=
  apiFetch fetch "/items" (post (Some (PItemData itemData))).

Definition editItem (fetch : Fetch Item.t) (itemData : Item.t)
  : ApiCall Item.t :=
  apiFetch fetch ("/items/" ++ Item.id itemData)
           (mkInit (Some "PUT") (Some (PItem itemData))).

Definition deleteItem (fetch : Fetch IdRef) (itemId : string)
  : ApiCall IdRef :=
  apiFetch fetch ("/items/" ++ itemId) (mkInit (Some "DELETE") None).

Definition createUser (fetch : Fetch (User.t * Notification.t))
  (userData : UserData)
  : ApiCall (User.t * Notification.t) :=
  apiFetch fetch "/users" (post (Some (PUserData userData))).

Definition editUser (fetch : Fetch User.t) (userData : User.t)
  : ApiCall User.t :=
  apiFetch fetch ("/users/" ++ User.id userData)
           (mkInit (Some "PUT") (Some (PUser userData))).

Definition deleteUser (fetch : Fetch IdRef) (userId : string)
  : ApiCall IdRef :=
  apiFetch fetch ("/users/" ++ userId) (mkInit (Some "DELETE") None).

Definition approveUser (fetch : Fetch User.t) (userId : string)
  : ApiCall User.t :=
  apiFetch fetch ("/users/" ++ userId ++ "/approve") (post None).

Definition denyUser (fetch : Fetch User.t) (userId : string)
  : ApiCall User.t :=
  apiFetch fetch ("/users/" ++ userId ++ "/deny") (post None).

Definition requestBorrowItem (fetch : Fetch (LogEntry.t * Notification.t))
  (userId itemId : string) (quantity : Z)
  : ApiCall (LogEntry.t * Notification.t) :=
  apiFetch fetch "/logs/borrow" (post (Some (PBorrow userId itemId quantity))).

Definition approveBorrowRequest (fetch : Fetch (LogEntry.t * Item.t))
  (logId : string)
  : ApiCall (LogEntry.t * Item.t) :=
  apiFetch fetch ("/logs/" ++ logId ++ "/approve") (post None).

Definition denyBorrowRequest (fetch : Fetch LogEntry.t)
  (logId reason : string)
  : ApiCall LogEntry.t :=
  apiFetch fetch ("/logs/" ++ logId ++ "/deny") (post (Some (PReason reason))).

Definition returnItem (fetch : Fetch (LogEntry.t * LogEntry.t * Item.t))
  (borrowLog : LogEntry.t) (adminNotes : string)
  : ApiCall (LogEntry.t * LogEntry.t * Item.t) :=
  apiFetch fetch "/logs/return" (post (Some (PReturn borrowLog adminNotes))).

Definition requestItemReturn (fetch : Fetch (LogEntry.t * Notification.t))
  (logId : string)
  : ApiCall (LogEntry.t * Notification.t) :=
  apiFetch fetch ("/logs/" ++ logId ++ "/request-return") (post None).

(** Lines 142-146: no [apiFetch]; the promise resolves with the
    argument. *)
Definition markNotificationsAsRead (notificationIds : list string)
  : ApiCall (list string) :=
  ([], inr notificationIds).

Definition importItems (fetch : Fetch (list Item.t))
  (itemsToImport : list ItemData)
  : ApiCall (list Item.t) :=
  apiFetch fetch "/items/import" (post (Some (PImport itemsToImport))).

Definition addSuggestion (fetch : Fetch Suggestion.t)
  (suggestionData : SuggestionData)
  : ApiCall Suggestion.t :=
  apiFetch fetch "/suggestions" (post (Some (PSuggestionData suggestionData))).

Definition approveItemSuggestion (fetch : Fetch (Suggestion.t * Item.t))
  (suggestionId category : string) (totalQuantity : Z)
  : ApiCall (Suggestion.t * Item.t) :=
  apiFetch fetch ("/suggestions/" ++ suggestionId ++ "/approve-item")
           (post (Some (PApproveItem suggestionId category totalQuantity))).

Definition approveFeatureSuggestion (fetch : Fetch Suggestion.t)
  (suggestionId : string)
  : ApiCall Suggestion.t :=
  apiFetch fetch ("/suggestions/" ++ suggestionId ++ "/approve-feature")
           (post None).

Definition denySuggestion (fetch : Fetch (Suggestion.t * Comment.t))
  (suggestionId reason adminId : string)
  : ApiCall (Suggestion.t * Comment.t) :=
  apiFetch fetch ("/suggestions/" ++ suggestionId ++ "/deny")
           (post (Some (PDenySuggestion suggestionId reason adminId))).

Definition addComment (fetch : Fetch Comment.t)
  (suggestionId userId text : string)
  : ApiCall Comment.t :=
  apiFetch fetch "/comments" (post (Some (PComment suggestionId userId text))).

End Client.
End api.

(* ================================================================== *)
(** * context/InventoryContext.tsx *)

Module InventoryContext.

Inductive SyncStatus : Type := synced | syncing | error.

(** The state cells of [InventoryProvider] (lines 42-46).
    [renderError] is not a cell: it holds the exception React raises
    again while rendering the provider after a state updater threw,
    [None] as long as the provider renders. *)
Record Store : Type := mkStore {
  state : State;
  isLoading : bool;
  connectionError : option string;
  syncStatus : SyncStatus;
  lastSynced : option Z;
  renderError : option Exn
}.

Definition initialEmptyState : State := mkState [] [] [] [] [] [].

Definition initialStore : Store :=
  mkStore initialEmptyState true None synced None None.

(** [setState(updater)]: the updater runs on the snapshot current at
    that moment; one that throws leaves the snapshot as it is. *)
Definition setState (updater : State -> Exn + State) (s : Store) : Store :=
  match updater (state s) with
  | inr next =>
      mkStore next (isLoading s) (connectionError s) (syncStatus s)
              (lastSynced s) (renderError s)
  | inl thrown =>
      mkStore (state s) (isLoading s) (connectionError s) (syncStatus s)
              (lastSynced s) (Some thrown)
  end.

(** An updater that only builds the next snapshot. *)
Definition returning (f : State -> State) : State -> Exn + State :=
  fun prev => inr (f prev).

Definition setIsLoading (b : bool) (s : Store) : Store :=
  mkStore (state s) b (connectionError s) (syncStatus s) (lastSynced s)
          (renderError s).

Definition setConnectionError (m : option string) (s : Store) : Store :=
  mkStore (state s) (isLoading s) m (syncStatus s) (lastSynced s)
          (renderError s).

Definition setSyncStatus (st : SyncStatus) (s : Store) : Store :=
  mkStore (state s) (isLoading s) (connectionError s) st (lastSynced s)
          (renderError s).

Definition setLastSynced (d : option Z) (s : Store) : Store :=
  mkStore (state s) (isLoading s) (connectionError s) (syncStatus s) d
          (renderError s).

(** One asynchronous operation of the provider: the requests it
    issued, the store after each setter call it made (oldest first: the
    finest sequence of versions a render can observe), and what its
    promise settles with. *)
Record Run (A : Type) : Type := mkRun {
  requests : list Request;
  versions : list Store;
  result : Exn + A
}.

Arguments mkRun {A}.
Arguments requests {A}.
Arguments versions {A}.
Arguments result {A}.

(** The store an operation started from [s0] leaves behind. *)
Definition final {A} (s0 : Store) (r : Run A) : Store :=
  last (versions r) s0.

(** ** The patches: the object each state updater returns *)

Definition addItem_patch (newItem : Item.t) (prev : State) : State :=
  mkState (items prev ++ [newItem])%list (users prev) (logs prev)
          (notifications prev) (suggestions prev) (comments prev).

Definition editItem_patch (updatedItem : Item.t) (prev : State) : State :=
  mkState
    (map (fun i => if Item.id i =? Item.id updatedItem then updatedItem else i)
         (items prev))
    (users prev) (logs prev) (notifications prev) (suggestions prev)
    (comments prev).

Definition deleteItem_patch (deletedItemId : IdRef) (prev : State) : State :=
  mkState
    (filter (fun i => negb (Item.id i =? ref_id deletedItemId)) (items prev))
    (users prev) (logs prev) (notifications prev) (suggestions prev)
    (comments prev).

Definition createUser_patch (newUser : User.t)
  (newNotification : Notification.t) (prev : State) : State :=
  let updatedUsers := (users prev ++ [newUser])%list in
  mkState (items prev) updatedUsers (logs prev)
          (newNotification :: notifications prev) (suggestions prev)
          (comments prev).

Definition editUser_patch (updatedUser : User.t) (prev : State) : State :=
  mkState (items prev)
    (map (fun u => if User.id u =? User.id updatedUser then updatedUser else u)
         (users prev))
    (logs prev) (notifications prev) (suggestions prev) (comments prev).

Definition deleteUser_patch (deletedUserId : IdRef) (prev : State) : State :=
  mkState (items prev)
    (filter (fun u => negb (User.id u =? ref_id deletedUserId)) (users prev))
    (logs prev) (notifications prev) (suggestions prev) (comments prev).

Definition approveUser_patch (approvedUser : User.t) (prev : State) : State :=
  mkState (items prev)
    (map (fun u => if User.id u =? User.id approvedUser
                   then approvedUser else u)
         (users prev))
    (logs prev) (notifications prev) (suggestions prev) (comments prev).

Definition denyUser_patch (deniedUser : User.t) (prev : State) : State :=
  mkState (items prev)
    (map (fun u => if User.id u =? User.id deniedUser then deniedUser else u)
         (users prev))
    (logs prev) (notifications prev) (suggestions prev) (comments prev).

Definition requestBorrowItem_patch (newLog : LogEntry.t)
  (newNotification : Notification.t) (prev : State) : State :=
  mkState (items prev) (users prev) (newLog :: logs prev)
          (newNotification :: notifications prev) (suggestions prev)
          (comments prev).

Definition approveBorrowRequest_patch (updatedLog : LogEntry.t)
  (updatedItem : Item.t) (prev : State) : State :=
  mkState
    (map (fun i => if Item.id i =? Item.id updatedItem then updatedItem else i)
         (items prev))
    (users prev)
    (map (fun l => if LogEntry.id l =? LogEntry.id updatedLog
                   then updatedLog else l)
         (logs prev))
    (notifications prev) (suggestions prev) (comments prev).

Definition denyBorrowRequest_patch (updatedLog : LogEntry.t) (prev : State)
  : State :=
  mkState (items prev) (users prev)
    (map (fun l => if LogEntry.id l =? LogEntry.id updatedLog
                   then updatedLog else l)
         (logs prev))
    (notifications prev) (suggestions prev) (comments prev).

Definition returnItem_patch (returnLog updatedBorrowLog : LogEntry.t)
  (updatedItem : Item.t) (prev : State) : State :=
  mkState
    (map (fun i => if Item.id i =? Item.id updatedItem then updatedItem else i)
         (items prev))
    (users prev)
    (returnLog ::
       map (fun l => if LogEntry.id l =? LogEntry.id updatedBorrowLog
                     then updatedBorrowLog else l)
           (logs prev))
    (notifications prev) (suggestions prev) (comments prev).

Definition requestItemReturn_patch (updatedLog : LogEntry.t)
  (newNotification : Notification.t) (prev : State) : State :=
  mkState (items prev) (users prev)
    (map (fun l => if LogEntry.id l =? LogEntry.id updatedLog
                   then updatedLog else l)
         (logs prev))
    (newNotification :: notifications prev) (suggestions prev)
    (comments prev).

(** [readIds.includes(n.id)] *)
Definition includes (readIds : list string) (i : string) : bool :=
  existsb (fun r => r =? i) readIds.

(** [{ ...n, read: true }] *)
Definition markRead (n : Notification.t) : Notification.t :=
  Notification.mk (Notification.id n) (Notification.type n)
                  (Notification.message n) true.

Definition markNotificationsAsRead_patch (readIds : list string)
  (prev : State) : State :=
  mkState (items prev) (users prev) (logs prev)
    (map (fun n => if includes readIds (Notification.id n)
                   then markRead n else n)
         (notifications prev))
    (suggestions prev) (comments prev).

Definition addSuggestion_patch (newSuggestion : Suggestion.t) (prev : State)
  : State :=
  mkState (items prev) (users prev) (logs prev) (notifications prev)
          (newSuggestion :: suggestions prev) (comments prev).

Definition approveItemSuggestion_patch (updatedSuggestion : Suggestion.t)
  (newItem : Item.t) (prev : State) : State :=
  mkState (items prev ++ [newItem])%list (users prev) (logs prev)
    (notifications prev)
    (map (fun s => if Suggestion.id s =? Suggestion.id updatedSuggestion
                   then updatedSuggestion else s)
         (suggestions prev))
    (comments prev).

Definition approveFeatureSuggestion_patch (updatedSuggestion : Suggestion.t)
  (prev : State) : State :=
  mkState (items prev) (users prev) (logs prev) (notifications prev)
    (map (fun s => if Suggestion.id s =? Suggestion.id updatedSuggestion
                   then updatedSuggestion else s)
         (suggestions prev))
    (comments prev).

Definition denySuggestion_patch (updatedSuggestion : Suggestion.t)
  (newComment : Comment.t) (prev : State) : State :=
  mkState (items prev) (users prev) (logs prev) (notifications prev)
    (map (fun s => if Suggestion.id s =? Suggestion.id updatedSuggestion
                   then updatedSuggestion else s)
         (suggestions prev))
    (newComment :: comments prev).

Definition importItems_patch (newItems : list Item.t) (prev : State)
  : State :=
  mkState (items prev ++ newItems)%list (users prev) (logs prev)
          (notifications prev) (suggestions prev) (comments prev).

Definition addComment_patch (newComment : Comment.t) (prev : State) : State :=
  mkState (items prev) (users prev) (logs prev) (notifications prev)
          (suggestions prev) (newComment :: comments prev).

Section Provider.

Variable hostname : option string.

(** The reading of [new Date()] when the operation completes. *)
Variable now : Z.

(** The three functions imported from [services/emailService], which
    is not among the sources.  They are called without [await], so all
    the caller can observe is whether the call returns ([None],
    whatever becomes of a promise it may hand back) or throws
    ([Some e]). *)
Variable sendNewUserAdminNotification : User.t -> list User.t -> option Exn.
Variable sendAccountApprovedNotification : User.t -> option Exn.
Variable sendAccountDeniedNotification : User.t -> option Exn.

(** Lines 48-63.  [setState(initialState)] stores the value. *)
Definition loadData (fetch : Fetch State) (s0 : Store) : Run unit :=
  let s1 := setIsLoading true s0 in
  let s2 := setConnectionError None s1 in
  let call := api.getInitialData hostname fetch in
  match snd call with
  | inr initialState =>
      let s3 := setState (fun _ => inr initialState) s2 in
      let s4 := setLastSynced (Some now) s3 in
      let s5 := setSyncStatus synced s4 in
      mkRun (fst call) [s1; s2; s3; s4; s5; setIsLoading false s5] (inr tt)
  | inl thrown =>
      let s3 :=
        setConnectionError
          (Some (or_else (Some (exn_message thrown))
                         "An unknown error occurred.")) s2 in
      let s4 := setSyncStatus error s3 in
      mkRun (fst call) [s1; s2; s3; s4; setIsLoading false s4] (inr tt)
  end.

(** Lines 69-81.  [updateState result] yields the store after the
    setter calls the callback made, and the exception it threw, if
    any. *)
Definition handleApiCall {T} (apiCall : ApiCall T)
  (updateState : T -> Store -> Store * option Exn) (s0 : Store) : Run unit :=
  let s1 := setSyncStatus syncing s0 in
  match snd apiCall with
  | inr result =>
      let (s2, thrown) := updateState result s1 in
      match thrown with
      | None =>
          let s3 := setSyncStatus synced s2 in
          mkRun (fst apiCall) [s1; s2; s3; setLastSynced (Some now) s3]
                (inr tt)
      | Some e =>
          mkRun (fst apiCall) [s1; s2; setSyncStatus error s2] (inl e)
      end
  | inl e =>
      mkRun (fst apiCall) [s1; setSyncStatus error s1] (inl e)
  end.

(** A callback that makes one [setState] call and nothing else. *)
Definition patching {T} (patch : T -> State -> State)
  : T -> Store -> Store * option Exn :=
  fun result s => (setState (returning (patch result)) s, None).

Definition addItem (fetch : Fetch Item.t)
  (itemData : ItemData) : Store -> Run unit :=
  handleApiCall (api.addItem hostname fetch itemData)
                (patching addItem_patch).

Definition editItem (fetch : Fetch Item.t)
  (itemData : Item.t) : Store -> Run unit :=
  handleApiCall (api.editItem hostname fetch itemData)
                (patching editItem_patch).

Definition deleteItem (fetch : Fetch IdRef)
  (itemId : string) : Store -> Run unit :=
  handleApiCall (api.deleteItem hostname fetch itemId)
                (patching deleteItem_patch).

(** Lines 109-121: the dispatch is called inside the state updater,
    before the updater returns the next snapshot. *)
Definition createUser_updater (newUser : User.t)
  (newNotification : Notification.t) (prev : State) : Exn + State :=
  let updatedUsers := (users prev ++ [newUser])%list in
  let admins := filter User.isAdmin updatedUsers in
  match sendNewUserAdminNotification newUser admins with
  | Some thrown => inl thrown
  | None => inr (createUser_patch newUser newNotification prev)
  end.

(** Lines 105-124: [newUserId] is assigned by the callback, so it is
    still [''] when the promise of [handleApiCall] rejects, and then
    nothing is returned. *)
Definition createUser (fetch : Fetch (User.t * Notification.t))
  (userData : UserData) (s0 : Store) : Run string :=
  let call := api.createUser hostname fetch userData in
  let run :=
    handleApiCall call
      (fun r s =>
         (setState (createUser_updater (fst r) (snd r)) s, None))
      s0 in
  mkRun (requests run) (versions run)
        (match result run, snd call with
         | inr _, inr r => inr (User.id (fst r))
         | inr _, inl _ => inr ""
         | inl e, _ => inl e
         end).

Definition editUser (fetch : Fetch User.t)
  (userData : User.t) : Store -> Run unit :=
  handleApiCall (api.editUser hostname fetch userData)
                (patching editUser_patch).

Definition deleteUser (fetch : Fetch IdRef)
  (userId : string) : Store -> Run unit :=
  handleApiCall (api.deleteUser hostname fetch userId)
                (patching deleteUser_patch).

(** Lines 141-149: [setState], then the dispatch, both inside the
    callback that [handleApiCall] runs in its [try] block. *)
Definition approveUser (fetch : Fetch User.t)
  (userId : string) : Store -> Run unit :=
  handleApiCall (api.approveUser hostname fetch userId)
    (fun approvedUser s =>
       (setState (returning (approveUser_patch approvedUser)) s,
        sendAccountApprovedNotification approvedUser)).

Definition denyUser (fetch : Fetch User.t)
  (userId : string) : Store -> Run unit :=
  handleApiCall (api.denyUser hostname fetch userId)
    (fun deniedUser s =>
       (setState (returning (denyUser_patch deniedUser)) s,
        sendAccountDeniedNotification deniedUser)).

Definition requestBorrowItem (fetch : Fetch (LogEntry.t * Notification.t))
  (userId itemId : string) (quantity : Z)
  : Store -> Run unit :=
  handleApiCall (api.requestBorrowItem hostname fetch userId itemId quantity)
    (patching (fun r => requestBorrowItem_patch (fst r) (snd r))).

Definition approveBorrowRequest (fetch : Fetch (LogEntry.t * Item.t))
  (logId : string) : Store -> Run unit :=
  handleApiCall (api.approveBorrowRequest hostname fetch logId)
    (patching (fun r => approveBorrowRequest_patch (fst r) (snd r))).

Definition denyBorrowRequest (fetch : Fetch LogEntry.t)
  (logId reason : string) : Store -> Run unit :=
  handleApiCall (api.denyBorrowRequest hostname fetch logId reason)
                (patching denyBorrowRequest_patch).

Definition returnItem (fetch : Fetch (LogEntry.t * LogEntry.t * Item.t))
  (borrowLog : LogEntry.t) (adminNotes : string)
  : Store -> Run unit :=
  handleApiCall (api.returnItem hostname fetch borrowLog adminNotes)
    (patching (fun r => returnItem_patch (fst (fst r)) (snd (fst r)) (snd r))).

Definition requestItemReturn (fetch : Fetch (LogEntry.t * Notification.t))
  (log : LogEntry.t) : Store -> Run unit :=
  handleApiCall (api.requestItemReturn hostname fetch (LogEntry.id log))
    (patching (fun r => requestItemReturn_patch (fst r) (snd r))).

Definition markNotificationsAsRead (notificationIds : list string)
  : Store -> Run unit :=
  handleApiCall (api.markNotificationsAsRead notificationIds)
                (patching markNotificationsAsRead_patch).

Definition addSuggestion (fetch : Fetch Suggestion.t)
  (suggestionData : SuggestionData)
  : Store -> Run unit :=
  handleApiCall (api.addSuggestion hostname fetch suggestionData)
                (patching addSuggestion_patch).

Definition approveItemSuggestion (fetch : Fetch (Suggestion.t * Item.t))
  (suggestionId category : string) (totalQuantity : Z)
  : Store -> Run unit :=
  handleApiCall
    (api.approveItemSuggestion hostname fetch suggestionId category
                               totalQuantity)
    (patching (fun r => approveItemSuggestion_patch (fst r) (snd r))).

Definition approveFeatureSuggestion (fetch : Fetch Suggestion.t)
  (suggestionId : string)
  : Store -> Run unit :=
  handleApiCall (api.approveFeatureSuggestion hostname fetch suggestionId)
                (patching approveFeatureSuggestion_patch).

Definition denySuggestion (fetch : Fetch (Suggestion.t * Comment.t))
  (suggestionId reason adminId : string)
  : Store -> Run unit :=
  handleApiCall (api.denySuggestion hostname fetch suggestionId reason adminId)
    (patching (fun r => denySuggestion_patch (fst r) (snd r))).

Definition importItems (fetch : Fetch (list Item.t))
  (itemsToImport : list ItemData) : Store -> Run unit :=
  handleApiCall (api.importItems hostname fetch itemsToImport)
                (patching importItems_patch).

Definition addComment (fetch : Fetch Comment.t)
  (suggestionId userId text : string)
  : Store -> Run unit :=
  handleApiCall (api.addComment hostname fetch suggestionId userId text)
                (patching addComment_patch).

(** ** The operations of [contextValue], as one type *)

(** A call of one of the twenty mutation operations that
    [contextValue] (lines 286-311) exposes, with its argument. *)
Inductive Mutation : Type :=
| AddItem (itemData : ItemData)
| EditItem (itemData : Item.t)
| DeleteItem (itemId : string)
| RequestBorrowItem (userId itemId : string) (quantity : Z)
| ApproveBorrowRequest (logId : string)
| DenyBorrowRequest (logId reason : string)
| ReturnItem (borrowLog : LogEntry.t) (adminNotes : string)
| RequestItemReturn (log : LogEntry.t)
| CreateUser (userData : UserData)
| EditUser (userData : User.t)
| DeleteUser (userId : string)
| ApproveUser (userId : string)
| DenyUser (userId : string)
| MarkNotificationsAsRead (notificationIds : list string)
| AddSuggestion (suggestionData : SuggestionData)
| ApproveItemSuggestion (suggestionId category : string) (totalQuantity : Z)
| ApproveFeatureSuggestion (suggestionId : string)
| DenySuggestion (suggestionId reason adminId : string)
| ImportItems (itemsToImport : list ItemData)
| AddComment (suggestionId userId text : string).

(** What the API call of each operation resolves with. *)
Definition ResultOf (m : Mutation) : Type :=
  match m with
  | AddItem _ | EditItem _ => Item.t
  | DeleteItem _ | DeleteUser _ => IdRef
  | RequestBorrowItem _ _ _ | RequestItemReturn _ =>
      (LogEntry.t * Notification.t)%type
  | ApproveBorrowRequest _ => (LogEntry.t * Item.t)%type
  | DenyBorrowRequest _ _ => LogEntry.t
  | ReturnItem _ _ => (LogEntry.t * LogEntry.t * Item.t)%type
  | CreateUser _ => (User.t * Notification.t)%type
  | EditUser _ | ApproveUser _ | DenyUser _ => User.t
  | MarkNotificationsAsRead _ => list string
  | AddSuggestion _ | ApproveFeatureSuggestion _ => Suggestion.t
  | ApproveItemSuggestion _ _ _ => (Suggestion.t * Item.t)%type
  | DenySuggestion _ _ _ => (Suggestion.t * Comment.t)%type
  | ImportItems _ => list Item.t
  | AddComment _ _ _ => Comment.t
  end.

(** The first argument each operation gives [handleApiCall]. *)
Definition apiCall (m : Mutation)
  : Fetch (ResultOf m) -> ApiCall (ResultOf m) :=
  match m return Fetch (ResultOf m) -> ApiCall (ResultOf m) with
  | AddItem d => fun fetch => api.addItem hostname fetch d
  | EditItem d => fun fetch => api.editItem hostname fetch d
  | DeleteItem i => fun fetch => api.deleteItem hostname fetch i
  | RequestBorrowItem u i q =>
      fun fetch => api.requestBorrowItem hostname fetch u i q
  | ApproveBorrowRequest l =>
      fun fetch => api.approveBorrowRequest hostname fetch l
  | DenyBorrowRequest l r =>
      fun fetch => api.denyBorrowRequest hostname fetch l r
  | ReturnItem b n => fun fetch => api.returnItem hostname fetch b n
  | RequestItemReturn l =>
      fun fetch => api.requestItemReturn hostname fetch (LogEntry.id l)
  | CreateUser d => fun fetch => api.createUser hostname fetch d
  | EditUser d => fun fetch => api.editUser hostname fetch d
  | DeleteUser i => fun fetch => api.deleteUser hostname fetch i
  | ApproveUser i => fun fetch => api.approveUser hostname fetch i
  | DenyUser i => fun fetch => api.denyUser hostname fetch i
  | MarkNotificationsAsRead ids => fun _ => api.markNotificationsAsRead ids
  | AddSuggestion d => fun fetch => api.addSuggestion hostname fetch d
  | ApproveItemSuggestion i c q =>
      fun fetch => api.approveItemSuggestion hostname fetch i c q
  | ApproveFeatureSuggestion i =>
      fun fetch => api.approveFeatureSuggestion hostname fetch i
  | DenySuggestion i r a => fun fetch => api.denySuggestion hostname fetch i r a
  | ImportItems l => fun fetch => api.importItems hostname fetch l
  | AddComment i u t => fun fetch => api.addComment hostname fetch i u t
  end.

(** The snapshot each operation's updater returns for a result. *)
Definition patch (m : Mutation) : ResultOf m -> State -> State :=
  match m return ResultOf m -> State -> State with
  | AddItem _ => addItem_patch
  | EditItem _ => editItem_patch
  | DeleteItem _ => deleteItem_patch
  | RequestBorrowItem _ _ _ =>
      fun r => requestBorrowItem_patch (fst r) (snd r)
  | ApproveBorrowRequest _ =>
      fun r => approveBorrowRequest_patch (fst r) (snd r)
  | DenyBorrowRequest _ _ => denyBorrowRequest_patch
  | ReturnItem _ _ =>
      fun r => returnItem_patch (fst (fst r)) (snd (fst r)) (snd r)
  | RequestItemReturn _ =>
      fun r => requestItemReturn_patch (fst r) (snd r)
  | CreateUser _ => fun r => createUser_patch (fst r) (snd r)
  | EditUser _ => editUser_patch
  | DeleteUser _ => deleteUser_patch
  | ApproveUser _ => approveUser_patch
  | DenyUser _ => denyUser_patch
  | MarkNotificationsAsRead _ => markNotificationsAsRead_patch
  | AddSuggestion _ => addSuggestion_patch
  | ApproveItemSuggestion _ _ _ =>
      fun r => approveItemSuggestion_patch (fst r) (snd r)
  | ApproveFeatureSuggestion _ => approveFeatureSuggestion_patch
  | DenySuggestion _ _ _ => fun r => denySuggestion_patch (fst r) (snd r)
  | ImportItems _ => importItems_patch
  | AddComment _ _ _ => addComment_patch
  end.

(** The value a caller awaits is dropped: only [createUser] has one. *)
Definition void {A} (r : Run A) : Run unit :=
  mkRun (requests r) (versions r)
        (match result r with inr _ => inr tt | inl e => inl e end).

Definition perform (m : Mutation)
  : Fetch (ResultOf m) -> Store -> Run unit :=
  match m return Fetch (ResultOf m) -> Store -> Run unit with
  | AddItem d => fun fetch => addItem fetch d
  | EditItem d => fun fetch => editItem fetch d
  | DeleteItem i => fun fetch => deleteItem fetch i
  | RequestBorrowItem u i q => fun fetch => requestBorrowItem fetch u i q
  | ApproveBorrowRequest l => fun fetch => approveBorrowRequest fetch l
  | DenyBorrowRequest l r => fun fetch => denyBorrowRequest fetch l r
  | ReturnItem b n => fun fetch => returnItem fetch b n
  | RequestItemReturn l => fun fetch => requestItemReturn fetch l
  | CreateUser d => fun fetch s => void (createUser fetch d s)
  | EditUser d => fun fetch => editUser fetch d
  | DeleteUser i => fun fetch => deleteUser fetch i
  | ApproveUser i => fun fetch => approveUser fetch i
  | DenyUser i => fun fetch => denyUser fetch i
  | MarkNotificationsAsRead ids => fun _ => markNotificationsAsRead ids
  | AddSuggestion d => fun fetch => addSuggestion fetch d
  | ApproveItemSuggestion i c q =>
      fun fetch => approveItemSuggestion fetch i c q
  | ApproveFeatureSuggestion i => fun fetch => approveFeatureSuggestion fetch i
  | DenySuggestion i r a => fun fetch => denySuggestion fetch i r a
  | ImportItems l => fun fetch => importItems fetch l
  | AddComment i u t => fun fetch => addComment fetch i u t
  end.

End Provider.
End InventoryContext.

(* ================================================================== *)
(** * context/AuthContext.tsx *)

Module AuthContext.

(** The text kept under [SESSION_STORAGE_KEY], by what [JSON.parse]
    makes of it. *)
Inductive SessionEntry : Type :=
| Serialized (user : User.t)   (* [JSON.stringify(user)] *)
| NotAUser                     (* parses to a value that is falsy or
                                  carries no APPROVED status *)
| Unparseable                  (* [JSON.parse] throws *)
| EmptyText.                   (* the empty string: falsy *)

(** The two state cells of [AuthProvider] (lines 21-22) and the entry
    of the browser's session storage it reads and writes. *)
Record Guard : Type := mkGuard {
  currentUser : option User.t;
  isLoading : bool;
  sessionStorage : option SessionEntry
}.

Definition setCurrentUser (u : option User.t) (g : Guard) : Guard :=
  mkGuard u (isLoading g) (sessionStorage g).

Definition setIsLoading (b : bool) (g : Guard) : Guard :=
  mkGuard (currentUser g) b (sessionStorage g).

(** [sessionStorage.setItem], where the browser accepts the write; it
    throws where the browser refuses it (see [loginWriteRefused]). *)
Definition setItem (entry : SessionEntry) (g : Guard) : Guard :=
  mkGuard (currentUser g) (isLoading g) (Some entry).

Definition removeItem (g : Guard) : Guard :=
  mkGuard (currentUser g) (isLoading g) None.

(** Line 88: [isAuthenticated: !!currentUser]. *)
Definition isAuthenticated (g : Guard) : bool :=
  match currentUser g with Some _ => true | None => false end.

(** Lines 81-84. *)
Definition logout (g : Guard) : Guard :=
  removeItem (setCurrentUser None g).

(** Effect 1, lines 27-48. *)
Definition restoreSession (g : Guard) : Guard :=
  setIsLoading false
    match sessionStorage g with
    | Some (Serialized user) =>
        if UserStatus_eqb (User.status user) APPROVED
        then setCurrentUser (Some user) g
        else removeItem g
    | Some NotAUser => removeItem g
    | Some Unparseable => removeItem g
    | Some EmptyText => g
    | None => g
    end.

(** [const { password, ...secureUser } = freshUser] *)
Definition withoutPassword (freshUser : User.t) : User.t :=
  User.mk (User.id freshUser) (User.fullName freshUser) (User.role freshUser)
          (User.status freshUser) (User.isAdmin freshUser) None.

(** [inventoryState.users.find(u => u.id === currentUser.id)] *)
Definition findFresh (held : User.t) (inventoryUsers : list User.t)
  : option User.t :=
  find (fun u => User.id u =? User.id held) inventoryUsers.

(** Effect 2, lines 52-66: one run of the effect body. *)
Definition revalidate (inventoryState : State) (isInventoryLoading : bool)
  (g : Guard) : Guard :=
  match currentUser g with
  | Some held =>
      if negb isInventoryLoading
         && (0 <? List.length (users inventoryState))%nat
      then
        match findFresh held (users inventoryState) with
        | Some freshUser =>
            if UserStatus_eqb (User.status freshUser) APPROVED
            then
              let secureUser := withoutPassword freshUser in
              setItem (Serialized secureUser)
                      (setCurrentUser (Some secureUser) g)
            else logout g
        | None => logout g
        end
      else g
  | None => g
  end.

(** One call of [login]: the requests sent, the guard afterwards and
    what the promise settles with. *)
Record Attempt : Type := mkAttempt {
  sent : list Request;
  guard : Guard;
  outcome : Exn + bool
}.

(** Lines 69-79. *)
Definition login (hostname : option string) (fetch : Fetch User.t)
  (identifier password : string) (g : Guard) : Attempt :=
  let call := api.login hostname fetch identifier password in
  match snd call with
  | inr user =>
      mkAttempt (fst call)
                (setItem (Serialized user) (setCurrentUser (Some user) g))
                (inr true)
  | inl thrown => mkAttempt (fst call) g (inl thrown)
  end.

(** [sessionStorage.setItem] throws when the browser refuses the write
    (the quota is used up).  Both callers run it after [setCurrentUser]:
    [login] and [revalidate] above are the runs in which the write is
    accepted, the two definitions below the runs in which it throws. *)

(** [login] when the write of line 74 throws [refused]: the user of
    line 72 is held, the entry is as it was, and the [catch] rethrows. *)
Definition loginWriteRefused (hostname : option string) (fetch : Fetch User.t)
  (identifier password : string) (refused : Exn) (g : Guard) : Attempt :=
  let call := api.login hostname fetch identifier password in
  match snd call with
  | inr user =>
      mkAttempt (fst call) (setCurrentUser (Some user) g) (inl refused)
  | inl thrown => mkAttempt (fst call) g (inl thrown)
  end.

(** Effect 2 when the write of line 63 throws: the fresh user of line 62
    is held and the entry is as it was. *)
Definition revalidateWriteRefused (inventoryState : State)
  (isInventoryLoading : bool) (g : Guard) : Guard :=
  match currentUser g with
  | Some held =>
      if negb isInventoryLoading
         && (0 <? List.length (users inventoryState))%nat
      then
        match findFresh held (users inventoryState) with
        | Some freshUser =>
            if UserStatus_eqb (User.status freshUser) APPROVED
            then setCurrentUser (Some (withoutPassword freshUser)) g
            else logout g
        | None => logout g
        end
      else g
  | None => g
  end.

(** ** Object identity in effect 2

    React runs an effect again after a render in which one of its
    dependencies is not the same value, by [Object.is], as at the
    previous run; for an object that is its identity.  [currentUser] is
    a dependency of effect 2 (line 66), and line 61 builds a new object
    on every approved run.  [Provider] is the guard with the identity
    of the object in the [currentUser] cell kept: an object is a value
    at an address, and building one takes the next free address. *)
Record Held : Type := mkHeld {
  address : nat;
  contents : User.t
}.

Record Provider : Type := mkProvider {
  cell : option Held;
  session : option SessionEntry;
  allocated : nat
}.

(** The guard the provider shows, once resolved. *)
Definition shown (p : Provider) : Guard :=
  mkGuard (option_map contents (cell p)) false (session p).

(** Effect 2, lines 52-66, with identities: one run of the effect body,
    every write to session storage accepted. *)
Definition effect2 (inventoryState : State) (isInventoryLoading : bool)
  (p : Provider) : Provider :=
  match cell p with
  | Some held =>
      if negb isInventoryLoading
         && (0 <? List.length (users inventoryState))%nat
      then
        match findFresh (contents held) (users inventoryState) with
        | Some freshUser =>
            if UserStatus_eqb (User.status freshUser) APPROVED
            then
              let secureUser :=
                mkHeld (allocated p) (withoutPassword freshUser) in
              mkProvider (Some secureUser)
                         (Some (Serialized (contents secureUser)))
                         (S (allocated p))
            else mkProvider None None (allocated p)
        | None => mkProvider None None (allocated p)
        end
      else p
  | None => p
  end.

(** [Object.is] on two values of the [currentUser] cell. *)
Definition sameObject (a b : option Held) : bool :=
  match a, b with
  | None, None => true
  | Some x, Some y => (address x =? address y)%nat
  | _, _ => false
  end.

(** Whether a run of effect 2 is followed by another: the inventory
    being the same, it is when the run has changed [currentUser]. *)
Definition runsAgain (inventoryState : State) (isInventoryLoading : bool)
  (p : Provider) : bool :=
  negb (sameObject (cell p)
                   (cell (effect2 inventoryState isInventoryLoading p))).

(** The provider after [n] runs of effect 2 over the same inventory. *)
Fixpoint afterRuns (n : nat) (inventoryState : State)
  (isInventoryLoading : bool) (p : Provider) : Provider :=
  match n with
  | O => p
  | S n =>
      afterRuns n inventoryState isInventoryLoading
                (effect2 inventoryState isInventoryLoading p)
  end.

(** The states of the guard that section 4.3 of the specification
    names, read off the two cells. *)
Inductive GuardState : Type :=
| Unresolved
| Anonymous
| Authenticated (user : User.t).

Definition guardState (g : Guard) : GuardState :=
  if isLoading g then Unresolved
  else match currentUser g with
       | Some user => Authenticated user
       | None => Anonymous
       end.

(** The user value held in session storage, when the entry is a
    serialised user. *)
Definition storedUser (g : Guard) : option User.t :=
  match sessionStorage g with
  | Some (Serialized user) => Some user
  | _ => None
  end.

End AuthContext.

(* ================================================================== *)
(** * Vocabulary of the properties *)

(** [after] is [before] with every entry whose identity is that of
    [new] replaced by [new], position by position. *)
Definition ReplacedById {A} (id : A -> string) (new : A)
  (before after : list A) : Prop :=
  List.length after = List.length before /\
  forall n x, nth_error before n = Some x ->
    (id x = id new -> nth_error after n = Some new) /\
    (id x <> id new -> nth_error after n = Some x).

(** [after] is [before] without the entries of identity [i], the others
    kept as they are and in their order. *)
Inductive RemovedById {A} (id : A -> string) (i : string)
  : list A -> list A -> Prop :=
| removed_nil : RemovedById id i [] []
| removed_drop x before after :
    id x = i -> RemovedById id i before after ->
    RemovedById id i (x :: before) after
| removed_keep x before after :
    id x <> i -> RemovedById id i before after ->
    RemovedById id i (x :: before) (x :: after).

(** The identities of a collection, in its order. *)
Definition itemIds (s : State) : list string := map Item.id (items s).
Definition userIds (s : State) : list string := map User.id (users s).
Definition logIds (s : State) : list string := map LogEntry.id (logs s).
Definition notificationIds (s : State) : list string :=
  map Notification.id (notifications s).
Definition suggestionIds (s : State) : list string :=
  map Suggestion.id (suggestions s).
Definition commentIds (s : State) : list string :=
  map Comment.id (comments s).

(** The available quantity the snapshot shows for an item identity. *)
Definition availableOf (itemId : string) (s : State) : option Z :=
  option_map Item.availableQuantity
             (find (fun i => Item.id i =? itemId) (items s)).


(** [needle] occurs in [s]. *)
Fixpoint contains (needle s : string) : bool :=
  prefix needle s
  || match s with
     | EmptyString => false
     | String _ rest => contains needle rest
     end.

Section Dispatch.
Import InventoryContext.

Variable sendNewUserAdminNotification : User.t -> list User.t -> option Exn.
Variable sendAccountApprovedNotification : User.t -> option Exn.
Variable sendAccountDeniedNotification : User.t -> option Exn.

(** What the notification dispatch of an operation does when the
    operation's callback runs on result [r] and snapshot [prev]:
    [None] when it returns or when the operation has no dispatch. *)
Definition dispatched (m : Mutation) : ResultOf m -> State -> option Exn :=
  match m return ResultOf m -> State -> option Exn with
  | CreateUser _ => fun r prev =>
      sendNewUserAdminNotification
        (fst r) (filter User.isAdmin (users prev ++ [fst r])%list)
  | ApproveUser _ => fun r _ => sendAccountApprovedNotification r
  | DenyUser _ => fun r _ => sendAccountDeniedNotification r
  | _ => fun _ _ => None
  end.
End Dispatch.

(** The entities an operation's result brings into the snapshot, per
    collection, and the identity it deletes. *)
Section Created.
Import InventoryContext.

Definition newItems (m : Mutation) : ResultOf m -> list Item.t :=
  match m return ResultOf m -> list Item.t with
  | AddItem _ => fun newItem => [newItem]
  | ApproveItemSuggestion _ _ _ => fun r => [snd r]
  | ImportItems _ => fun imported => imported
  | _ => fun _ => []
  end.

Definition newUsers (m : Mutation) : ResultOf m -> list User.t :=
  match m return ResultOf m -> list User.t with
  | CreateUser _ => fun r => [fst r]
  | _ => fun _ => []
  end.

Definition newLogs (m : Mutation) : ResultOf m -> list LogEntry.t :=
  match m return ResultOf m -> list LogEntry.t with
  | RequestBorrowItem _ _ _ => fun r => [fst r]
  | ReturnItem _ _ => fun r => [fst (fst r)]
  | _ => fun _ => []
  end.

Definition newNotifications (m : Mutation)
  : ResultOf m -> list Notification.t :=
  match m return ResultOf m -> list Notification.t with
  | CreateUser _ => fun r => [snd r]
  | RequestBorrowItem _ _ _ => fun r => [snd r]
  | RequestItemReturn _ => fun r => [snd r]
  | _ => fun _ => []
  end.

Definition newSuggestions (m : Mutation) : ResultOf m -> list Suggestion.t :=
  match m return ResultOf m -> list Suggestion.t with
  | AddSuggestion _ => fun newSuggestion => [newSuggestion]
  | _ => fun _ => []
  end.

Definition newComments (m : Mutation) : ResultOf m -> list Comment.t :=
  match m return ResultOf m -> list Comment.t with
  | DenySuggestion _ _ _ => fun r => [snd r]
  | AddComment _ _ _ => fun newComment => [newComment]
  | _ => fun _ => []
  end.

Definition deletedItem (m : Mutation) : ResultOf m -> option string :=
  match m return ResultOf m -> option string with
  | DeleteItem _ => fun r => Some (ref_id r)
  | _ => fun _ => None
  end.

Definition deletedUser (m : Mutation) : ResultOf m -> option string :=
  match m return ResultOf m -> option string with
  | DeleteUser _ => fun r => Some (ref_id r)
  | _ => fun _ => None
  end.

(** The identities that stay when [deleted] goes, in their order. *)
Definition staying (deleted : option string) (ids : list string)
  : list string :=
  match deleted with
  | Some i => filter (fun j => negb (j =? i)) ids
  | None => ids
  end.
End Created.

(* ================================================================== *)
(** * Sample data *)

Definition beaker : Item.t := Item.mk "i1" "Beaker" "Glassware" 10 5.
Definition flask : Item.t := Item.mk "i2" "Flask" "Glassware" 4 4.

Definition alice : User.t :=
  User.mk "u1" "Alice" "Student" APPROVED false None.
Definition bob : User.t :=
  User.mk "u2" "Bob" "Admin" APPROVED true None.
Definition carol : User.t :=
  User.mk "u3" "Carol" "Student" PENDING false None.

(** Alice as the backend holds her: with her credential. *)
Definition aliceStored : User.t :=
  User.mk "u1" "Alice" "Student" APPROVED false (Some "hunter2").

(** Alice after an administrator withdrew the approval. *)
Definition aliceDenied : User.t :=
  User.mk "u1" "Alice" "Student" DENIED false (Some "hunter2").

Definition aliceSession : AuthContext.Guard :=
  AuthContext.mkGuard (Some alice) false (Some (AuthContext.Serialized alice)).

Definition borrowTwo : LogEntry.t :=
  LogEntry.mk "l1" "i1" "u1" BORROW 2 LOG_PENDING "2025-01-01T08:00:00Z" None.

(** What the backend may answer when the request of [borrowTwo] is
    approved and, later, when the two beakers come back. *)
Definition borrowTwoApproved : LogEntry.t :=
  LogEntry.mk "l1" "i1" "u1" BORROW 2 LOG_APPROVED "2025-01-01T08:00:00Z" None.
Definition borrowTwoReturned : LogEntry.t :=
  LogEntry.mk "l1" "i1" "u1" BORROW 2 LOG_RETURNED "2025-01-01T08:00:00Z"
              (Some "all intact").
Definition returnTwo : LogEntry.t :=
  LogEntry.mk "l2" "i1" "u1" RETURN 2 LOG_RETURNED "2025-01-02T08:00:00Z"
              (Some "all intact").
Definition beakerReturned : Item.t := Item.mk "i1" "Beaker" "Glassware" 10 7.

(** The beaker as a backend holds it whose stock is one lower than the
    snapshot shows (another client borrowed one meanwhile), after it
    approved [borrowTwo]; and as a backend without a stock check
    answers. *)
Definition beakerOnServer : Item.t := Item.mk "i1" "Beaker" "Glassware" 10 2.
Definition beakerOverdrawn : Item.t :=
  Item.mk "i1" "Beaker" "Glassware" 10 (-1).

Definition carolApproved : User.t :=
  User.mk "u3" "Carol" "Student" APPROVED false None.

Definition noteOne : Notification.t :=
  Notification.mk "n1" "new_borrow_request" "Alice asks for 2 Beaker" false.
Definition noteTwo : Notification.t :=
  Notification.mk "n2" "return_request" "Alice returns 1 Flask" false.

Definition labState : State :=
  mkState [beaker; flask] [alice; bob; carol] [borrowTwo]
          [noteOne; noteTwo] [] [].

Definition labStore : InventoryContext.Store :=
  InventoryContext.mkStore labState false None InventoryContext.synced
                           (Some 1000%Z) None.

(** A backend that answers every request with [200] and the value [v]. *)
Definition answering {T} (v : T) : Fetch T :=
  fun _ => inr (mkResponse true 200 (inl (SyntaxError "not read"))
                           (inl (TypeError "not read")) (inr v)).

(** A backend that cannot be reached. *)
Definition unreachable {T} : Fetch T :=
  fun _ => inl (TypeError "Failed to fetch").

(** A backend that answers every request with a failure status. *)
Definition refusing {T} (status : N) (json : Exn + JsonBody)
  (text : Exn + string) : Fetch T :=
  fun _ => inr (mkResponse false status json text
                           (inl (SyntaxError "not read"))).

(** Dispatches that return, and one that throws. *)
Definition quietNewUser : User.t -> list User.t -> option Exn :=
  fun _ _ => None.
Definition quiet : User.t -> option Exn := fun _ => None.
Definition throwing : User.t -> option Exn :=
  fun _ => Some (Error "mail transport is down").

(* ================================================================== *)
(** * What [InventoryProvider] renders (InventoryContext.tsx 313-329) *)

Inductive Screen : Type :=
| Loader
| ConnectionErrorScreen (message : string)
| Children (value : InventoryContext.Store).

(** [if (isLoading) ...; if (connectionError) ...; return children]: an
    empty message is falsy. *)
Definition render (s : InventoryContext.Store) : Screen :=
  if InventoryContext.isLoading s then Loader
  else match InventoryContext.connectionError s with
       | Some m => if m =? "" then Children s else ConnectionErrorScreen m
       | None => Children s
       end.

(* ================================================================== *)
(** * The life of a session guard *)

(** One call of an operation the guard offers, or one run of its
    re-validation effect.  [writable] says whether the browser accepts
    every write to session storage; where it does not, a login and a
    re-validation may also end in a refused write. *)
Inductive GuardStep (writable : bool) (g : AuthContext.Guard)
  : AuthContext.Guard -> Prop :=
| step_login hostname fetch identifier password :
    GuardStep writable g
      (AuthContext.guard
         (AuthContext.login hostname fetch identifier password g))
| step_revalidate inventoryState isInventoryLoading :
    GuardStep writable g
      (AuthContext.revalidate inventoryState isInventoryLoading g)
| step_logout :
    GuardStep writable g (AuthContext.logout g)
| step_login_refused hostname fetch identifier password refused :
    writable = false ->
    GuardStep writable g
      (AuthContext.guard
         (AuthContext.loginWriteRefused hostname fetch identifier password
                                        refused g))
| step_revalidate_refused inventoryState isInventoryLoading :
    writable = false ->
    GuardStep writable g
      (AuthContext.revalidateWriteRefused inventoryState isInventoryLoading
                                          g).

(** The guards a mounted [AuthProvider] can be in: it starts with no
    user and [isLoading] set (lines 21-22), effect 1 runs once on mount,
    and from then on only the steps above touch it. *)
Inductive Reachable (writable : bool) : AuthContext.Guard -> Prop :=
| reach_mount entry :
    Reachable writable
      (AuthContext.restoreSession (AuthContext.mkGuard None true entry))
| reach_step g g' :
    Reachable writable g -> GuardStep writable g g' -> Reachable writable g'.

(** What a mounted guard keeps true: it is resolved; what it holds is
    what it stored; and when it holds nothing, the storage has no
    session to restore. *)
Definition Settled (g : AuthContext.Guard) : Prop :=
  AuthContext.isLoading g = false /\
  match AuthContext.currentUser g with
  | Some user =>
      AuthContext.sessionStorage g = Some (AuthContext.Serialized user)
  | None =>
      AuthContext.sessionStorage g = None
      \/ AuthContext.sessionStorage g = Some AuthContext.EmptyText
  end.

(** A reload of the page: fresh cells over the same session storage,
    then effect 1. *)
Definition reload (g : AuthContext.Guard) : AuthContext.Guard :=
  AuthContext.restoreSession
    (AuthContext.mkGuard None true (AuthContext.sessionStorage g)).

(* ================================================================== *)
(** * services/settingsService.ts and context/SettingsContext.tsx *)

Module settingsService.

Record Settings : Type := mkSettings {
  title : string;
  logoUrl : string
}.

(** The text kept under [SETTINGS_STORAGE_KEY], by what [JSON.parse]
    makes of it.  Texts that parse to a value of another shape are left
    out: [loadSettings] would hand them on unchecked. *)
Inductive LocalEntry : Type :=
| Serialized (settings : Settings)   (* [JSON.stringify(settings)] *)
| NullText                           (* the text [null] *)
| Unparseable.                       (* [JSON.parse] throws *)

(** Where the code runs: whether [window] is defined, whether
    [localStorage.getItem] and [localStorage.setItem] throw, and the
    entry under the key. *)
Record Browser : Type := mkBrowser {
  hasWindow : bool;
  getItemThrows : bool;
  setItemThrows : bool;
  entry : option LocalEntry
}.

(** [loadSettings] *)
Definition loadSettings (b : Browser) : option Settings :=
  if negb (hasWindow b) then None
  else if getItemThrows b then None
  else match entry b with
       | None => None
       | Some (Serialized settings) => Some settings
       | Some NullText => None
       | Some Unparseable => None
       end.

(** [saveSettings] *)
Definition saveSettings (settings : Settings) (b : Browser) : Browser :=
  if negb (hasWindow b) then b
  else if setItemThrows b then b
  else mkBrowser (hasWindow b) (getItemThrows b) (setItemThrows b)
                 (Some (Serialized settings)).

End settingsService.

Module SettingsContext.
Import settingsService.

Definition defaultSettings : Settings := mkSettings "OliLab" "".

(** [JSON.stringify(a) !== JSON.stringify(b)] on two settings objects
    with the keys in the order the code writes them. *)
Definition sameText (a b : Settings) : bool :=
  (title a =? title b) && (logoUrl a =? logoUrl b).

(** [Partial<Settings>] *)
Record PartialSettings : Type := mkPartial {
  newTitle : option string;
  newLogoUrl : option string
}.

(** [{ ...prevSettings, ...newSettings }] *)
Definition merge (prev : Settings) (new : PartialSettings) : Settings :=
  mkSettings (match newTitle new with Some t => t | None => title prev end)
             (match newLogoUrl new with Some l => l | None => logoUrl prev end).

(** The provider: its state cell and the browser it runs in. *)
Record Provider : Type := mkProvider {
  settings : Settings;
  browser : Browser
}.

(** The save effect, run after a render in which [settings]
    changed. *)
Definition saveEffect (p : Provider) : Provider :=
  if negb (sameText (settings p) defaultSettings)
  then mkProvider (settings p) (saveSettings (settings p) (browser p))
  else p.

(** Mounting: the cell starts at the defaults; after the first render
    the load effect reads the storage and the save effect runs on the
    defaults; when the load effect found settings, the cell changes and
    the save effect runs again. *)
Definition mount (b : Browser) : Provider :=
  let storedSettings := loadSettings b in
  let first := saveEffect (mkProvider defaultSettings b) in
  match storedSettings with
  | Some stored => saveEffect (mkProvider stored (browser first))
  | None => first
  end.

(** [updateSettings], followed by the save effect. *)
Definition updateSettings (new : PartialSettings) (p : Provider) : Provider :=
  saveEffect (mkProvider (merge (settings p) new) (browser p)).

End SettingsContext.

(* ================================================================== *)
(** * services/geminiService.ts *)

Module geminiService.
Section Service.

(** [InventoryReport], of the module [types] that is not among the
    sources. *)
Variable Report : Type.

(** The data the prompt carries: the items, [logs.slice(0, 50)] and
    [users.map(u => ({id: u.id, fullName: u.fullName}))]. *)
Record Prompt : Type := mkPrompt {
  inventory : list Item.t;
  logsShown : list LogEntry.t;
  usersShown : list (string * string)
}.

(** [ai]: the client built when the module loads, [None] when
    [API_KEY] is unset or blank; as a function, its
    [models.generateContent] call and the [text] of the response. *)
Variable ai : option (Prompt -> Exn + string).

(** [JSON.parse(jsonText) as InventoryReport]: [None] when it throws
    its [SyntaxError]. *)
Variable parseReport : string -> option Report.

(** The [catch] at the end of [generateInventoryReport]. *)
Definition remap (thrown : Exn) : Exn :=
  match thrown with
  | SyntaxError _ =>
      Error "Failed to parse the AI's response. The format was invalid."
  | _ => thrown
  end.

(** [generateInventoryReport]: the calls made to the model, and the
    outcome. *)
Definition generateInventoryReport (items : list Item.t)
  (logs : list LogEntry.t) (users : list User.t)
  : list Prompt * (Exn + Report) :=
  match ai with
  | None =>
      ([], inl (Error ("API_KEY is not configured. Please set the API_KEY "
                       ++ "environment variable to use this feature.")))
  | Some generateContent =>
      let prompt :=
        mkPrompt items (firstn 50 logs)
                 (map (fun u => (User.id u, User.fullName u)) users) in
      ([prompt],
       match generateContent prompt with
       | inl thrown => inl (remap thrown)
       | inr jsonText =>
           match parseReport jsonText with
           | Some report => inr report
           | None => inl (remap (SyntaxError "JSON.parse"))
           end
       end)
  end.

End Service.
End geminiService.

(* ================================================================== *)
(** * pages/api/generate-report.ts *)

Module generateReport.
Section Handler.

Variable Report : Type.

(** The three properties the handler reads off [req.body]; [None] is a
    property that is missing or falsy (an array, even empty, is not). *)
Record Body : Type := mkBody {
  b_items : option (list Item.t);
  b_logs : option (list LogEntry.t);
  b_users : option (list User.t)
}.

(** [body = None] is a request whose body is [null] or [undefined]. *)
Record ApiRequest : Type := mkApiRequest {
  method : string;
  body : option Body
}.

Inductive Json : Type :=
| Message (message : string)
| ReportJson (report : Report).

Record ApiResponse : Type := mkApiResponse {
  status : N;
  json : Json
}.

(** The imported [generateInventoryReport], by its outcome. *)
Variable generate :
  list Item.t -> list LogEntry.t -> list User.t -> Exn + Report.

(** The message of the [TypeError] that destructuring a [null] body
    throws; its wording is the engine's. *)
Variable destructuringMessage : string.

(** One run of the handler: the arguments it called the generator
    with, and its response. *)
Record Handled : Type := mkHandled {
  generated : list (list Item.t * list LogEntry.t * list User.t);
  response : ApiResponse
}.

Definition failure (thrown : Exn) : ApiResponse :=
  mkApiResponse 500
    (Message (or_else (Some (exn_message thrown))
                      "An unknown error occurred.")).

(** [handler] *)
Definition handler (req : ApiRequest) : Handled :=
  if negb (method req =? "POST")
  then mkHandled [] (mkApiResponse 405 (Message "Method Not Allowed"))
  else
    match body req with
    | None => mkHandled [] (failure (TypeError destructuringMessage))
    | Some b =>
        match b_items b, b_logs b, b_users b with
        | Some items, Some logs, Some users =>
            mkHandled [(items, logs, users)]
              match generate items logs users with
              | inr report => mkApiResponse 200 (ReportJson report)
              | inl thrown => failure thrown
              end
        | _, _, _ =>
            mkHandled []
              (mkApiResponse 400
                 (Message "Missing required data: items, logs, and users."))
        end
    end.

End Handler.

Arguments Message {Report}.
Arguments ReportJson {Report}.
Arguments mkApiResponse {Report}.
Arguments status {Report}.
Arguments json {Report}.
Arguments mkHandled {Report}.
Arguments generated {Report}.
Arguments response {Report}.

End generateReport.

(* ================================================================== *)
(** * components/Sidebar.tsx *)

Module Sidebar.

(** A number inside a template string. *)
Definition numberText (n : Z) : string :=
  NilZero.string_of_int (Z.to_int n).

(** [formatTimeAgo].  The dates are their [getTime()], in milliseconds;
    [Math.floor] of a quotient of integers is [Z.div]. *)
Definition formatTimeAgo (now : Z) (date : option Z) : string :=
  match date with
  | None => "never"
  | Some d =>
      let seconds := ((now - d) / 1000)%Z in
      if (seconds <? 5)%Z then "just now"
      else if (seconds <? 60)%Z then numberText seconds ++ "s ago"
      else
        let minutes := (seconds / 60)%Z in
        if (minutes <? 60)%Z then numberText minutes ++ "m ago"
        else
          let hours := (minutes / 60)%Z in
          if (hours <? 24)%Z then numberText hours ++ "h ago"
          else
            let days := (hours / 24)%Z in
            numberText days ++ "d ago"
  end.

(** [pendingUsersCount] *)
Definition pendingUsersCount (state : State) : nat :=
  List.length
    (filter (fun u => UserStatus_eqb (User.status u) PENDING) (users state)).

(** [borrowLogBadgeCount] *)
Definition borrowLogBadgeCount (state : State) : nat :=
  let returnRequests :=
    List.length
      (filter (fun n => (Notification.type n =? "return_request")
                        && negb (Notification.read n))
              (notifications state)) in
  let borrowRequests :=
    List.length
      (filter (fun n => (Notification.type n =? "new_borrow_request")
                        && negb (Notification.read n))
              (notifications state)) in
  (returnRequests + borrowRequests)%nat.

End Sidebar.

(* ================================================================== *)
(** * The dashboard page *)

(** The numbers of JavaScript are IEEE 754 doubles: [a + b] and [a - b]
    are the exact result rounded to the nearest double, ties to the
    even one.  [roundToDouble] is that rounding on an exact result that
    is an integer: every integer up to [2^53] in magnitude is a double,
    and beyond, a double has 53 significant bits.  (An exact result
    from [2^1024] on is [Infinity], which quantities kept as integers
    leave out.) *)
Definition roundToDouble (z : Z) : Z :=
  let m := Z.abs z in
  if (m <=? 2 ^ 53)%Z then z
  else
    let ulp := (2 ^ (Z.log2 m - 52))%Z in
    let q := (m / ulp)%Z in
    let r := (m mod ulp)%Z in
    let up :=
      if (2 * r <? ulp)%Z then false
      else if (ulp <? 2 * r)%Z then true
      else Z.odd q in
    (Z.sgn z * ((if up then q + 1 else q) * ulp))%Z.

(** What the sums below need of the rounding: a result within the
    integers that doubles hold exactly is not changed. *)
Definition ExactOnSafeIntegers (toDouble : Z -> Z) : Prop :=
  forall z : Z, (- 2 ^ 53 <= z <= 2 ^ 53)%Z -> toDouble z = z.

Module Dashboard.
Section Stats.

(** The rounding of the engine's numbers; [roundToDouble] for a
    browser. *)
Variable toDouble : Z -> Z.

Definition plus (a b : Z) : Z := toDouble (a + b).
Definition minus (a b : Z) : Z := toDouble (a - b).

(** The two sums of [stats]. *)
Definition totalItems (state : State) : Z :=
  fold_left (fun sum item => plus sum (Item.totalQuantity item))
            (items state) 0%Z.

Definition borrowedItems (state : State) : Z :=
  fold_left
    (fun sum item =>
       plus sum (minus (Item.totalQuantity item)
                       (Item.availableQuantity item)))
    (items state) 0%Z.

End Stats.

(** The count of approved users of [stats]. *)
Definition userCount (state : State) : nat :=
  List.length
    (filter (fun u => UserStatus_eqb (User.status u) APPROVED) (users state)).

(** A row of "Recent Activity": the log with the two names added. *)
Record RecentLog : Type := mkRecentLog {
  log : LogEntry.t;
  itemName : string;
  userName : string
}.

(** [recentLogs]: [N/A] stands for a name that is missing or empty. *)
Definition recentLogs (state : State) : list RecentLog :=
  map (fun log =>
         let item :=
           find (fun i => Item.id i =? LogEntry.itemId log) (items state) in
         let user :=
           find (fun u => User.id u =? LogEntry.userId log) (users state) in
         mkRecentLog log
                     (or_else (option_map Item.name item) "N/A")
                     (or_else (option_map User.fullName user) "N/A"))
      (firstn 5 (logs state)).

End Dashboard.

(* ================================================================== *)
(** * pages/_app.tsx: the route guard of [AppLayout] *)

Module App.

Definition publicPages : list string := ["/login"; "/signup"].
Definition adminPages : list string := ["/log"; "/users"; "/reports"].

(** [publicPages.includes(router.pathname)] *)
Definition isPublicPage (pathname : string) : bool :=
  existsb (fun p => p =? pathname) publicPages.

(** [adminPages.some(p => router.pathname.startsWith(p))] *)
Definition isAdminPage (pathname : string) : bool :=
  existsb (fun p => prefix p pathname) adminPages.

(** [currentUser?.isAdmin], falsy without a user. *)
Definition holdsAdmin (g : AuthContext.Guard) : bool :=
  match AuthContext.currentUser g with
  | Some user => User.isAdmin user
  | None => false
  end.

(** The effect of lines 306-314: the path it asks the router to
    replace the current one with, if any. *)
Definition redirect (g : AuthContext.Guard) (pathname : string)
  : option string :=
  if AuthContext.isLoading g then None
  else if negb (AuthContext.isAuthenticated g) && negb (isPublicPage pathname)
  then Some "/login"
  else if AuthContext.isAuthenticated g && isAdminPage pathname
          && negb (holdsAdmin g)
  then Some "/dashboard"
  else None.

End App.

(** Splits the conjunctions that are written in the goal, without
    unfolding a definition to find one. *)
Ltac split_ands := repeat match goal with |- _ /\ _ => split end.

(* ================================================================== *)
(** * Replace-by-identity and remove-by-identity on lists *)

Section ById.
Context {A : Type} (id : A -> string).

Lemma replace_by_id_spec :
  forall (new : A) (l : list A),
    ReplacedById id new l (map (fun x => if id x =? id new then new else x) l).
Proof.
  intros new l. split.
  - apply length_map.
  - intros n x Hn. rewrite nth_error_map, Hn. cbn [option_map].
    split; intros Hid.
    + apply String.eqb_eq in Hid. rewrite Hid. reflexivity.
    + apply String.eqb_neq in Hid. rewrite Hid. reflexivity.
Qed.

Lemma replace_by_id_ids :
  forall (new : A) (l : list A),
    map id (map (fun x => if id x =? id new then new else x) l) = map id l.
Proof.
  intros new l. induction l as [|x l IH]; cbn [map].
  - reflexivity.
  - rewrite IH. destruct (String.eqb_spec (id x) (id new)) as [Heq|_].
    + rewrite Heq. reflexivity.
    + reflexivity.
Qed.

Lemma remove_by_id_spec :
  forall (i : string) (l : list A),
    RemovedById id i l (filter (fun x => negb (id x =? i)) l).
Proof.
  intros i l. induction l as [|x l IH]; cbn [filter].
  - constructor.
  - destruct (String.eqb_spec (id x) i) as [Heq|Hne]; cbn [negb].
    + apply removed_drop; assumption.
    + apply removed_keep; assumption.
Qed.

Lemma remove_by_id_absent :
  forall (i : string) (l : list A),
    (forall x, In x l -> id x <> i) ->
    filter (fun x => negb (id x =? i)) l = l.
Proof.
  intros i l. induction l as [|x l IH]; intros Habs; cbn [filter].
  - reflexivity.
  - destruct (String.eqb_spec (id x) i) as [Heq|_]; cbn [negb].
    + exfalso. apply (Habs x); [left; reflexivity | exact Heq].
    + f_equal. apply IH. intros y Hy. apply Habs. right. exact Hy.
Qed.

Lemma remove_by_id_ids :
  forall (i : string) (l : list A),
    map id (filter (fun x => negb (id x =? i)) l) =
    filter (fun j => negb (j =? i)) (map id l).
Proof.
  intros i l. induction l as [|x l IH]; cbn [filter map].
  - reflexivity.
  - destruct (id x =? i); cbn [negb map]; rewrite IH; reflexivity.
Qed.

(** What [RemovedById] says of membership, multiplicity aside. *)
Lemma removed_by_id_members :
  forall (i : string) (before after : list A),
    RemovedById id i before after ->
    forall x, In x after <-> In x before /\ id x <> i.
Proof.
  intros i before after H. induction H as [|y b a Hy _ IH|y b a Hy _ IH];
    intros x; cbn [In].
  - tauto.
  - rewrite IH. split.
    + intros [Hin Hne]. split; [right; exact Hin | exact Hne].
    + intros [[Heq|Hin] Hne]; [subst y; contradiction | split; assumption].
  - rewrite IH. split.
    + intros [Heq|[Hin Hne]].
      * subst y. split; [left; reflexivity | exact Hy].
      * split; [right; exact Hin | exact Hne].
    + intros [[Heq|Hin] Hne]; [left; exact Heq | right; split; assumption].
Qed.

(** Looking an identity up after a replace-by-identity. *)
Lemma find_replaced_same :
  forall (new : A) (l : list A) (x : A),
    find (fun y => id y =? id new) l = Some x ->
    find (fun y => id y =? id new)
         (map (fun y => if id y =? id new then new else y) l) = Some new.
Proof.
  intros new l. induction l as [|y l IH]; intros x Hfind; cbn [find map] in *.
  - discriminate.
  - destruct (id y =? id new) eqn:Hy.
    + rewrite String.eqb_refl. reflexivity.
    + rewrite Hy. apply (IH x). exact Hfind.
Qed.

Lemma find_replaced_other :
  forall (new : A) (k : string) (l : list A),
    k <> id new ->
    find (fun y => id y =? k)
         (map (fun y => if id y =? id new then new else y) l) =
    find (fun y => id y =? k) l.
Proof.
  intros new k l Hk. induction l as [|y l IH]; cbn [find map].
  - reflexivity.
  - destruct (String.eqb_spec (id y) (id new)) as [Heq|Hne].
    + assert (Hnew : (id new =? k) = false).
      { apply String.eqb_neq. intros H. apply Hk. symmetry. exact H. }
      rewrite Hnew, Heq, Hnew. exact IH.
    + destruct (id y =? k); [reflexivity | exact IH].
Qed.

End ById.

Lemma includes_In :
  forall (ids : list string) (i : string),
    InventoryContext.includes ids i = true <-> In i ids.
Proof.
  intros ids i. unfold InventoryContext.includes. rewrite existsb_exists.
  split.
  - intros (r & Hin & Heq). apply String.eqb_eq in Heq. subst r. exact Hin.
  - intros Hin. exists i. split; [exact Hin | apply String.eqb_refl].
Qed.

Lemma markRead_ids :
  forall (ids : list string) (l : list Notification.t),
    map Notification.id
        (map (fun n => if InventoryContext.includes ids (Notification.id n)
                       then InventoryContext.markRead n else n) l) =
    map Notification.id l.
Proof.
  intros ids l. induction l as [|n l IH]; cbn [map].
  - reflexivity.
  - rewrite IH. destruct (InventoryContext.includes ids (Notification.id n));
      reflexivity.
Qed.

(* ================================================================== *)
(** * Properties of the state store *)

Section StoreProperties.
Import InventoryContext.

Variable hostname : option string.
Variable now : Z.
Variable sendNewUserAdminNotification : User.t -> list User.t -> option Exn.
Variable sendAccountApprovedNotification : User.t -> option Exn.
Variable sendAccountDeniedNotification : User.t -> option Exn.

Abbreviation run_mutation :=
  (perform hostname now sendNewUserAdminNotification
           sendAccountApprovedNotification sendAccountDeniedNotification).

Abbreviation dispatch_of :=
  (dispatched sendNewUserAdminNotification sendAccountApprovedNotification
              sendAccountDeniedNotification).

(** The three phases of [handleApiCall] when the API call rejects. *)
Lemma handleApiCall_rejected :
  forall T (call : ApiCall T) updateState s e,
    snd call = inl e ->
    handleApiCall now call updateState s =
    mkRun (fst call)
          [setSyncStatus syncing s;
           setSyncStatus error (setSyncStatus syncing s)]
          (inl e).
Proof.
  intros T call updateState s e Hcall.
  unfold handleApiCall. rewrite Hcall. reflexivity.
Qed.

(** ... when it resolves and the callback returns. *)
Lemma handleApiCall_resolved :
  forall T (call : ApiCall T) updateState s r s2,
    snd call = inr r ->
    updateState r (setSyncStatus syncing s) = (s2, None) ->
    handleApiCall now call updateState s =
    mkRun (fst call)
          [setSyncStatus syncing s; s2; setSyncStatus synced s2;
           setLastSynced (Some now) (setSyncStatus synced s2)]
          (inr tt).
Proof.
  intros T call updateState s r s2 Hcall Hupd.
  unfold handleApiCall. rewrite Hcall, Hupd. reflexivity.
Qed.

(** ... and when it resolves and the callback throws. *)
Lemma handleApiCall_callback_threw :
  forall T (call : ApiCall T) updateState s r s2 e,
    snd call = inr r ->
    updateState r (setSyncStatus syncing s) = (s2, Some e) ->
    handleApiCall now call updateState s =
    mkRun (fst call)
          [setSyncStatus syncing s; s2; setSyncStatus error s2]
          (inl e).
Proof.
  intros T call updateState s r s2 e Hcall Hupd.
  unfold handleApiCall. rewrite Hcall, Hupd. reflexivity.
Qed.

(** Every operation whose API call rejects runs the same two steps. *)
Lemma perform_rejected :
  forall (m : Mutation) (fetch : Fetch (ResultOf m)) s e,
    snd (apiCall hostname m fetch) = inl e ->
    run_mutation m fetch s =
    mkRun (fst (apiCall hostname m fetch))
          [setSyncStatus syncing s;
           setSyncStatus error (setSyncStatus syncing s)]
          (inl e).
Proof.
  intros m fetch s e Hcall.
  destruct m; cbn [apiCall] in Hcall; cbn [perform apiCall];
    try (apply handleApiCall_rejected; exact Hcall).
  (* createUser *)
  unfold void, createUser.
  rewrite (handleApiCall_rejected _ _ _ _ _ Hcall). reflexivity.
Qed.

(** Every operation whose API call resolves with [r] and whose dispatch,
    if it has one, returns: one [setState] with the operation's patch,
    between [syncing] and [synced]. *)
Lemma perform_resolved :
  forall (m : Mutation) (fetch : Fetch (ResultOf m)) s r,
    snd (apiCall hostname m fetch) = inr r ->
    dispatch_of m r (state s) = None ->
    let s1 := setSyncStatus syncing s in
    let s2 := setState (returning (patch m r)) s1 in
    run_mutation m fetch s =
    mkRun (fst (apiCall hostname m fetch))
          [s1; s2; setSyncStatus synced s2;
           setLastSynced (Some now) (setSyncStatus synced s2)]
          (inr tt).
Proof.
  intros m fetch s r Hcall Hdisp.
  destruct m; cbn [apiCall] in Hcall; cbn [dispatched] in Hdisp;
    cbn [perform apiCall patch] in *;
    try (apply handleApiCall_resolved with (r := r);
         [exact Hcall | unfold patching; try rewrite Hdisp; reflexivity]).
  (* createUser *)
  unfold void, createUser.
  rewrite (handleApiCall_resolved _ _ _ s r
             (setState (returning (createUser_patch (fst r) (snd r)))
                       (setSyncStatus syncing s)) Hcall).
  - cbv zeta. cbn [requests versions result].
    destruct (snd (api.createUser hostname fetch userData)); reflexivity.
  - unfold setState, createUser_updater, returning. cbn [state setSyncStatus].
    rewrite Hdisp. reflexivity.
Qed.

(** C3.  Whatever the mutation operation, when its API call fails with
    [e]: every version of the store the operation produces carries the
    snapshot it started from (no patch is applied), the store ends with
    sync status [error] and its last-synced time untouched, and the
    operation's promise rejects with that same [e]. *)
Theorem mutation_failure_keeps_snapshot :
  forall (m : Mutation) (fetch : Fetch (ResultOf m)) (s : Store) (e : Exn),
    snd (apiCall hostname m fetch) = inl e ->
    let run := run_mutation m fetch s in
    result run = inl e /\
    (forall v, In v (versions run) -> state v = state s) /\
    state (final s run) = state s /\
    syncStatus (final s run) = error /\
    lastSynced (final s run) = lastSynced s /\
    renderError (final s run) = renderError s.
Proof.
  intros m fetch s e Hcall run. subst run.
  rewrite (perform_rejected m fetch s e Hcall).
  unfold final. cbn [result versions last].
  repeat split; try reflexivity.
  intros v [Hv|[Hv|[]]]; subst v; reflexivity.
Qed.

(** The snapshot of every version an operation produces, when its API
    call resolves and its dispatch returns: the one it started from or
    the patched one. *)
Lemma perform_resolved_versions :
  forall (m : Mutation) (fetch : Fetch (ResultOf m)) s r,
    snd (apiCall hostname m fetch) = inr r ->
    dispatch_of m r (state s) = None ->
    let run := run_mutation m fetch s in
    result run = inr tt /\
    state (final s run) = patch m r (state s) /\
    syncStatus (final s run) = synced /\
    lastSynced (final s run) = Some now /\
    forall v, In v (versions run) ->
      state v = state s \/ state v = patch m r (state s).
Proof.
  intros m fetch s r Hcall Hdisp run. subst run.
  rewrite (perform_resolved m fetch s r Hcall Hdisp).
  unfold final. cbn [result versions last].
  repeat split; try reflexivity.
  intros v [Hv|[Hv|[Hv|[Hv|[]]]]]; subst v; cbn; auto.
Qed.

(** The initial load settles either way with [isLoading] cleared: with
    the loaded snapshot, or with a connection error and the snapshot it
    had. *)
Lemma loadData_settles :
  forall (fetch : Fetch State) (s : Store),
    let run := loadData hostname now fetch s in
    result run = inr tt /\
    isLoading (final s run) = false /\
    (forall loaded,
        snd (api.getInitialData hostname fetch) = inr loaded ->
        state (final s run) = loaded /\
        syncStatus (final s run) = synced /\
        connectionError (final s run) = None) /\
    (forall e,
        snd (api.getInitialData hostname fetch) = inl e ->
        state (final s run) = state s /\
        syncStatus (final s run) = error /\
        connectionError (final s run)
          = Some (or_else (Some (exn_message e))
                          "An unknown error occurred.")).
Proof.
  intros fetch s run. subst run. unfold loadData, final.
  destruct (snd (api.getInitialData hostname fetch)) as [e|loaded];
    cbn [result versions last]; split_ands; try reflexivity.
  - intros loaded Hl. discriminate.
  - intros e' He. injection He as <-. split_ands; reflexivity.
  - intros loaded' Hl. injection Hl as <-. split_ands; reflexivity.
  - intros e He. discriminate.
Qed.

End StoreProperties.

(** ** Operations without a dispatch *)

Section OperationProperties.
Import InventoryContext.

Variable hostname : option string.
Variable now : Z.

(** C4.  When the return-item call resolves with
    [{returnLog, updatedBorrowLog, updatedItem}], the operation succeeds
    and the snapshot it leaves has, all at once: [returnLog] at the head
    of the logs, followed by the former logs with the entries of
    [updatedBorrowLog]'s identity replaced by it; the former items with
    the entries of [updatedItem]'s identity replaced by it; and the
    users, notifications, suggestions and comments it started with.
    Every version of the store the operation produces carries either the
    snapshot it started from or that final snapshot: none carries part
    of the changes. *)
Theorem returnItem_single_transition :
  forall (fetch : Fetch (LogEntry.t * LogEntry.t * Item.t))
         (borrowLog : LogEntry.t) (adminNotes : string) (s : Store)
         (returnLog updatedBorrowLog : LogEntry.t) (updatedItem : Item.t),
    snd (api.returnItem hostname fetch borrowLog adminNotes)
      = inr (returnLog, updatedBorrowLog, updatedItem) ->
    let run := returnItem hostname now fetch borrowLog adminNotes s in
    let after := state (final s run) in
    result run = inr tt /\
    (exists rest,
        logs after = returnLog :: rest /\
        ReplacedById LogEntry.id updatedBorrowLog (logs (state s)) rest) /\
    ReplacedById Item.id updatedItem (items (state s)) (items after) /\
    users after = users (state s) /\
    notifications after = notifications (state s) /\
    suggestions after = suggestions (state s) /\
    comments after = comments (state s) /\
    (forall v, In v (versions run) ->
       state v = state s \/ state v = after).
Proof.
  intros fetch borrowLog adminNotes s returnLog updatedBorrowLog updatedItem
         Hcall run after.
  destruct (perform_resolved_versions hostname now quietNewUser quiet quiet
              (ReturnItem borrowLog adminNotes) fetch s _ Hcall eq_refl)
    as (Hres & Hfin & _ & _ & Hvers).
  change (perform hostname now quietNewUser quiet quiet
                 (ReturnItem borrowLog adminNotes) fetch s) with run
    in Hres, Hfin, Hvers.
  cbn [patch fst snd] in Hfin, Hvers.
  subst after. rewrite Hfin. unfold returnItem_patch. cbn [logs items users
    notifications suggestions comments].
  split_ands; try reflexivity.
  - exact Hres.
  - eexists. split; [reflexivity | apply replace_by_id_spec].
  - apply replace_by_id_spec.
  - exact Hvers.
Qed.

(** C6.  The delete patches, for items and for users alike.  When no
    entry of the collection has the identity, the patch returns the
    snapshot it was given; in every case the collection afterwards is
    the former one without the entries of that identity (the others as
    they were, in their order) and the other five collections are
    untouched.  The patch is a total function, and the operation that
    applies it succeeds whenever its API call resolves. *)
Theorem delete_patch_removes_by_identity :
  forall (i : string) (prev : State),
    ((forall x, In x (items prev) -> Item.id x <> i) ->
       deleteItem_patch (mkIdRef i) prev = prev) /\
    ((forall u, In u (users prev) -> User.id u <> i) ->
       deleteUser_patch (mkIdRef i) prev = prev) /\
    RemovedById Item.id i (items prev)
                (items (deleteItem_patch (mkIdRef i) prev)) /\
    RemovedById User.id i (users prev)
                (users (deleteUser_patch (mkIdRef i) prev)) /\
    (let after := deleteItem_patch (mkIdRef i) prev in
     users after = users prev /\ logs after = logs prev /\
     notifications after = notifications prev /\
     suggestions after = suggestions prev /\ comments after = comments prev) /\
    (let after := deleteUser_patch (mkIdRef i) prev in
     items after = items prev /\ logs after = logs prev /\
     notifications after = notifications prev /\
     suggestions after = suggestions prev /\ comments after = comments prev) /\
    (forall (fetch : Fetch IdRef) (requested : string) (s : Store),
       state s = prev ->
       snd (api.deleteItem hostname fetch requested) = inr (mkIdRef i) ->
       let run := deleteItem hostname now fetch requested s in
       result run = inr tt /\
       state (final s run) = deleteItem_patch (mkIdRef i) prev) /\
    (forall (fetch : Fetch IdRef) (requested : string) (s : Store),
       state s = prev ->
       snd (api.deleteUser hostname fetch requested) = inr (mkIdRef i) ->
       let run := deleteUser hostname now fetch requested s in
       result run = inr tt /\
       state (final s run) = deleteUser_patch (mkIdRef i) prev).
Proof.
  intros i prev.
  split_ands.
  - intros Habs. unfold deleteItem_patch. cbn [ref_id].
    rewrite (remove_by_id_absent Item.id i (items prev) Habs).
    destruct prev; reflexivity.
  - intros Habs. unfold deleteUser_patch. cbn [ref_id].
    rewrite (remove_by_id_absent User.id i (users prev) Habs).
    destruct prev; reflexivity.
  - apply (remove_by_id_spec Item.id).
  - apply (remove_by_id_spec User.id).
  - repeat split.
  - repeat split.
  - intros fetch requested s Hs Hcall run.
    destruct (perform_resolved_versions hostname now quietNewUser quiet quiet
                (DeleteItem requested) fetch s _ Hcall eq_refl)
      as (Hres & Hfin & _).
    subst prev. split; [exact Hres | exact Hfin].
  - intros fetch requested s Hs Hcall run.
    destruct (perform_resolved_versions hostname now quietNewUser quiet quiet
                (DeleteUser requested) fetch s _ Hcall eq_refl)
      as (Hres & Hfin & _).
    subst prev. split; [exact Hres | exact Hfin].
Qed.

(** C5, as the code has it.  When the approve-borrow call resolves with
    [{updatedLog, updatedItem}], the operation succeeds and the snapshot
    it leaves has every item entry of [updatedItem]'s identity replaced
    by [updatedItem] and every log entry of [updatedLog]'s identity
    replaced by [updatedLog].  So the available quantity the snapshot
    shows for that item afterwards is the one the server answered with,
    whatever the snapshot showed before and whatever the quantity of the
    log; no other item's quantity changes. *)
Theorem approveBorrowRequest_stores_returned_item :
  forall (fetch : Fetch (LogEntry.t * Item.t)) (logId : string) (s : Store)
         (updatedLog : LogEntry.t) (updatedItem : Item.t),
    snd (api.approveBorrowRequest hostname fetch logId)
      = inr (updatedLog, updatedItem) ->
    let run := approveBorrowRequest hostname now fetch logId s in
    let after := state (final s run) in
    result run = inr tt /\
    ReplacedById Item.id updatedItem (items (state s)) (items after) /\
    ReplacedById LogEntry.id updatedLog (logs (state s)) (logs after) /\
    (forall before,
        availableOf (Item.id updatedItem) (state s) = Some before ->
        availableOf (Item.id updatedItem) after
          = Some (Item.availableQuantity updatedItem)) /\
    (forall other,
        other <> Item.id updatedItem ->
        availableOf other after = availableOf other (state s)).
Proof.
  intros fetch logId s updatedLog updatedItem Hcall run after.
  destruct (perform_resolved_versions hostname now quietNewUser quiet quiet
              (ApproveBorrowRequest logId) fetch s _ Hcall eq_refl)
    as (Hres & Hfin & _).
  change (perform hostname now quietNewUser quiet quiet
                 (ApproveBorrowRequest logId) fetch s) with run
    in Hres, Hfin.
  cbn [patch fst snd] in Hfin.
  subst after. rewrite Hfin. unfold approveBorrowRequest_patch, availableOf.
  cbn [logs items].
  split_ands.
  - exact Hres.
  - apply replace_by_id_spec.
  - apply replace_by_id_spec.
  - intros before Hbefore.
    destruct (find (fun i => Item.id i =? Item.id updatedItem)
                   (items (state s))) as [x|] eqn:Hfind.
    + rewrite (find_replaced_same Item.id updatedItem _ x Hfind). reflexivity.
    + discriminate.
  - intros other Hother.
    rewrite (find_replaced_other Item.id updatedItem other _ Hother).
    reflexivity.
Qed.

(** C8.  [markNotificationsAsRead] issues no request: neither the API
    function nor the operation.  The API function resolves with the
    identities it was given, the operation succeeds, and the snapshot it
    leaves keeps every collection but the notifications; there, position
    by position, a notification whose identity is among the given ones is
    replaced by itself with [read] set (its other fields kept), and any
    other notification stays as it is. *)
Theorem markNotificationsAsRead_marks_listed :
  forall (ids : list string) (s : Store),
    let call := api.markNotificationsAsRead ids in
    let run := markNotificationsAsRead now ids s in
    let after := state (final s run) in
    fst call = [] /\ snd call = inr ids /\
    requests run = [] /\ result run = inr tt /\
    List.length (notifications after)
      = List.length (notifications (state s)) /\
    (forall n x,
        nth_error (notifications (state s)) n = Some x ->
        (In (Notification.id x) ids ->
           nth_error (notifications after) n = Some (markRead x)) /\
        (~ In (Notification.id x) ids ->
           nth_error (notifications after) n = Some x)) /\
    (forall x,
        Notification.read (markRead x) = true /\
        Notification.id (markRead x) = Notification.id x /\
        Notification.type (markRead x) = Notification.type x /\
        Notification.message (markRead x) = Notification.message x) /\
    items after = items (state s) /\
    users after = users (state s) /\
    logs after = logs (state s) /\
    suggestions after = suggestions (state s) /\
    comments after = comments (state s).
Proof.
  intros ids s call run after. subst call run after.
  unfold markNotificationsAsRead, api.markNotificationsAsRead,
    handleApiCall, patching, final.
  cbn [fst snd versions last requests result state setState returning
       setSyncStatus setLastSynced markNotificationsAsRead_patch
       items users logs notifications suggestions comments].
  split_ands; try reflexivity.
  - apply length_map.
  - intros n x Hn. rewrite nth_error_map, Hn. cbn [option_map].
    split.
    + intros Hin. apply includes_In in Hin. rewrite Hin. reflexivity.
    + intros Hnot.
      destruct (includes ids (Notification.id x)) eqn:Hinc.
      * exfalso. apply Hnot. apply includes_In. exact Hinc.
      * reflexivity.
  - intros x. split_ands; reflexivity.
Qed.

End OperationProperties.

(** ** Operations with a notification dispatch *)

Section DispatchProperties.
Import InventoryContext.

Variable hostname : option string.
Variable now : Z.
Variable sendNewUserAdminNotification : User.t -> list User.t -> option Exn.
Variable sendAccountApprovedNotification : User.t -> option Exn.
Variable sendAccountDeniedNotification : User.t -> option Exn.

(** C9, as the code has it.  For a create-user, approve-user or
    deny-user call that resolves, whenever the call of the notification
    dispatch returns to the operation (the dispatch is not awaited, so
    what becomes of the notification afterwards is not observed): the
    operation succeeds, the snapshot it leaves is the patched one, the
    sync status is [synced] and the provider keeps rendering. *)
Theorem user_mutations_succeed_when_dispatch_returns :
  forall (s : Store),
    (forall (fetch : Fetch (User.t * Notification.t)) (userData : UserData)
            (newUser : User.t) (newNotification : Notification.t),
        snd (api.createUser hostname fetch userData)
          = inr (newUser, newNotification) ->
        sendNewUserAdminNotification
          newUser (filter User.isAdmin (users (state s) ++ [newUser])%list)
          = None ->
        let run :=
          createUser hostname now sendNewUserAdminNotification fetch
                     userData s in
        result run = inr (User.id newUser) /\
        state (final s run)
          = createUser_patch newUser newNotification (state s) /\
        syncStatus (final s run) = synced /\
        renderError (final s run) = renderError s) /\
    (forall (fetch : Fetch User.t) (userId : string) (approvedUser : User.t),
        snd (api.approveUser hostname fetch userId) = inr approvedUser ->
        sendAccountApprovedNotification approvedUser = None ->
        let run :=
          approveUser hostname now sendAccountApprovedNotification fetch
                      userId s in
        result run = inr tt /\
        state (final s run) = approveUser_patch approvedUser (state s) /\
        syncStatus (final s run) = synced /\
        renderError (final s run) = renderError s) /\
    (forall (fetch : Fetch User.t) (userId : string) (deniedUser : User.t),
        snd (api.denyUser hostname fetch userId) = inr deniedUser ->
        sendAccountDeniedNotification deniedUser = None ->
        let run :=
          denyUser hostname now sendAccountDeniedNotification fetch userId s in
        result run = inr tt /\
        state (final s run) = denyUser_patch deniedUser (state s) /\
        syncStatus (final s run) = synced /\
        renderError (final s run) = renderError s).
Proof.
  intros s. split_ands.
  - intros fetch userData newUser newNotification Hcall Hdisp run. subst run.
    unfold createUser, handleApiCall, final. rewrite Hcall.
    cbn [fst snd versions last result requests].
    unfold setState, createUser_updater. cbn [state setSyncStatus fst snd].
    rewrite Hdisp. split_ands; reflexivity.
  - intros fetch userId approvedUser Hcall Hdisp run. subst run.
    unfold approveUser, handleApiCall, final. rewrite Hcall, Hdisp.
    split_ands; reflexivity.
  - intros fetch userId deniedUser Hcall Hdisp run. subst run.
    unfold denyUser, handleApiCall, final. rewrite Hcall, Hdisp.
    split_ands; reflexivity.
Qed.

(** What a throwing dispatch does to approve-user and deny-user: the
    patch has been applied, and the exception reaches the [catch] of
    [handleApiCall]. *)
Lemma approve_deny_dispatch_threw :
  forall (s : Store) (e : Exn),
    (forall (fetch : Fetch User.t) (userId : string) (approvedUser : User.t),
        snd (api.approveUser hostname fetch userId) = inr approvedUser ->
        sendAccountApprovedNotification approvedUser = Some e ->
        let run :=
          approveUser hostname now sendAccountApprovedNotification fetch
                      userId s in
        result run = inl e /\
        state (final s run) = approveUser_patch approvedUser (state s) /\
        syncStatus (final s run) = error) /\
    (forall (fetch : Fetch User.t) (userId : string) (deniedUser : User.t),
        snd (api.denyUser hostname fetch userId) = inr deniedUser ->
        sendAccountDeniedNotification deniedUser = Some e ->
        let run :=
          denyUser hostname now sendAccountDeniedNotification fetch userId s in
        result run = inl e /\
        state (final s run) = denyUser_patch deniedUser (state s) /\
        syncStatus (final s run) = error).
Proof.
  intros s e. split.
  - intros fetch userId approvedUser Hcall Hdisp run. subst run.
    unfold approveUser, handleApiCall, final. rewrite Hcall, Hdisp.
    split_ands; reflexivity.
  - intros fetch userId deniedUser Hcall Hdisp run. subst run.
    unfold denyUser, handleApiCall, final. rewrite Hcall, Hdisp.
    split_ands; reflexivity.
Qed.

End DispatchProperties.

(** C10.  For every operation and every result of its API call, the
    patch keeps the identities of each collection in their former order
    (a delete drops the deleted identity, a replace-by-identity or a
    read-marking keeps every identity in place) and puts the entities
    the result brings in at a fixed place: new items and new users after
    the former ones; new logs, notifications, suggestions and comments
    before the former ones. *)
Theorem patches_keep_order :
  forall (m : InventoryContext.Mutation) (r : InventoryContext.ResultOf m)
         (prev : State),
    let after := InventoryContext.patch m r prev in
    itemIds after
      = (staying (deletedItem m r) (itemIds prev)
         ++ map Item.id (newItems m r))%list /\
    userIds after
      = (staying (deletedUser m r) (userIds prev)
         ++ map User.id (newUsers m r))%list /\
    logIds after
      = (map LogEntry.id (newLogs m r) ++ logIds prev)%list /\
    notificationIds after
      = (map Notification.id (newNotifications m r)
         ++ notificationIds prev)%list /\
    suggestionIds after
      = (map Suggestion.id (newSuggestions m r) ++ suggestionIds prev)%list /\
    commentIds after
      = (map Comment.id (newComments m r) ++ commentIds prev)%list.
Proof.
  intros m r prev after. subst after.
  unfold itemIds, userIds, logIds, notificationIds, suggestionIds, commentIds.
  destruct m;
    cbn [InventoryContext.patch deletedItem deletedUser staying
         newItems newUsers newLogs newNotifications newSuggestions
         newComments map app];
    unfold InventoryContext.addItem_patch, InventoryContext.editItem_patch,
      InventoryContext.deleteItem_patch, InventoryContext.createUser_patch,
      InventoryContext.editUser_patch, InventoryContext.deleteUser_patch,
      InventoryContext.approveUser_patch, InventoryContext.denyUser_patch,
      InventoryContext.requestBorrowItem_patch,
      InventoryContext.approveBorrowRequest_patch,
      InventoryContext.denyBorrowRequest_patch,
      InventoryContext.returnItem_patch,
      InventoryContext.requestItemReturn_patch,
      InventoryContext.markNotificationsAsRead_patch,
      InventoryContext.addSuggestion_patch,
      InventoryContext.approveItemSuggestion_patch,
      InventoryContext.approveFeatureSuggestion_patch,
      InventoryContext.denySuggestion_patch,
      InventoryContext.importItems_patch,
      InventoryContext.addComment_patch;
    cbn [items users logs notifications suggestions comments map];
    repeat rewrite map_app;
    repeat rewrite (replace_by_id_ids Item.id);
    repeat rewrite (replace_by_id_ids User.id);
    repeat rewrite (replace_by_id_ids LogEntry.id);
    repeat rewrite (replace_by_id_ids Suggestion.id);
    repeat rewrite (remove_by_id_ids Item.id);
    repeat rewrite (remove_by_id_ids User.id);
    repeat rewrite markRead_ids;
    repeat rewrite app_nil_r;
    split_ands; reflexivity.
Qed.

(* ================================================================== *)
(** * Properties of the API client *)

Lemma prefix_refl : forall s : string, prefix s s = true.
Proof.
  induction s as [|c s IH]; cbn [prefix].
  - reflexivity.
  - destruct (ascii_dec c c) as [_|Hne]; [exact IH | contradiction].
Qed.

Lemma contains_suffix :
  forall before needle : string, contains needle (before ++ needle) = true.
Proof.
  induction before as [|c before IH]; intros needle.
  - cbn [append]. destruct needle as [|d needle].
    + reflexivity.
    + cbn [contains]. rewrite prefix_refl. reflexivity.
  - cbn [append contains]. rewrite IH. apply orb_true_r.
Qed.

Section ClientProperties.

Variable hostname : option string.

(** The outer [catch] lets the [Error] built from [errorMessage]
    through. *)
Lemma outerCatch_Error :
  forall m : string, api.outerCatch hostname (Error m) = Error m.
Proof. reflexivity. Qed.

(** A failure response whose body reads as JSON (line 25).  The message
    of the [Error] is the first truthy one of the body's [message] and
    [error], turned into a string, and the fixed text when neither is
    truthy or the body is no object: [{}] at a [500] gives that fixed
    text, [{"message":42}] gives "42". *)
Lemma apiFetch_json_error_body :
  forall (T : Type) (fetch : Fetch T) (endpoint : string)
         (options : RequestInit) (response : Response T),
    fetch (api.requestOf hostname endpoint options) = inr response ->
    resp_ok response = false ->
    let thrown := snd (api.apiFetch hostname fetch endpoint options) in
    (forall message error,
        resp_json response = inr (JsonObject message error) ->
        (isTruthy message = true ->
         thrown = inl (Error (stringOf message))) /\
        (isTruthy message = false -> isTruthy error = true ->
         thrown = inl (Error (stringOf error))) /\
        (isTruthy message = false -> isTruthy error = false ->
         thrown = inl (Error "An unknown server error occurred."))) /\
    (resp_json response = inr JsonScalar ->
     thrown = inl (Error "An unknown server error occurred.")).
Proof.
  intros T fetch endpoint options response Hfetch Hok thrown. subst thrown.
  unfold api.apiFetch. cbn [snd]. rewrite Hfetch, Hok. cbn [negb].
  unfold api.errorMessage.
  split.
  - intros message error Hjson. rewrite Hjson. split_ands.
    + intros Hm. rewrite Hm. reflexivity.
    + intros Hm He. rewrite Hm, He. reflexivity.
    + intros Hm He. rewrite Hm, He. reflexivity.
  - intros Hjson. rewrite Hjson. reflexivity.
Qed.

(** The fallback of lines 26-29.  When [response.json()] has thrown (or
    a property of [null] was read) and the second reading of the body
    rejects, that rejection escapes the inner [catch] and is what the
    client fails with; the outer [catch] rewrites it only if it is the
    [TypeError] of an unreachable backend. *)
Lemma apiFetch_second_read_escapes :
  forall (T : Type) (fetch : Fetch T) (endpoint : string)
         (options : RequestInit) (response : Response T) (thrown : Exn),
    fetch (api.requestOf hostname endpoint options) = inr response ->
    resp_ok response = false ->
    resp_json response = inr JsonNull
    \/ (exists e, resp_json response = inl e) ->
    resp_text response = inl thrown ->
    snd (api.apiFetch hostname fetch endpoint options)
      = inl (api.outerCatch hostname thrown).
Proof.
  intros T fetch endpoint options response thrown Hfetch Hok Hjson Htext.
  unfold api.apiFetch. cbn [snd]. rewrite Hfetch, Hok. cbn [negb].
  unfold api.errorMessage, api.textFallback.
  destruct Hjson as [Hjson|[e Hjson]]; rewrite Hjson, Htext; reflexivity.
Qed.

End ClientProperties.

(* ================================================================== *)
(** * Properties of the session guard *)

Section GuardProperties.
Import AuthContext.

Lemma UserStatus_eqb_APPROVED :
  forall st : UserStatus, UserStatus_eqb st APPROVED = true <-> st = APPROVED.
Proof. intros st. destruct st; cbn; split; intros H; congruence. Qed.

(** [find] answers [None] exactly when no entry has the identity. *)
Lemma findFresh_absent :
  forall (held : User.t) (us : list User.t),
    (forall u, In u us -> User.id u <> User.id held) ->
    findFresh held us = None.
Proof.
  intros held us Habs. unfold findFresh.
  destruct (find (fun u => User.id u =? User.id held) us) as [x|] eqn:Hfind.
  - apply find_some in Hfind. destruct Hfind as [Hin Heq].
    apply String.eqb_eq in Heq. exfalso. exact (Habs x Hin Heq).
  - reflexivity.
Qed.

(** [find] answers the entry of the identity when there is only one. *)
Lemma findFresh_only :
  forall (held u : User.t) (us : list User.t),
    In u us -> User.id u = User.id held ->
    (forall v, In v us -> User.id v = User.id held -> v = u) ->
    findFresh held us = Some u.
Proof.
  intros held u us Hin Hid Honly. unfold findFresh.
  destruct (find (fun v => User.id v =? User.id held) us) as [x|] eqn:Hfind.
  - apply find_some in Hfind. destruct Hfind as [Hx Heq].
    apply String.eqb_eq in Heq. f_equal. apply Honly; assumption.
  - apply (find_none _ _ Hfind) in Hin. cbn beta in Hin.
    apply String.eqb_neq in Hin. contradiction.
Qed.

(** The effect body, once the inventory has loaded a non-empty user
    collection and a user is held: decided by the first entry of the
    held identity. *)
Lemma revalidate_loaded :
  forall (inventoryState : State) (g : Guard) (held : User.t),
    currentUser g = Some held ->
    users inventoryState <> [] ->
    revalidate inventoryState false g =
    match findFresh held (users inventoryState) with
    | Some freshUser =>
        if UserStatus_eqb (User.status freshUser) APPROVED
        then setItem (Serialized (withoutPassword freshUser))
                     (setCurrentUser (Some (withoutPassword freshUser)) g)
        else logout g
    | None => logout g
    end.
Proof.
  intros inventoryState g held Hheld Hne. unfold revalidate. rewrite Hheld.
  destruct (users inventoryState) as [|u us]; [contradiction | reflexivity].
Qed.

Lemma guardState_Authenticated :
  forall (g : Guard) (held : User.t),
    guardState g = Authenticated held ->
    isLoading g = false /\ currentUser g = Some held.
Proof.
  intros g held. unfold guardState.
  destruct (isLoading g); [discriminate|].
  destruct (currentUser g); [|discriminate].
  intros H. injection H as ->. split; reflexivity.
Qed.

(** C1.  Take a guard in state [Authenticated held] and an inventory
    store that has finished loading with a non-empty user collection.
    If that collection has no user of [held]'s identity, or its user of
    that identity has a status other than APPROVED, then the
    re-validation effect leaves the guard [Anonymous], with no current
    user and no entry in session storage. *)
Theorem revalidate_revoked_session_logs_out :
  forall (store : InventoryContext.Store) (g : Guard) (held : User.t),
    guardState g = Authenticated held ->
    InventoryContext.isLoading store = false ->
    users (InventoryContext.state store) <> [] ->
    (forall u, In u (users (InventoryContext.state store)) ->
               User.id u <> User.id held)
    \/ (exists u,
          In u (users (InventoryContext.state store)) /\
          User.id u = User.id held /\
          User.status u <> APPROVED /\
          (forall v, In v (users (InventoryContext.state store)) ->
                     User.id v = User.id held -> v = u)) ->
    let g' := revalidate (InventoryContext.state store)
                         (InventoryContext.isLoading store) g in
    guardState g' = Anonymous /\
    currentUser g' = None /\
    isAuthenticated g' = false /\
    sessionStorage g' = None.
Proof.
  intros store g held Hauth Hloaded Hne Hrevoked g'. subst g'.
  destruct (guardState_Authenticated g held Hauth) as [Hresolved Hheld].
  rewrite Hloaded, (revalidate_loaded _ g held Hheld Hne).
  assert (Hout : guardState (logout g) = Anonymous /\
                 currentUser (logout g) = None /\
                 isAuthenticated (logout g) = false /\
                 sessionStorage (logout g) = None).
  { unfold guardState, logout, isAuthenticated. cbn. rewrite Hresolved.
    split_ands; reflexivity. }
  destruct Hrevoked as [Habsent|(u & Hin & Hid & Hstatus & Honly)].
  - rewrite (findFresh_absent held _ Habsent). exact Hout.
  - rewrite (findFresh_only held u _ Hin Hid Honly).
    destruct (UserStatus_eqb (User.status u) APPROVED) eqn:Heqb.
    + apply UserStatus_eqb_APPROVED in Heqb. contradiction.
    + exact Hout.
Qed.

(** The re-persist branch: the value written is the fresh user without
    the credential, whatever the collection holds for it. *)
Lemma revalidate_repersists_without_password :
  forall (inventoryState : State) (g : Guard) (held freshUser : User.t),
    currentUser g = Some held ->
    users inventoryState <> [] ->
    findFresh held (users inventoryState) = Some freshUser ->
    User.status freshUser = APPROVED ->
    let g' := revalidate inventoryState false g in
    storedUser g' = Some (withoutPassword freshUser) /\
    currentUser g' = Some (withoutPassword freshUser) /\
    User.password (withoutPassword freshUser) = None.
Proof.
  intros inventoryState g held freshUser Hheld Hne Hfind Hstatus g'. subst g'.
  rewrite (revalidate_loaded _ g held Hheld Hne), Hfind, Hstatus.
  split_ands; reflexivity.
Qed.

(** Startup restore and logout write no user value: the entry
    afterwards is the former one or none. *)
Lemma restore_and_logout_write_nothing :
  forall g : Guard,
    (sessionStorage (restoreSession g) = sessionStorage g
     \/ sessionStorage (restoreSession g) = None) /\
    sessionStorage (logout g) = None.
Proof.
  intros g. split; [|reflexivity].
  unfold restoreSession.
  destruct (sessionStorage g) as [[user| | |]|] eqn:Hentry; cbn; auto.
  destruct (UserStatus_eqb (User.status user) APPROVED); cbn; auto.
Qed.

(** [login] persists the value the API call resolved with, as it is. *)
Lemma login_persists_returned_value :
  forall (hostname : option string) (fetch : Fetch User.t)
         (identifier password : string) (g : Guard) (user : User.t),
    snd (api.login hostname fetch identifier password) = inr user ->
    let a := login hostname fetch identifier password g in
    outcome a = inr true /\
    currentUser (guard a) = Some user /\
    storedUser (guard a) = Some user.
Proof.
  intros hostname fetch identifier password g user Hcall a. subst a.
  unfold login. rewrite Hcall. split_ands; reflexivity.
Qed.

(** A failed [login] changes nothing and rejects with the error of the
    API call. *)
Lemma login_failure_propagates :
  forall (hostname : option string) (fetch : Fetch User.t)
         (identifier password : string) (g : Guard) (e : Exn),
    snd (api.login hostname fetch identifier password) = inl e ->
    let a := login hostname fetch identifier password g in
    outcome a = inl e /\ guard a = g.
Proof.
  intros hostname fetch identifier password g e Hcall a. subst a.
  unfold login. rewrite Hcall. split; reflexivity.
Qed.

End GuardProperties.

(* ================================================================== *)
(** * Worked instances *)

Section Instances.
Import InventoryContext.

(** C1 at a concrete session: Alice is logged in, and the freshly loaded
    collection shows her account as DENIED. *)
Lemma revalidate_revoked_session_logs_out_witness :
  let store :=
    mkStore (mkState [] [aliceDenied; bob] [] [] [] []) false None synced
            (Some 1000%Z) None in
  AuthContext.guardState aliceSession = AuthContext.Authenticated alice /\
  isLoading store = false /\
  users (state store) <> [] /\
  let g' := AuthContext.revalidate (state store) (isLoading store)
                                   aliceSession in
  AuthContext.guardState g' = AuthContext.Anonymous /\
  AuthContext.sessionStorage g' = None.
Proof.
  cbv zeta.
  split; [reflexivity|]. split; [reflexivity|]. split; [discriminate|].
  destruct (revalidate_revoked_session_logs_out
              (mkStore (mkState [] [aliceDenied; bob] [] [] [] []) false
                       None synced (Some 1000%Z) None)
              aliceSession alice eq_refl eq_refl)
    as (Hstate & _ & _ & Hentry).
  - discriminate.
  - right. exists aliceDenied. split_ands.
    + left. reflexivity.
    + reflexivity.
    + discriminate.
    + intros v [<-|[<-|[]]] Hid; [reflexivity | discriminate].
  - split; assumption.
Defined.

(** C3 at a concrete call: the backend cannot be reached while an item
    is added. *)
Lemma mutation_failure_keeps_snapshot_witness :
  let m := AddItem (mkItemData "Beaker" "Glassware" 50) in
  let e := Error ("Could not connect to the backend server at "
                  ++ "http://localhost:8080/api"
                  ++ ". Is your Java backend server running?") in
  snd (apiCall None m unreachable) = inl e /\
  let run := perform None 2000%Z quietNewUser quiet quiet m unreachable
                     labStore in
  result run = inl e /\
  state (final labStore run) = labState /\
  syncStatus (final labStore run) = error.
Proof.
  cbv zeta. split; [reflexivity|].
  destruct (mutation_failure_keeps_snapshot
              None 2000%Z quietNewUser quiet quiet
              (AddItem (mkItemData "Beaker" "Glassware" 50)) unreachable
              labStore _ eq_refl)
    as (Hres & _ & Hstate & Hstatus & _).
  split_ands; assumption.
Defined.

(** C4 at a concrete call: the two beakers come back. *)
Lemma returnItem_single_transition_witness :
  let fetch := answering (returnTwo, borrowTwoReturned, beakerReturned) in
  snd (api.returnItem None fetch borrowTwoApproved "all intact")
    = inr (returnTwo, borrowTwoReturned, beakerReturned) /\
  let run := returnItem None 2000%Z fetch borrowTwoApproved "all intact"
                        labStore in
  result run = inr tt /\
  (forall v, In v (versions run) ->
     state v = labState \/ state v = state (final labStore run)) /\
  logs (state (final labStore run)) = [returnTwo; borrowTwoReturned] /\
  items (state (final labStore run)) = [beakerReturned; flask].
Proof.
  cbv zeta. split; [reflexivity|].
  destruct (returnItem_single_transition
              None 2000%Z
              (answering (returnTwo, borrowTwoReturned, beakerReturned))
              borrowTwoApproved "all intact" labStore
              returnTwo borrowTwoReturned beakerReturned eq_refl)
    as (Hres & _ & _ & _ & _ & _ & _ & Hvers).
  split_ands; [exact Hres | exact Hvers | reflexivity | reflexivity].
Defined.

(** C5 fails on the code: the snapshot shows 5 beakers, the pending log
    asks for 2, the call succeeds, and the available quantity afterwards
    is what the backend answered: 2 from a backend whose stock was 4,
    and -1 from one that does not check its stock. *)
Lemma approveBorrowRequest_quantity_counterexample :
  let run :=
    approveBorrowRequest None 2000%Z
      (answering (borrowTwoApproved, beakerOnServer)) "l1" labStore in
  let overdrawn :=
    approveBorrowRequest None 2000%Z
      (answering (borrowTwoApproved, beakerOverdrawn)) "l1" labStore in
  In borrowTwo (logs labState) /\
  LogEntry.status borrowTwo = LOG_PENDING /\
  LogEntry.quantity borrowTwo = 2%Z /\
  availableOf (LogEntry.itemId borrowTwo) labState = Some 5%Z /\
  result run = inr tt /\
  availableOf (LogEntry.itemId borrowTwo) (state (final labStore run))
    = Some 2%Z /\
  (2 <> 5 - LogEntry.quantity borrowTwo)%Z /\
  result overdrawn = inr tt /\
  availableOf (LogEntry.itemId borrowTwo) (state (final labStore overdrawn))
    = Some (-1)%Z /\
  (-1 < 0)%Z.
Proof.
  cbv zeta. split_ands; try reflexivity.
  - left. reflexivity.
  - cbn. lia.
Qed.

(** C5 as amended, at the first of those calls. *)
Lemma approveBorrowRequest_stores_returned_item_witness :
  let fetch := answering (borrowTwoApproved, beakerOnServer) in
  snd (api.approveBorrowRequest None fetch "l1")
    = inr (borrowTwoApproved, beakerOnServer) /\
  let run := approveBorrowRequest None 2000%Z fetch "l1" labStore in
  result run = inr tt /\
  availableOf "i1" (state (final labStore run))
    = Some (Item.availableQuantity beakerOnServer) /\
  availableOf "i2" (state (final labStore run)) = availableOf "i2" labState.
Proof.
  cbv zeta. split; [reflexivity|].
  destruct (approveBorrowRequest_stores_returned_item
              None 2000%Z (answering (borrowTwoApproved, beakerOnServer))
              "l1" labStore borrowTwoApproved beakerOnServer eq_refl)
    as (Hres & _ & _ & Hsame & Hother).
  split_ands.
  - exact Hres.
  - apply (Hsame 5%Z). reflexivity.
  - apply Hother. discriminate.
Defined.

(** C6 at concrete identities: one that is absent and one that is
    present. *)
Lemma delete_patch_removes_by_identity_witness :
  deleteItem_patch (mkIdRef "i9") labState = labState /\
  RemovedById Item.id "i1" [beaker; flask]
              (items (deleteItem_patch (mkIdRef "i1") labState)) /\
  items (deleteItem_patch (mkIdRef "i1") labState) = [flask] /\
  result (deleteUser None 2000%Z (answering (mkIdRef "u3")) "u3" labStore)
    = inr tt.
Proof.
  split_ands.
  - destruct (delete_patch_removes_by_identity None 2000%Z "i9" labState)
      as (Habsent & _).
    apply Habsent. intros x [<-|[<-|[]]]; discriminate.
  - destruct (delete_patch_removes_by_identity None 2000%Z "i1" labState)
      as (_ & _ & Hremoved & _).
    exact Hremoved.
  - reflexivity.
  - destruct (delete_patch_removes_by_identity None 2000%Z "u3" labState)
      as (_ & _ & _ & _ & _ & _ & _ & Hruns).
    destruct (Hruns (answering (mkIdRef "u3")) "u3" labStore eq_refl eq_refl)
      as (Hres & _).
    exact Hres.
Defined.

(** C7 on the code, at failure responses whose body is not JSON: a
    [502] with the body text "Bad Gateway" and a [503] with an empty
    body.  [response.json()] reads the body and throws (line 24); the
    fallback [response.text()] of line 27 then reads the same body a
    second time and rejects.  The client fails with that [TypeError]:
    not with the raw text of the body, and not with a message that
    holds the status. *)
Theorem apiFetch_text_fallback_is_lost :
  let badGateway : Fetch Item.t :=
    refusing 502 (inl (SyntaxError "Unexpected token B in JSON at position 0"))
             (inl bodyAlreadyRead) in
  let unavailable : Fetch Item.t :=
    refusing 503 (inl (SyntaxError "Unexpected end of JSON input"))
             (inl bodyAlreadyRead) in
  snd (api.apiFetch None badGateway "/items/i9" noOptions)
    = inl bodyAlreadyRead /\
  snd (api.apiFetch None unavailable "/items/i9" noOptions)
    = inl bodyAlreadyRead /\
  bodyAlreadyRead <> Error "Bad Gateway" /\
  bodyAlreadyRead <> Error "HTTP Error: 503" /\
  contains "Bad Gateway" (exn_message bodyAlreadyRead) = false /\
  contains "502" (exn_message bodyAlreadyRead) = false /\
  contains "503" (exn_message bodyAlreadyRead) = false.
Proof.
  cbv zeta. split_ands; try reflexivity; discriminate.
Qed.

(** The part of the failure path that reads the body once, at three
    bodies: an object with a message, an object whose message is the
    number [42], and the empty object. *)
Example apiFetch_json_error_body_sample :
  let notFound : Fetch Item.t :=
    refusing 404 (inr (JsonObject (FieldString "Item not found") FieldAbsent))
             (inl bodyAlreadyRead) in
  let numbered : Fetch Item.t :=
    refusing 500 (inr (JsonObject (FieldOther true "42") FieldAbsent))
             (inl bodyAlreadyRead) in
  let empty : Fetch Item.t :=
    refusing 500 (inr (JsonObject FieldAbsent FieldAbsent))
             (inl bodyAlreadyRead) in
  snd (api.apiFetch None notFound "/items/i9" noOptions)
    = inl (Error "Item not found") /\
  snd (api.apiFetch None numbered "/items/i9" noOptions)
    = inl (Error "42") /\
  snd (api.apiFetch None empty "/items/i9" noOptions)
    = inl (Error "An unknown server error occurred.").
Proof.
  cbv zeta. split_ands; reflexivity.
Qed.

(** C9 fails on the code: Carol's approval is confirmed by the backend,
    the dispatch of her notification throws, and the operation rejects
    with that exception and leaves the sync status at [error], though
    the patch has been applied. *)
Lemma approveUser_dispatch_counterexample :
  let fetch := answering carolApproved in
  let run := approveUser None 2000%Z throwing fetch "u3" labStore in
  snd (api.approveUser None fetch "u3") = inr carolApproved /\
  throwing carolApproved = Some (Error "mail transport is down") /\
  result run = inl (Error "mail transport is down") /\
  syncStatus (final labStore run) = error /\
  users (state (final labStore run)) = [alice; bob; carolApproved].
Proof.
  cbv zeta. split_ands; reflexivity.
Qed.

(** C9 as amended, at the same call with a dispatch that returns, and
    at a signup. *)
Lemma user_mutations_succeed_when_dispatch_returns_witness :
  let dave := User.mk "u4" "Dave" "Student" PENDING false None in
  let note := Notification.mk "n3" "new_user" "Dave signed up" false in
  let signup :=
    createUser None 2000%Z quietNewUser (answering (dave, note))
               (mkUserData "Dave" "Student" false (Some "pw")) labStore in
  let approval :=
    approveUser None 2000%Z quiet (answering carolApproved) "u3" labStore in
  result signup = inr "u4" /\
  users (state (final labStore signup)) = [alice; bob; carol; dave] /\
  result approval = inr tt /\
  users (state (final labStore approval)) = [alice; bob; carolApproved] /\
  syncStatus (final labStore approval) = synced.
Proof.
  cbv zeta.
  destruct (user_mutations_succeed_when_dispatch_returns
              None 2000%Z quietNewUser quiet quiet labStore)
    as (Hcreate & Happrove & _).
  destruct (Hcreate
              (answering (User.mk "u4" "Dave" "Student" PENDING false None,
                          Notification.mk "n3" "new_user" "Dave signed up"
                                          false))
              (mkUserData "Dave" "Student" false (Some "pw"))
              _ _ eq_refl eq_refl)
    as (Hid & Hsigned & _).
  destruct (Happrove (answering carolApproved) "u3" carolApproved
                     eq_refl eq_refl)
    as (Hres & Hstate & Hstatus & _).
  split_ands.
  - exact Hid.
  - rewrite Hsigned. reflexivity.
  - exact Hres.
  - rewrite Hstate. reflexivity.
  - exact Hstatus.
Defined.

(** C2 on the code, at a login whose response carries the credential:
    the call succeeds and the entry written to session storage is the
    response as it came, credential included; the re-validation that
    follows, fed the same user by the inventory, writes it without. *)
Theorem login_persists_credential_of_response :
  let anonymous := AuthContext.mkGuard None false None in
  let attempt :=
    AuthContext.login None (answering aliceStored) "alice" "hunter2"
                      anonymous in
  let inventory := mkState [] [aliceStored; bob] [] [] [] [] in
  AuthContext.outcome attempt = inr true /\
  AuthContext.storedUser (AuthContext.guard attempt) = Some aliceStored /\
  User.password aliceStored = Some "hunter2" /\
  AuthContext.storedUser
    (AuthContext.revalidate inventory false (AuthContext.guard attempt))
    = Some alice /\
  User.password alice = None.
Proof.
  cbv zeta. split_ands; reflexivity.
Qed.

(** C8 on the sample store: one of the two notifications is listed. *)
Example markNotificationsAsRead_sample :
  let run := markNotificationsAsRead 2000%Z ["n1"; "n7"] labStore in
  requests run = [] /\
  result run = inr tt /\
  notifications (state (final labStore run))
    = [Notification.mk "n1" "new_borrow_request" "Alice asks for 2 Beaker"
                       true;
       noteTwo] /\
  syncStatus (final labStore run) = synced.
Proof. cbv zeta. split_ands; reflexivity. Qed.

(** C10 on the sample snapshot: a signup puts the user last and its
    notification first; a delete keeps the order of the rest. *)
Example patches_keep_order_sample :
  let dave := User.mk "u4" "Dave" "Student" PENDING false None in
  let note := Notification.mk "n3" "new_user" "Dave signed up" false in
  let signed := createUser_patch dave note labState in
  userIds signed = ["u1"; "u2"; "u3"; "u4"] /\
  notificationIds signed = ["n3"; "n1"; "n2"] /\
  userIds (deleteUser_patch (mkIdRef "u2") labState) = ["u1"; "u3"] /\
  itemIds (importItems_patch [flask; beaker] labState)
    = ["i1"; "i2"; "i2"; "i1"].
Proof. cbv zeta. split_ands; reflexivity. Qed.

(** The session guard on the sample data: a stored session restores,
    re-validation against an inventory that still approves Alice keeps
    her logged in with the fresh copy, and logout clears the entry. *)
Example guard_lifecycle_sample :
  let mounted :=
    AuthContext.mkGuard None true (Some (AuthContext.Serialized alice)) in
  let restored := AuthContext.restoreSession mounted in
  let checked := AuthContext.revalidate labState false restored in
  AuthContext.guardState mounted = AuthContext.Unresolved /\
  AuthContext.guardState restored = AuthContext.Authenticated alice /\
  AuthContext.guardState checked = AuthContext.Authenticated alice /\
  AuthContext.storedUser checked = Some alice /\
  AuthContext.guardState (AuthContext.logout checked)
    = AuthContext.Anonymous /\
  AuthContext.sessionStorage (AuthContext.logout checked) = None.
Proof. cbv zeta. split_ands; reflexivity. Qed.

End Instances.


(* ================================================================== *)
(** * Further properties of the API client *)

Lemma prefix_append :
  forall a b : string, prefix a (a ++ b) = true.
Proof.
  induction a as [|c a IH]; intros b; cbn [append prefix].
  - destruct b; reflexivity.
  - destruct (ascii_dec c c) as [_|Hne]; [apply IH | contradiction].
Qed.

Lemma contains_inside :
  forall before needle after : string,
    contains needle (before ++ needle ++ after) = true.
Proof.
  induction before as [|c before IH]; intros needle after.
  - cbn [append]. destruct (needle ++ after) as [|d rest] eqn:Hrest.
    + destruct needle; [reflexivity | discriminate].
    + cbn [contains]. rewrite <- Hrest, prefix_append. reflexivity.
  - cbn [append contains]. rewrite IH. apply orb_true_r.
Qed.

Section MoreClientProperties.

Variable hostname : option string.

(** When the transport itself rejects, [apiFetch] has issued its one
    request and rejects too: with an [Error] that names the backend
    address it tried when the rejection is the browser's
    [TypeError('Failed to fetch')], and with the rejection as it is
    otherwise. *)
Theorem apiFetch_unreachable_backend :
  forall (T : Type) (fetch : Fetch T) (endpoint : string)
         (options : RequestInit) (thrown : Exn),
    fetch (api.requestOf hostname endpoint options) = inl thrown ->
    let call := api.apiFetch hostname fetch endpoint options in
    fst call = [api.requestOf hostname endpoint options] /\
    (thrown = TypeError "Failed to fetch" ->
     exists m, snd call = inl (Error m) /\
               contains (api.BASE_URL hostname) m = true) /\
    (thrown <> TypeError "Failed to fetch" -> snd call = inl thrown).
Proof.
  intros T fetch endpoint options thrown Hfetch call. subst call.
  unfold api.apiFetch. cbn [fst snd]. rewrite Hfetch.
  split_ands.
  - reflexivity.
  - intros ->. eexists. split; [reflexivity|].
    apply (contains_inside "Could not connect to the backend server at ").
  - intros Hother. destruct thrown as [m|m|m]; try reflexivity.
    cbn [api.outerCatch].
    destruct (String.eqb_spec m "Failed to fetch") as [->|_];
      [contradiction Hother; reflexivity | reflexivity].
Qed.

End MoreClientProperties.

(* ================================================================== *)
(** * Further properties of the state store *)

Lemma or_else_nonempty :
  forall (a : option string) (b : string), b <> "" -> or_else a b <> "".
Proof.
  intros a b Hb. unfold or_else. destruct a as [t|]; [|exact Hb].
  destruct (String.eqb_spec t "") as [_|Hne]; assumption.
Qed.

Section MoreStoreProperties.
Import InventoryContext.

Variable hostname : option string.
Variable now : Z.
Variable sendNewUserAdminNotification : User.t -> list User.t -> option Exn.
Variable sendAccountApprovedNotification : User.t -> option Exn.
Variable sendAccountDeniedNotification : User.t -> option Exn.

Lemma requests_handleApiCall :
  forall T (call : ApiCall T) updateState s,
    requests (handleApiCall now call updateState s) = fst call.
Proof.
  intros T call updateState s. unfold handleApiCall.
  destruct (snd call) as [e|r]; [reflexivity|].
  destruct (updateState r (setSyncStatus syncing s)) as [s2 [e|]]; reflexivity.
Qed.

(** Every mutation operation sends what its API function sends,
    whether the call then succeeds or fails: nothing for
    [markNotificationsAsRead], and for each of the other nineteen
    exactly one request, to a URL under [BASE_URL], with the JSON
    content type. *)
Theorem mutations_issue_one_request :
  forall (m : Mutation) (fetch : Fetch (ResultOf m)) (s : Store),
    let run :=
      perform hostname now sendNewUserAdminNotification
              sendAccountApprovedNotification sendAccountDeniedNotification
              m fetch s in
    requests run = fst (apiCall hostname m fetch) /\
    match m with
    | MarkNotificationsAsRead _ => requests run = []
    | _ =>
        exists request,
          requests run = [request] /\
          prefix (api.BASE_URL hostname) (req_url request) = true /\
          req_headers request = [("Content-Type", "application/json")]
    end.
Proof.
  intros m fetch s run. subst run.
  assert (Hreq :
            requests (perform hostname now sendNewUserAdminNotification
                        sendAccountApprovedNotification
                        sendAccountDeniedNotification m fetch s)
            = fst (apiCall hostname m fetch)).
  { destruct m; cbn [perform apiCall]; apply requests_handleApiCall. }
  split; [exact Hreq|]. rewrite Hreq.
  destruct m; cbn [apiCall];
    try (eexists; split_ands;
         [reflexivity | apply prefix_append | reflexivity]).
  reflexivity.
Qed.

(** The initial load never rejects and always ends the loading screen.
    While it is pending the provider shows the loader; when the call
    resolves it shows the application over the loaded snapshot, even if
    an earlier attempt had left a connection error (a retry); when the
    call rejects it shows the connection-error screen with a message
    that is never empty, over the snapshot it had. *)
Theorem loadData_screens :
  forall (fetch : Fetch State) (s : Store),
    let run := loadData hostname now fetch s in
    result run = inr tt /\
    (exists pending rest,
        versions run = pending :: rest /\ render pending = Loader) /\
    (forall loaded,
        snd (api.getInitialData hostname fetch) = inr loaded ->
        render (final s run) = Children (final s run) /\
        state (final s run) = loaded /\
        syncStatus (final s run) = synced /\
        lastSynced (final s run) = Some now) /\
    (forall e,
        snd (api.getInitialData hostname fetch) = inl e ->
        exists message,
          render (final s run) = ConnectionErrorScreen message /\
          message <> "" /\
          state (final s run) = state s /\
          syncStatus (final s run) = error).
Proof.
  intros fetch s run. subst run. unfold loadData, final.
  destruct (snd (api.getInitialData hostname fetch)) as [e|loaded];
    cbn [result versions last].
  - split; [reflexivity|].
    split; [eexists; eexists; split; reflexivity|].
    split; [intros loaded Hl; discriminate|].
    intros e' He. injection He as <-.
    set (message :=
           or_else (Some (exn_message e)) "An unknown error occurred.").
    assert (Hne : message <> "") by (apply or_else_nonempty; discriminate).
    exists message. split_ands; try reflexivity; try exact Hne.
    unfold render.
    cbn [isLoading connectionError setIsLoading setSyncStatus
         setConnectionError].
    destruct (String.eqb_spec message "") as [Hempty|_];
      [contradiction | reflexivity].
  - split; [reflexivity|].
    split; [eexists; eexists; split; reflexivity|].
    split; [|intros e He; discriminate].
    intros loaded' Hl. injection Hl as <-. split_ands; reflexivity.
Qed.

(** Every mutation operation whose API call resolves with [r], and
    whose notification dispatch (if it has one) returns: the store is
    first marked [syncing] over the old snapshot, the operation
    succeeds, and it leaves the patched snapshot, status [synced], the
    completion time as last-synced time, and the loading flag and
    connection error as they were. *)
Theorem mutation_success_applies_patch :
  forall (m : Mutation) (fetch : Fetch (ResultOf m)) (s : Store)
         (r : ResultOf m),
    snd (apiCall hostname m fetch) = inr r ->
    dispatched sendNewUserAdminNotification sendAccountApprovedNotification
               sendAccountDeniedNotification m r (state s) = None ->
    let run :=
      perform hostname now sendNewUserAdminNotification
              sendAccountApprovedNotification sendAccountDeniedNotification
              m fetch s in
    result run = inr tt /\
    hd s (versions run) = setSyncStatus syncing s /\
    state (final s run) = patch m r (state s) /\
    syncStatus (final s run) = synced /\
    lastSynced (final s run) = Some now /\
    isLoading (final s run) = isLoading s /\
    connectionError (final s run) = connectionError s /\
    renderError (final s run) = renderError s.
Proof.
  intros m fetch s r Hcall Hdisp run. subst run.
  rewrite (perform_resolved hostname now sendNewUserAdminNotification
             sendAccountApprovedNotification sendAccountDeniedNotification
             m fetch s r Hcall Hdisp).
  unfold final. cbn [result versions last hd].
  split_ands; reflexivity.
Qed.

End MoreStoreProperties.

(* ================================================================== *)
(** * How the patches compose *)

Section MoreById.
Context {A : Type} (id : A -> string).

Lemma replace_by_id_absent :
  forall (new : A) (l : list A),
    (forall x, In x l -> id x <> id new) ->
    map (fun x => if id x =? id new then new else x) l = l.
Proof.
  intros new l. induction l as [|x l IH]; intros Habs; cbn [map].
  - reflexivity.
  - destruct (String.eqb_spec (id x) (id new)) as [Heq|_].
    + exfalso. apply (Habs x); [left; reflexivity | exact Heq].
    + f_equal. apply IH. intros y Hy. apply Habs. right. exact Hy.
Qed.

Lemma replace_by_id_twice :
  forall (new : A) (l : list A),
    map (fun x => if id x =? id new then new else x)
        (map (fun x => if id x =? id new then new else x) l)
    = map (fun x => if id x =? id new then new else x) l.
Proof.
  intros new l. induction l as [|x l IH]; cbn [map].
  - reflexivity.
  - rewrite IH. f_equal.
    destruct (id x =? id new) eqn:Hx.
    + rewrite String.eqb_refl. reflexivity.
    + rewrite Hx. reflexivity.
Qed.

Lemma remove_by_id_twice :
  forall (i : string) (l : list A),
    filter (fun x => negb (id x =? i)) (filter (fun x => negb (id x =? i)) l)
    = filter (fun x => negb (id x =? i)) l.
Proof.
  intros i l. apply remove_by_id_absent.
  intros x Hx. apply filter_In in Hx. destruct Hx as [_ Hx].
  apply negb_true_iff, String.eqb_neq in Hx. exact Hx.
Qed.

End MoreById.

Section PatchComposition.
Import InventoryContext.

Lemma markRead_twice :
  forall (ids : list string) (l : list Notification.t),
    map (fun n => if includes ids (Notification.id n) then markRead n else n)
        (map (fun n => if includes ids (Notification.id n)
                       then markRead n else n) l)
    = map (fun n => if includes ids (Notification.id n) then markRead n else n)
          l.
Proof.
  intros ids l. induction l as [|n l IH]; cbn [map].
  - reflexivity.
  - rewrite IH. f_equal.
    destruct (includes ids (Notification.id n)) eqn:Hn.
    + cbn [markRead Notification.id]. rewrite Hn. reflexivity.
    + rewrite Hn. reflexivity.
Qed.

(** A replace-by-identity patch shows nothing of the confirmed entity
    when the snapshot holds no entry of its identity: editing, approving
    or denying something the snapshot does not know returns the snapshot
    as it was. *)
Theorem replace_patches_skip_absent_identity :
  forall prev : State,
    (forall updatedItem,
        (forall i, In i (items prev) -> Item.id i <> Item.id updatedItem) ->
        editItem_patch updatedItem prev = prev) /\
    (forall updatedUser,
        (forall u, In u (users prev) -> User.id u <> User.id updatedUser) ->
        editUser_patch updatedUser prev = prev /\
        approveUser_patch updatedUser prev = prev /\
        denyUser_patch updatedUser prev = prev) /\
    (forall updatedLog,
        (forall l, In l (logs prev) ->
                   LogEntry.id l <> LogEntry.id updatedLog) ->
        denyBorrowRequest_patch updatedLog prev = prev) /\
    (forall updatedSuggestion,
        (forall g, In g (suggestions prev) ->
                   Suggestion.id g <> Suggestion.id updatedSuggestion) ->
        approveFeatureSuggestion_patch updatedSuggestion prev = prev).
Proof.
  intros prev. split_ands.
  - intros updatedItem Habs. unfold editItem_patch.
    rewrite (replace_by_id_absent Item.id _ _ Habs). destruct prev; reflexivity.
  - intros updatedUser Habs.
    unfold editUser_patch, approveUser_patch, denyUser_patch.
    rewrite (replace_by_id_absent User.id _ _ Habs).
    destruct prev; split_ands; reflexivity.
  - intros updatedLog Habs. unfold denyBorrowRequest_patch.
    rewrite (replace_by_id_absent LogEntry.id _ _ Habs).
    destruct prev; reflexivity.
  - intros updatedSuggestion Habs. unfold approveFeatureSuggestion_patch.
    rewrite (replace_by_id_absent Suggestion.id _ _ Habs).
    destruct prev; reflexivity.
Qed.

(** Applying the patch of a replace, a delete or a read-marking a second
    time with the same result changes nothing more, so a response that
    is handled twice is harmless for these; an append is not of that
    kind: handled twice, it leaves the new entity twice. *)
Theorem repeated_patches :
  forall prev : State,
    (forall i, editItem_patch i (editItem_patch i prev)
               = editItem_patch i prev) /\
    (forall u, editUser_patch u (editUser_patch u prev)
               = editUser_patch u prev) /\
    (forall u, approveUser_patch u (approveUser_patch u prev)
               = approveUser_patch u prev) /\
    (forall l i, approveBorrowRequest_patch l i
                   (approveBorrowRequest_patch l i prev)
                 = approveBorrowRequest_patch l i prev) /\
    (forall r, deleteItem_patch r (deleteItem_patch r prev)
               = deleteItem_patch r prev) /\
    (forall r, deleteUser_patch r (deleteUser_patch r prev)
               = deleteUser_patch r prev) /\
    (forall ids, markNotificationsAsRead_patch ids
                   (markNotificationsAsRead_patch ids prev)
                 = markNotificationsAsRead_patch ids prev) /\
    (forall newItem,
        items (addItem_patch newItem (addItem_patch newItem prev))
        = (items prev ++ [newItem; newItem])%list).
Proof.
  intros prev. split_ands.
  - intros i. unfold editItem_patch. cbn [items users logs notifications
      suggestions comments].
    rewrite (replace_by_id_twice Item.id). reflexivity.
  - intros u. unfold editUser_patch. cbn [items users logs notifications
      suggestions comments].
    rewrite (replace_by_id_twice User.id). reflexivity.
  - intros u. unfold approveUser_patch. cbn [items users logs notifications
      suggestions comments].
    rewrite (replace_by_id_twice User.id). reflexivity.
  - intros l i. unfold approveBorrowRequest_patch. cbn [items users logs
      notifications suggestions comments].
    rewrite (replace_by_id_twice Item.id), (replace_by_id_twice LogEntry.id).
    reflexivity.
  - intros r. unfold deleteItem_patch. cbn [items users logs notifications
      suggestions comments].
    rewrite (remove_by_id_twice Item.id). reflexivity.
  - intros r. unfold deleteUser_patch. cbn [items users logs notifications
      suggestions comments].
    rewrite (remove_by_id_twice User.id). reflexivity.
  - intros ids. unfold markNotificationsAsRead_patch. cbn [items users logs
      notifications suggestions comments].
    rewrite markRead_twice. reflexivity.
  - intros newItem. unfold addItem_patch. cbn [items].
    rewrite <- app_assoc. reflexivity.
Qed.

End PatchComposition.

(* ================================================================== *)
(** * Properties of the sidebar *)

Section SidebarProperties.
Import InventoryContext Sidebar.

(** The unit [formatTimeAgo] shows depends on the elapsed milliseconds
    alone: under five seconds (a date in the future included) it says
    "just now", under a minute it counts whole seconds from 5 to 59,
    under an hour whole minutes from 1 to 59, under a day whole hours
    from 1 to 23, and from a day on whole days; without a date it says
    "never". *)
Theorem formatTimeAgo_thresholds :
  forall now d : Z,
    let elapsed := (now - d)%Z in
    formatTimeAgo now None = "never" /\
    ((elapsed < 5000)%Z -> formatTimeAgo now (Some d) = "just now") /\
    ((5000 <= elapsed < 60000)%Z ->
     formatTimeAgo now (Some d) = numberText (elapsed / 1000) ++ "s ago" /\
     (5 <= elapsed / 1000 <= 59)%Z) /\
    ((60000 <= elapsed < 3600000)%Z ->
     formatTimeAgo now (Some d) = numberText (elapsed / 60000) ++ "m ago" /\
     (1 <= elapsed / 60000 <= 59)%Z) /\
    ((3600000 <= elapsed < 86400000)%Z ->
     formatTimeAgo now (Some d) = numberText (elapsed / 3600000) ++ "h ago" /\
     (1 <= elapsed / 3600000 <= 23)%Z) /\
    ((86400000 <= elapsed)%Z ->
     formatTimeAgo now (Some d) = numberText (elapsed / 86400000) ++ "d ago" /\
     (1 <= elapsed / 86400000)%Z).
Proof.
  intros now d elapsed. unfold formatTimeAgo. fold elapsed.
  change 60000%Z with (1000 * 60)%Z.
  change 3600000%Z with (1000 * 60 * 60)%Z.
  change 86400000%Z with (1000 * 60 * 60 * 24)%Z.
  repeat rewrite <- Z.div_div by lia.
  set (seconds := (elapsed / 1000)%Z).
  set (minutes := (seconds / 60)%Z).
  set (hours := (minutes / 60)%Z).
  set (days := (hours / 24)%Z).
  pose proof (Z.div_mod elapsed 1000 ltac:(lia)) as Hs.
  pose proof (Z.mod_pos_bound elapsed 1000 ltac:(lia)) as Hsr.
  pose proof (Z.div_mod seconds 60 ltac:(lia)) as Hm.
  pose proof (Z.mod_pos_bound seconds 60 ltac:(lia)) as Hmr.
  pose proof (Z.div_mod minutes 60 ltac:(lia)) as Hh.
  pose proof (Z.mod_pos_bound minutes 60 ltac:(lia)) as Hhr.
  pose proof (Z.div_mod hours 24 ltac:(lia)) as Hd.
  pose proof (Z.mod_pos_bound hours 24 ltac:(lia)) as Hdr.
  fold seconds in Hs. fold minutes in Hm. fold hours in Hh. fold days in Hd.
  split; [reflexivity|].
  destruct (Z.ltb_spec seconds 5) as [H5|H5];
    [|destruct (Z.ltb_spec seconds 60) as [H60|H60];
      [|destruct (Z.ltb_spec minutes 60) as [Hm60|Hm60];
        [|destruct (Z.ltb_spec hours 24) as [Hh24|Hh24]]]];
    split_ands; intros Hrange; try lia; try (split; [reflexivity | lia]);
    reflexivity.
Qed.

Lemma unread_after_markRead :
  forall (type : string) (ids : list string) (l : list Notification.t),
    (List.length
       (filter (fun n => (Notification.type n =? type)%string
                         && negb (Notification.read n))
               (map (fun n => if includes ids (Notification.id n)
                              then markRead n else n) l))
     <= List.length
          (filter (fun n => (Notification.type n =? type)%string
                            && negb (Notification.read n)) l))%nat.
Proof.
  intros type ids l. induction l as [|n l IH]; cbn [map filter].
  - apply le_n.
  - destruct (includes ids (Notification.id n)).
    + cbn [markRead Notification.type Notification.read negb].
      rewrite andb_false_r.
      destruct ((Notification.type n =? type)%string
                && negb (Notification.read n));
        cbn [List.length]; lia.
    + destruct ((Notification.type n =? type)%string
                && negb (Notification.read n));
        cbn [List.length]; lia.
Qed.

Lemma no_unread_after_markRead :
  forall (type : string) (ids : list string) (l : list Notification.t),
    (forall n, In n l -> Notification.read n = false ->
               In (Notification.id n) ids) ->
    filter (fun n => (Notification.type n =? type)%string
                     && negb (Notification.read n))
           (map (fun n => if includes ids (Notification.id n)
                          then markRead n else n) l) = [].
Proof.
  intros type ids l. induction l as [|n l IH]; intros Hall; cbn [map filter].
  - reflexivity.
  - assert (Hrest : forall m, In m l -> Notification.read m = false ->
                              In (Notification.id m) ids).
    { intros m Hm. apply Hall. right. exact Hm. }
    destruct (includes ids (Notification.id n)) eqn:Hinc.
    + cbn [markRead Notification.type Notification.read negb].
      rewrite andb_false_r. apply IH. exact Hrest.
    + destruct (Notification.read n) eqn:Hread.
      * cbn [negb]. rewrite andb_false_r. apply IH. exact Hrest.
      * exfalso.
        assert (Hin : In (Notification.id n) ids).
        { apply Hall; [left; reflexivity | exact Hread]. }
        apply includes_In in Hin. congruence.
Qed.

(** Marking notifications as read never raises the badge of the borrow
    log, and brings it to zero when every unread notification of the
    snapshot is among those marked. *)
Theorem markNotificationsAsRead_lowers_badge :
  forall (ids : list string) (prev : State),
    (borrowLogBadgeCount (markNotificationsAsRead_patch ids prev)
     <= borrowLogBadgeCount prev)%nat /\
    ((forall n, In n (notifications prev) -> Notification.read n = false ->
                In (Notification.id n) ids) ->
     borrowLogBadgeCount (markNotificationsAsRead_patch ids prev) = 0%nat).
Proof.
  intros ids prev. unfold borrowLogBadgeCount, markNotificationsAsRead_patch.
  cbn [notifications]. split.
  - pose proof (unread_after_markRead "return_request" ids
                  (notifications prev)).
    pose proof (unread_after_markRead "new_borrow_request" ids
                  (notifications prev)).
    lia.
  - intros Hall.
    rewrite (no_unread_after_markRead "return_request" ids _ Hall).
    rewrite (no_unread_after_markRead "new_borrow_request" ids _ Hall).
    reflexivity.
Qed.

Lemma pending_after_replace :
  forall (new : User.t) (l : list User.t),
    User.status new <> PENDING ->
    let pending := fun u => UserStatus_eqb (User.status u) PENDING in
    let replaced :=
      map (fun u => if (User.id u =? User.id new)%string then new else u) l in
    (List.length (filter pending replaced)
     <= List.length (filter pending l))%nat /\
    ((exists u, In u l /\ User.id u = User.id new /\ User.status u = PENDING) ->
     (List.length (filter pending replaced)
      < List.length (filter pending l))%nat).
Proof.
  intros new l Hnew pending replaced. subst replaced.
  assert (Hnewb : pending new = false).
  { unfold pending.
    destruct (User.status new); [contradiction Hnew; reflexivity | | ];
      reflexivity. }
  induction l as [|x l [IHle IHlt]]; cbn [map filter].
  - split; [apply le_n | intros (u & [] & _)].
  - destruct (String.eqb_spec (User.id x) (User.id new)) as [Hid|Hid].
    + rewrite Hnewb.
      destruct (pending x) eqn:Hx; cbn [List.length].
      * split; [lia | intros _; lia].
      * split; [exact IHle|].
        intros (u & [Hu|Hu] & Huid & Hust).
        -- subst u. unfold pending in Hx. rewrite Hust in Hx. discriminate.
        -- apply IHlt. exists u. split_ands; assumption.
    + destruct (pending x) eqn:Hx; cbn [List.length].
      * split; [lia|].
        intros (u & [Hu|Hu] & Huid & Hust).
        -- subst u. contradiction.
        -- assert (Hex : exists v, In v l /\ User.id v = User.id new
                                   /\ User.status v = PENDING).
           { exists u. split_ands; assumption. }
           specialize (IHlt Hex). lia.
      * split; [exact IHle|].
        intros (u & [Hu|Hu] & Huid & Hust).
        -- subst u. contradiction.
        -- apply IHlt. exists u. split_ands; assumption.
Qed.

(** The badge of pending users follows the store: a signup the backend
    left PENDING raises it by one; an approval or denial whose returned
    user is no longer PENDING never raises it, and lowers it when the
    snapshot held that user as PENDING. *)
Theorem pending_badge_follows_patches :
  forall prev : State,
    (forall newUser newNotification,
        User.status newUser = PENDING ->
        pendingUsersCount (createUser_patch newUser newNotification prev)
        = S (pendingUsersCount prev)) /\
    (forall decided,
        User.status decided <> PENDING ->
        (pendingUsersCount (approveUser_patch decided prev)
         <= pendingUsersCount prev)%nat /\
        (pendingUsersCount (denyUser_patch decided prev)
         <= pendingUsersCount prev)%nat /\
        ((exists u, In u (users prev) /\ User.id u = User.id decided /\
                    User.status u = PENDING) ->
         (pendingUsersCount (approveUser_patch decided prev)
          < pendingUsersCount prev)%nat /\
         (pendingUsersCount (denyUser_patch decided prev)
          < pendingUsersCount prev)%nat)).
Proof.
  intros prev. split.
  - intros newUser newNotification Hstatus.
    unfold pendingUsersCount, createUser_patch. cbn [users].
    rewrite filter_app, length_app. cbn [filter]. rewrite Hstatus.
    cbn [UserStatus_eqb List.length]. lia.
  - intros decided Hdecided.
    unfold pendingUsersCount, approveUser_patch, denyUser_patch.
    cbn [users].
    destruct (pending_after_replace decided (users prev) Hdecided)
      as [Hle Hlt].
    split_ands; try exact Hle.
    intros Hheld. split; apply Hlt; exact Hheld.
Qed.

End SidebarProperties.

(* ================================================================== *)
(** * Properties of the dashboard *)

Section DashboardProperties.
Import Dashboard.

(** The sums in exact arithmetic. *)
Abbreviation exactTotal l acc :=
  (fold_left (fun sum item => (sum + Item.totalQuantity item)%Z) l acc).
Abbreviation exactBorrowed l acc :=
  (fold_left
     (fun sum item =>
        (sum + (Item.totalQuantity item - Item.availableQuantity item))%Z)
     l acc).
Abbreviation exactAvailable l acc :=
  (fold_left (fun sum item => (sum + Item.availableQuantity item)%Z) l acc).

Lemma sums_with_accumulators :
  forall (l : list Item.t) (total borrowed : Z),
    (forall i, In i l ->
               (0 <= Item.availableQuantity i <= Item.totalQuantity i)%Z) ->
    (0 <= borrowed <= total)%Z ->
    (0 <= exactBorrowed l borrowed <= exactTotal l total)%Z.
Proof.
  induction l as [|x l IH]; intros total borrowed Hinv Hacc; cbn [fold_left].
  - exact Hacc.
  - apply IH.
    + intros i Hi. apply Hinv. right. exact Hi.
    + pose proof (Hinv x (or_introl eq_refl)). lia.
Qed.

Lemma sums_differ_by_available :
  forall (l : list Item.t) (total borrowed : Z),
    (exactTotal l total - exactBorrowed l borrowed
     = exactAvailable l (total - borrowed))%Z.
Proof.
  induction l as [|x l IH]; intros total borrowed; cbn [fold_left].
  - reflexivity.
  - rewrite IH. f_equal. lia.
Qed.

(** The exact total only grows along the list. *)
Lemma exactTotal_grows :
  forall (l : list Item.t) (total : Z),
    (forall i, In i l ->
               (0 <= Item.availableQuantity i <= Item.totalQuantity i)%Z) ->
    (total <= exactTotal l total)%Z.
Proof.
  induction l as [|x l IH]; intros total Hinv; cbn [fold_left].
  - lia.
  - pose proof (Hinv x (or_introl eq_refl)).
    pose proof (IH (total + Item.totalQuantity x)%Z
                   (fun i Hi => Hinv i (or_intror Hi))).
    lia.
Qed.

(** While the exact total stays within the integers that doubles hold
    exactly, the two sums of the code are the exact ones. *)
Lemma sums_are_exact :
  forall (toDouble : Z -> Z) (l : list Item.t) (total borrowed : Z),
    ExactOnSafeIntegers toDouble ->
    (forall i, In i l ->
               (0 <= Item.availableQuantity i <= Item.totalQuantity i)%Z) ->
    (0 <= borrowed <= total)%Z ->
    (exactTotal l total <= 2 ^ 53)%Z ->
    fold_left (fun sum item => plus toDouble sum (Item.totalQuantity item))
              l total
    = exactTotal l total /\
    fold_left
      (fun sum item =>
         plus toDouble sum
              (minus toDouble (Item.totalQuantity item)
                     (Item.availableQuantity item)))
      l borrowed
    = exactBorrowed l borrowed.
Proof.
  intros toDouble.
  induction l as [|x l IH]; intros total borrowed Hexact Hinv Hacc Hsafe;
    cbn [fold_left].
  - split; reflexivity.
  - cbn [fold_left] in Hsafe.
    pose proof (Hinv x (or_introl eq_refl)) as Hx.
    pose proof (exactTotal_grows l (total + Item.totalQuantity x)%Z
                  (fun i Hi => Hinv i (or_intror Hi))) as Hgrows.
    unfold plus at 2 4, minus.
    rewrite (Hexact (Item.totalQuantity x - Item.availableQuantity x)%Z)
      by lia.
    rewrite (Hexact (total + Item.totalQuantity x)%Z) by lia.
    rewrite (Hexact (borrowed + (Item.totalQuantity x
                                 - Item.availableQuantity x))%Z) by lia.
    apply IH; [exact Hexact | | lia | exact Hsafe].
    intros i Hi. apply Hinv. right. exact Hi.
Qed.

(** The rounding of a browser changes no integer up to [2^53]. *)
Lemma roundToDouble_exact : ExactOnSafeIntegers roundToDouble.
Proof.
  intros z Hz. unfold roundToDouble.
  destruct (Z.leb_spec (Z.abs z) (2 ^ 53)) as [_|Hbig]; [reflexivity | lia].
Qed.

(** The two sums of the dashboard agree with the stock as long as every
    item of the snapshot keeps [0 <= available <= total] and the total
    stays within the integers that the numbers of the engine hold
    exactly (up to [2^53]): the total count is the sum of the totals,
    what is counted as borrowed is the total minus what is available,
    and the borrowed count lies between zero and the total count. *)
Theorem dashboard_sums :
  forall (toDouble : Z -> Z) (state : State),
    ExactOnSafeIntegers toDouble ->
    (forall i, In i (items state) ->
               (0 <= Item.availableQuantity i <= Item.totalQuantity i)%Z) ->
    (exactTotal (items state) 0 <= 2 ^ 53)%Z ->
    totalItems toDouble state = exactTotal (items state) 0%Z /\
    (0 <= borrowedItems toDouble state <= totalItems toDouble state)%Z /\
    (totalItems toDouble state - borrowedItems toDouble state
     = exactAvailable (items state) 0)%Z.
Proof.
  intros toDouble state Hexact Hinv Hsafe. unfold borrowedItems, totalItems.
  destruct (sums_are_exact toDouble (items state) 0 0 Hexact Hinv) as [-> ->];
    [lia | exact Hsafe |].
  split; [reflexivity | split].
  - apply sums_with_accumulators; [exact Hinv | lia].
  - apply (sums_differ_by_available (items state) 0 0).
Qed.

(** "Recent Activity" shows the first five logs of the snapshot, in
    their order, and never fails on a dangling reference: a log whose
    item (or user) is not in the snapshot is shown with the name "N/A",
    and no row has an empty name. *)
Theorem recentLogs_rows :
  forall state : State,
    List.length (recentLogs state) = Nat.min 5 (List.length (logs state)) /\
    map log (recentLogs state) = firstn 5 (logs state) /\
    (forall row, In row (recentLogs state) ->
       itemName row <> "" /\ userName row <> "" /\
       ((forall i, In i (items state) ->
                   Item.id i <> LogEntry.itemId (log row)) ->
        itemName row = "N/A") /\
       ((forall u, In u (users state) ->
                   User.id u <> LogEntry.userId (log row)) ->
        userName row = "N/A")).
Proof.
  intros state. unfold recentLogs. split_ands.
  - rewrite length_map. apply length_firstn.
  - rewrite map_map. cbn [log]. apply map_id.
  - intros row Hrow. apply in_map_iff in Hrow.
    destruct Hrow as (l & <- & _). cbn [itemName userName log].
    split_ands.
    + apply or_else_nonempty. discriminate.
    + apply or_else_nonempty. discriminate.
    + intros Habs.
      destruct (find (fun i => Item.id i =? LogEntry.itemId l) (items state))
        as [x|] eqn:Hfind; [|reflexivity].
      apply find_some in Hfind. destruct Hfind as [Hin Heq].
      apply String.eqb_eq in Heq. exfalso. exact (Habs x Hin Heq).
    + intros Habs.
      destruct (find (fun u => User.id u =? LogEntry.userId l) (users state))
        as [x|] eqn:Hfind; [|reflexivity].
      apply find_some in Hfind. destruct Hfind as [Hin Heq].
      apply String.eqb_eq in Heq. exfalso. exact (Habs x Hin Heq).
Qed.

End DashboardProperties.

(* ================================================================== *)
(** * Properties of the route guard *)

Section RouteProperties.
Import App.

(** The route guard does nothing while the session is unresolved, and
    it never redirects twice: the path it sends the browser to is one
    on which it asks for nothing more.  Where it asks for nothing on a
    resolved session, an anonymous visitor is on a public page and a
    signed-in user who is no administrator is on no page under an admin
    prefix.  Since "/login" begins with the admin prefix "/log", such a
    user is sent from the login page to the dashboard, while an
    administrator is left on it. *)
Theorem redirect_settles :
  forall (g : AuthContext.Guard) (pathname : string),
    (AuthContext.isLoading g = true -> redirect g pathname = None) /\
    (forall target,
        redirect g pathname = Some target -> redirect g target = None) /\
    (AuthContext.isLoading g = false -> redirect g pathname = None ->
     (AuthContext.isAuthenticated g = false -> isPublicPage pathname = true) /\
     (AuthContext.isAuthenticated g = true -> holdsAdmin g = false ->
      isAdminPage pathname = false)) /\
    (AuthContext.isLoading g = false ->
     AuthContext.isAuthenticated g = true ->
     redirect g "/login"
     = if holdsAdmin g then None else Some "/dashboard").
Proof.
  intros g pathname. unfold redirect, holdsAdmin, AuthContext.isAuthenticated.
  destruct (AuthContext.isLoading g), (AuthContext.currentUser g) as [u|];
    cbn [negb andb]; split_ands; try discriminate; try reflexivity;
    try (intros; discriminate).
  - intros target.
    destruct (isAdminPage pathname), (User.isAdmin u); cbn [negb andb];
      try discriminate.
    intros H. injection H as <-. reflexivity.
  - intros _.
    destruct (isAdminPage pathname), (User.isAdmin u); cbn [negb andb];
      try discriminate; intros _; split; intros; try discriminate;
      reflexivity.
  - intros _ _. destruct (User.isAdmin u); reflexivity.
  - intros target. destruct (isPublicPage pathname); cbn [negb];
      try discriminate.
    intros H. injection H as <-. reflexivity.
  - intros _. destruct (isPublicPage pathname); cbn [negb];
      try discriminate.
    intros _. split; intros; [reflexivity | discriminate].
Qed.

End RouteProperties.

(* ================================================================== *)
(** * Properties of the settings *)

Section SettingsProperties.
Import settingsService SettingsContext.

Lemma sameText_eq :
  forall a b : Settings, sameText a b = true <-> a = b.
Proof.
  intros [ta la] [tb lb]. unfold sameText. cbn [title logoUrl].
  rewrite andb_true_iff, !String.eqb_eq. split.
  - intros [-> ->]. reflexivity.
  - intros H. injection H as -> ->. split; reflexivity.
Qed.

(** Settings saved in a browser whose storage works are the settings
    loaded next.  Without a [window], or when the storage refuses the
    write, saving changes nothing and raises nothing; and loading
    answers with nothing when there is no [window], when the storage
    refuses the read, or when the entry is absent, [null] or not
    JSON. *)
Theorem settings_round_trip :
  forall (s : Settings) (b : Browser),
    (hasWindow b = true -> getItemThrows b = false ->
     setItemThrows b = false ->
     loadSettings (saveSettings s b) = Some s) /\
    (hasWindow b = false \/ setItemThrows b = true ->
     saveSettings s b = b) /\
    (hasWindow b = false \/ getItemThrows b = true \/ entry b = None
     \/ entry b = Some NullText \/ entry b = Some Unparseable ->
     loadSettings b = None).
Proof.
  intros s b. unfold loadSettings, saveSettings. split_ands.
  - intros -> Hget ->. cbn. rewrite Hget. reflexivity.
  - intros [-> | ->]; [reflexivity|]. destruct (hasWindow b); reflexivity.
  - intros [-> | [-> | [-> | [-> | ->]]]];
      destruct (hasWindow b); cbn; try reflexivity;
      destruct (getItemThrows b); reflexivity.
Qed.

(** In a browser whose storage works, an update that leaves the
    settings different from the defaults is what the next mount starts
    with.  An update that brings them back to the defaults is not
    saved: the storage keeps its entry, and the next mount starts with
    the settings stored before, not with the defaults. *)
Theorem settings_persist_unless_default :
  forall (new : PartialSettings) (p : Provider),
    hasWindow (browser p) = true ->
    getItemThrows (browser p) = false ->
    setItemThrows (browser p) = false ->
    let p' := updateSettings new p in
    settings p' = merge (settings p) new /\
    (merge (settings p) new <> defaultSettings ->
     settings (mount (browser p')) = merge (settings p) new) /\
    (merge (settings p) new = defaultSettings ->
     browser p' = browser p /\
     forall old,
       entry (browser p) = Some (Serialized old) ->
       settings (mount (browser p')) = old).
Proof.
  intros new p Hwin Hget Hset p'. subst p'.
  unfold updateSettings, saveEffect. cbn [settings browser].
  destruct (sameText (merge (settings p) new) defaultSettings) eqn:Hsame;
    cbn [negb settings browser].
  - apply sameText_eq in Hsame. split_ands.
    + reflexivity.
    + intros Hne. contradiction.
    + intros _. split; [reflexivity|].
      intros old Hentry. unfold mount, saveEffect, loadSettings.
      rewrite Hwin, Hget, Hentry. cbn [negb settings browser].
      destruct (sameText old defaultSettings); reflexivity.
  - split_ands.
    + reflexivity.
    + intros _. unfold mount, saveEffect, loadSettings, saveSettings.
      rewrite Hwin, Hset. cbn [negb hasWindow getItemThrows entry browser
                                settings sameText].
      rewrite Hget. cbn [negb settings browser].
      rewrite Hsame. reflexivity.
    + intros Heq. apply sameText_eq in Heq. congruence.
Qed.

End SettingsProperties.

(* ================================================================== *)
(** * Properties of the report generation *)

Section ReportProperties.
Import geminiService generateReport.

Variable Report : Type.

(** Without a configured client the report service calls no model and
    rejects with an [Error]; with one it calls the model once, showing
    it every item, the first fifty logs at most and the identity of
    every user; and it never rejects with a [SyntaxError]: an answer
    that does not parse is reported as the fixed "Failed to parse"
    error. *)
Theorem generateInventoryReport_outcomes :
  forall (ai : option (Prompt -> Exn + string))
         (parseReport : string -> option Report)
         (items : list Item.t) (logs : list LogEntry.t) (users : list User.t),
    let run := generateInventoryReport Report ai parseReport items logs users in
    (ai = None -> fst run = [] /\ exists m, snd run = inl (Error m)) /\
    (forall generateContent,
        ai = Some generateContent ->
        exists prompt,
          fst run = [prompt] /\
          inventory prompt = items /\
          logsShown prompt = firstn 50 logs /\
          (List.length (logsShown prompt) <= 50)%nat /\
          map fst (usersShown prompt) = map User.id users /\
          (forall jsonText,
              generateContent prompt = inr jsonText ->
              parseReport jsonText = None ->
              snd run
              = inl (Error ("Failed to parse the AI's response. "
                            ++ "The format was invalid."))) /\
          (forall jsonText report,
              generateContent prompt = inr jsonText ->
              parseReport jsonText = Some report ->
              snd run = inr report)) /\
    (forall m, snd run = inl (SyntaxError m) -> False).
Proof.
  intros ai parseReport items logs users run. subst run.
  unfold generateInventoryReport. split_ands.
  - intros ->. split; [reflexivity | eexists; reflexivity].
  - intros generateContent ->. eexists. split_ands; try reflexivity.
    + cbn [logsShown]. rewrite length_firstn. apply Nat.le_min_l.
    + cbn [usersShown]. rewrite map_map. reflexivity.
    + intros jsonText Hgen Hparse. cbn [snd]. rewrite Hgen, Hparse.
      reflexivity.
    + intros jsonText report Hgen Hparse. cbn [snd].
      rewrite Hgen, Hparse. reflexivity.
  - intros m. destruct ai as [generateContent|]; cbn [snd].
    + destruct (generateContent _) as [[e|e|e]|jsonText]; cbn [remap];
        try discriminate.
      destruct (parseReport jsonText); discriminate.
    + discriminate.
Qed.

(** A run of the handler that answers with a message and has not
    called the generator. *)
Ltac quiet_run :=
  unfold failure; cbn [generated response status json]; split_ands;
  [ intros ?; first [contradiction | split; reflexivity]
  | intros ? ? ? ? ?; first [contradiction | congruence]
  | left; reflexivity
  | split; [discriminate | intros (? & ? & ? & ? & ? & _); discriminate]
  | intros ? ?; discriminate
  | let H := fresh in
    let Hne := fresh in
    intros ? H;
    match type of H with
    | Message ?text = _ =>
        assert (Hne : text <> "")
          by first [discriminate | apply or_else_nonempty; discriminate]
    end;
    injection H as <-; split; [exact Hne | auto] ].

(** The report endpoint answers 405 to any method but POST; it calls
    the generator exactly for a POST whose body carries items, logs and
    users, and then once, with these three; when the generator resolves
    it answers 200 with its report, and when the generator throws, 500
    with the message thrown.  So it answers 200 exactly when the
    generator was called and resolved, and a report is sent with no
    other status; every other answer is 400, 405 or 500 with a message
    that is never empty. *)
Theorem handler_statuses :
  forall (generate :
            list Item.t -> list LogEntry.t -> list User.t -> Exn + Report)
         (destructuringMessage : string) (req : ApiRequest),
    let h := handler Report generate destructuringMessage req in
    (method req <> "POST" ->
     generated h = [] /\
     response h = mkApiResponse 405%N (Message "Method Not Allowed")) /\
    (forall items logs users,
        method req = "POST" ->
        body req = Some (mkBody (Some items) (Some logs) (Some users)) ->
        generated h = [(items, logs, users)] /\
        (forall report,
            generate items logs users = inr report ->
            response h = mkApiResponse 200%N (ReportJson report)) /\
        (forall thrown,
            generate items logs users = inl thrown ->
            response h
            = mkApiResponse 500%N
                (Message (or_else (Some (exn_message thrown))
                                  "An unknown error occurred.")))) /\
    (generated h = []
     \/ exists items logs users,
          generated h = [(items, logs, users)] /\
          method req = "POST" /\
          body req = Some (mkBody (Some items) (Some logs) (Some users))) /\
    (status (response h) = 200%N
     <-> exists items logs users report,
           generated h = [(items, logs, users)] /\
           generate items logs users = inr report) /\
    (forall report,
        json (response h) = ReportJson report ->
        status (response h) = 200%N /\
        exists items logs users,
          generated h = [(items, logs, users)] /\
          generate items logs users = inr report) /\
    (forall m,
        json (response h) = Message m ->
        m <> "" /\
        (status (response h) = 400%N \/ status (response h) = 405%N
         \/ status (response h) = 500%N)).
Proof.
  intros generate destructuringMessage req h. subst h. unfold handler.
  destruct (String.eqb_spec (method req) "POST") as [Hpost|Hother];
    cbn [negb].
  2: { quiet_run. }
  destruct (body req) as [b|] eqn:Hbody.
  2: { quiet_run. }
  destruct b as [[items|] [logs|] [users|]]; cbn [b_items b_logs b_users];
    try solve [quiet_run].
  destruct (generate items logs users) as [e|report] eqn:Hgen;
    cbn [generated response status json failure]; split_ands.
  - intros Hne. contradiction.
  - intros i l u _ H. injection H as <- <- <-. split_ands.
    + reflexivity.
    + intros report H. congruence.
    + intros thrown H. rewrite Hgen in H. injection H as <-. reflexivity.
  - right. exists items, logs, users.
    split_ands; first [reflexivity | exact Hpost].
  - split; [discriminate|].
    intros (i & l & u & r & H & Hr). injection H as <- <- <-.
    congruence.
  - intros report H. discriminate.
  - intros m H. injection H as <-. split.
    + apply (or_else_nonempty (Some (exn_message e))). discriminate.
    + auto.
  - intros Hne. contradiction.
  - intros i l u _ H. injection H as <- <- <-. split_ands.
    + reflexivity.
    + intros r H. rewrite Hgen in H. injection H as <-. reflexivity.
    + intros thrown H. congruence.
  - right. exists items, logs, users.
    split_ands; first [reflexivity | exact Hpost].
  - split; [|reflexivity]. intros _.
    exists items, logs, users, report.
    split_ands; first [reflexivity | exact Hgen].
  - intros r H. injection H as <-. split; [reflexivity|].
    exists items, logs, users. split; [reflexivity | exact Hgen].
  - intros m H. discriminate.
Qed.

End ReportProperties.

(* ================================================================== *)
(** * Further properties of the session guard *)

Section MoreGuardProperties.
Import AuthContext.

Lemma restoreSession_settled :
  forall entry, Settled (restoreSession (mkGuard None true entry)).
Proof.
  intros entry. unfold Settled, restoreSession.
  cbn [sessionStorage].
  destruct entry as [[user| | |]|];
    try (cbn; split; [reflexivity | auto]).
  destruct (UserStatus_eqb (User.status user) APPROVED); cbn; auto.
Qed.

Lemma step_settled :
  forall g g', Settled g -> GuardStep true g g' -> Settled g'.
Proof.
  intros g g' [Hresolved Hheld] Hstep.
  destruct Hstep as [hostname fetch identifier password
                    | inventoryState isInventoryLoading
                    |
                    | hostname fetch identifier password refused Hrefused
                    | inventoryState isInventoryLoading Hrefused ];
    try discriminate Hrefused.
  - unfold login.
    destruct (snd (api.login hostname fetch identifier password)) as [e|user];
      cbn [guard].
    + split; assumption.
    + split; [exact Hresolved | reflexivity].
  - unfold revalidate.
    destruct (currentUser g) as [held|] eqn:Hcur.
    + destruct (negb isInventoryLoading
                && (0 <? List.length (users inventoryState))%nat).
      * destruct (findFresh held (users inventoryState)) as [freshUser|].
        -- destruct (UserStatus_eqb (User.status freshUser) APPROVED).
           ++ split; [exact Hresolved | reflexivity].
           ++ split; [exact Hresolved | left; reflexivity].
        -- split; [exact Hresolved | left; reflexivity].
      * split; [exact Hresolved | rewrite Hcur; exact Hheld].
    + split; [exact Hresolved | rewrite Hcur; exact Hheld].
  - split; [exact Hresolved | left; reflexivity].
Qed.

Lemma reachable_settled :
  forall g, Reachable true g -> Settled g.
Proof.
  intros g Hreach. induction Hreach as [entry | g g' _ IH Hstep].
  - apply restoreSession_settled.
  - exact (step_settled g g' IH Hstep).
Qed.

(** What effect 1 makes of the session storage when the provider
    mounts: the guard is resolved; it holds a user exactly when the
    entry is a stored user whose status is APPROVED, and then the entry
    is kept; an empty text is left where it is, with no user held; any
    other entry is removed. *)
Theorem restoreSession_outcome :
  forall entry : option SessionEntry,
    let g := restoreSession (mkGuard None true entry) in
    isLoading g = false /\
    (forall user,
        guardState g = Authenticated user
        <-> entry = Some (Serialized user) /\ User.status user = APPROVED) /\
    (forall user,
        guardState g = Authenticated user -> sessionStorage g = entry) /\
    (entry = Some EmptyText ->
     guardState g = Anonymous /\ sessionStorage g = Some EmptyText) /\
    (guardState g = Anonymous -> entry <> Some EmptyText ->
     sessionStorage g = None).
Proof.
  intros entry g. subst g. unfold restoreSession, guardState.
  destruct entry as [[stored| | |]|]; cbn;
    try (split_ands;
         [ reflexivity
         | intros user; split; [discriminate | intros [H _]; discriminate]
         | intros user; discriminate
         | first [discriminate | intros _; split; reflexivity]
         | first [reflexivity | intros _ H; contradiction H; reflexivity] ]).
  destruct (UserStatus_eqb (User.status stored) APPROVED) eqn:Hst; cbn.
  - apply UserStatus_eqb_APPROVED in Hst. split_ands.
    + reflexivity.
    + intros user. split.
      * intros H. injection H as <-. split; [reflexivity | exact Hst].
      * intros [H _]. injection H as <-. reflexivity.
    + intros user _. reflexivity.
    + discriminate.
    + discriminate.
  - split_ands.
    + reflexivity.
    + intros user. split; [discriminate|].
      intros [H Happ]. injection H as <-.
      apply UserStatus_eqb_APPROVED in Happ. congruence.
    + intros user. discriminate.
    + discriminate.
    + reflexivity.
Qed.

(** In a browser that accepts every write to session storage, whatever
    the guard has been through since it mounted (logins that succeeded
    or failed, re-validations, logouts), it is resolved, the user it
    holds is the one session storage holds, and a reload of the page
    comes back to the same user if that user's status is APPROVED and
    to an anonymous guard with the entry removed otherwise; a guard
    that holds no user is anonymous again after a reload. *)
Theorem session_survives_reload :
  forall g : Guard,
    Reachable true g ->
    isLoading g = false /\
    (forall user,
        currentUser g = Some user ->
        sessionStorage g = Some (Serialized user) /\
        (User.status user = APPROVED ->
         guardState (reload g) = Authenticated user /\
         sessionStorage (reload g) = sessionStorage g) /\
        (User.status user <> APPROVED ->
         guardState (reload g) = Anonymous /\
         sessionStorage (reload g) = None)) /\
    (currentUser g = None -> guardState (reload g) = Anonymous).
Proof.
  intros g Hreach. destruct (reachable_settled g Hreach) as [Hresolved Hheld].
  split_ands.
  - exact Hresolved.
  - intros user Hcur. rewrite Hcur in Hheld. split_ands.
    + exact Hheld.
    + intros Happ. unfold reload, restoreSession, guardState.
      rewrite Hheld. cbn. rewrite Happ. cbn. split; reflexivity.
    + intros Hnot. unfold reload, restoreSession, guardState.
      rewrite Hheld. cbn.
      destruct (UserStatus_eqb (User.status user) APPROVED) eqn:Hst.
      * apply UserStatus_eqb_APPROVED in Hst. contradiction.
      * cbn. split; reflexivity.
  - intros Hcur. rewrite Hcur in Hheld. unfold reload, restoreSession.
    destruct Hheld as [-> | ->]; reflexivity.
Qed.

Lemma findFresh_same_identity :
  forall (a b : User.t) (us : list User.t),
    User.id a = User.id b -> findFresh a us = findFresh b us.
Proof. intros a b us Hid. unfold findFresh. rewrite Hid. reflexivity. Qed.

(** On values, a second run of the body of effect 2 over the same
    inventory writes what the first run wrote. *)
Lemma revalidate_repeats_its_values :
  forall (inventoryState : State) (isInventoryLoading : bool) (g : Guard),
    revalidate inventoryState isInventoryLoading
               (revalidate inventoryState isInventoryLoading g)
    = revalidate inventoryState isInventoryLoading g.
Proof.
  intros inventoryState isInventoryLoading g.
  unfold revalidate at 2 3.
  destruct (currentUser g) as [held|] eqn:Hcur.
  - destruct (negb isInventoryLoading
              && (0 <? List.length (users inventoryState))%nat) eqn:Hgo.
    + destruct (findFresh held (users inventoryState)) as [freshUser|]
        eqn:Hfind.
      * destruct (UserStatus_eqb (User.status freshUser) APPROVED) eqn:Hst.
        -- unfold revalidate. cbn [currentUser setItem setCurrentUser].
           rewrite Hgo.
           assert (Hid : User.id (withoutPassword freshUser) = User.id held).
           { unfold findFresh in Hfind. apply find_some in Hfind.
             destruct Hfind as [_ Heq]. apply String.eqb_eq in Heq.
             exact Heq. }
           rewrite (findFresh_same_identity _ _ _ Hid), Hfind, Hst.
           reflexivity.
        -- unfold revalidate, logout. reflexivity.
      * unfold revalidate, logout. reflexivity.
    + unfold revalidate. rewrite Hcur, Hgo. reflexivity.
  - unfold revalidate. rewrite Hcur. reflexivity.
Qed.

(** With identities left out, a run of effect 2 is a run of
    [revalidate]. *)
Lemma effect2_shown :
  forall (inventoryState : State) (isInventoryLoading : bool) (p : Provider),
    shown (effect2 inventoryState isInventoryLoading p)
    = revalidate inventoryState isInventoryLoading (shown p).
Proof.
  intros inventoryState isInventoryLoading [[held|] kept free];
    unfold effect2, revalidate, shown;
    cbn [currentUser cell session allocated option_map]; [|reflexivity].
  destruct (negb isInventoryLoading
            && (0 <? List.length (users inventoryState))%nat);
    [|reflexivity].
  destruct (findFresh (contents held) (users inventoryState))
    as [freshUser|]; [|reflexivity].
  destruct (UserStatus_eqb (User.status freshUser) APPROVED); reflexivity.
Qed.

(** One approved run: the cell gets a new object at the next free
    address, holding the fresh user without its password. *)
Lemma effect2_approved_run :
  forall (inventoryState : State) (p : Provider) (held : Held)
         (freshUser : User.t),
    cell p = Some held ->
    (address held < allocated p)%nat ->
    users inventoryState <> [] ->
    findFresh (contents held) (users inventoryState) = Some freshUser ->
    User.status freshUser = APPROVED ->
    effect2 inventoryState false p
    = mkProvider (Some (mkHeld (allocated p) (withoutPassword freshUser)))
                 (Some (Serialized (withoutPassword freshUser)))
                 (S (allocated p)) /\
    runsAgain inventoryState false p = true.
Proof.
  intros inventoryState p held freshUser Hcell Hfree Husers Hfind Hst.
  assert (Hrun :
            effect2 inventoryState false p
            = mkProvider
                (Some (mkHeld (allocated p) (withoutPassword freshUser)))
                (Some (Serialized (withoutPassword freshUser)))
                (S (allocated p))).
  { unfold effect2. rewrite Hcell.
    destruct (users inventoryState) as [|u us] eqn:Hus;
      [contradiction Husers; reflexivity|].
    cbn [negb andb List.length Nat.ltb Nat.leb].
    rewrite Hfind, Hst. reflexivity. }
  split; [exact Hrun|].
  unfold runsAgain. rewrite Hrun, Hcell. cbn [cell sameObject address].
  destruct (Nat.eqb_spec (address held) (allocated p)) as [Heq|_];
    [lia | reflexivity].
Qed.

(** Effect 2 never comes to rest on an approved session.  With the
    inventory loaded and its user of the held identity APPROVED, every
    run of the effect stores a new object in [currentUser], which is a
    dependency of the effect, so every run is followed by another;
    from the first run on, the user value held and the entry stored
    stay the same. *)
Theorem revalidation_never_rests :
  forall (inventoryState : State) (freshUser : User.t) (n : nat)
         (p : Provider) (held : Held),
    cell p = Some held ->
    (address held < allocated p)%nat ->
    users inventoryState <> [] ->
    findFresh (contents held) (users inventoryState) = Some freshUser ->
    User.status freshUser = APPROVED ->
    let before := afterRuns n inventoryState false p in
    let after := afterRuns (S n) inventoryState false p in
    runsAgain inventoryState false before = true /\
    cell after
    = Some (mkHeld (allocated p + n) (withoutPassword freshUser)) /\
    session after = Some (Serialized (withoutPassword freshUser)) /\
    shown after = revalidate inventoryState false (shown p).
Proof.
  intros inventoryState freshUser.
  induction n as [|n IH];
    intros p held Hcell Hfree Husers Hfind Hst before after;
    subst before after.
  - cbn [afterRuns].
    destruct (effect2_approved_run inventoryState p held freshUser
                Hcell Hfree Husers Hfind Hst) as [Hrun Hagain].
    split_ands.
    + exact Hagain.
    + rewrite Hrun. cbn [cell]. rewrite Nat.add_0_r. reflexivity.
    + rewrite Hrun. reflexivity.
    + apply effect2_shown.
  - destruct (effect2_approved_run inventoryState p held freshUser
                Hcell Hfree Husers Hfind Hst) as [Hrun _].
    assert (Hfind' :
              findFresh (contents (mkHeld (allocated p)
                                          (withoutPassword freshUser)))
                        (users inventoryState)
              = Some freshUser).
    { rewrite <- Hfind. apply findFresh_same_identity. cbn.
      unfold findFresh in Hfind. apply find_some in Hfind.
      destruct Hfind as [_ Heq]. apply String.eqb_eq in Heq. exact Heq. }
    destruct (IH (effect2 inventoryState false p)
                 (mkHeld (allocated p) (withoutPassword freshUser)))
      as (Hagain & Hcell' & Hsession & Hshown);
      try assumption.
    + rewrite Hrun. reflexivity.
    + rewrite Hrun. cbn [address allocated]. lia.
    + change (afterRuns (S (S n)) inventoryState false p)
        with (afterRuns (S n) inventoryState false
                        (effect2 inventoryState false p)).
      change (afterRuns (S n) inventoryState false p)
        with (afterRuns n inventoryState false
                        (effect2 inventoryState false p)).
      split_ands.
      * exact Hagain.
      * rewrite Hcell', Hrun. cbn [allocated].
        replace (S (allocated p) + n)%nat with (allocated p + S n)%nat by lia.
        reflexivity.
      * exact Hsession.
      * rewrite Hshown, effect2_shown.
        apply revalidate_repeats_its_values.
Qed.

(** A login the backend answers with a failure status sends the one
    login request, rejects, and leaves the guard as it was: no user is
    held and nothing is written to session storage. *)
Theorem login_refused_keeps_guard :
  forall (hostname : option string) (fetch : Fetch User.t)
         (identifier password : string) (g : Guard)
         (response : Response User.t),
    fetch (api.requestOf hostname "/auth/login"
                         (api.post (Some (PLogin identifier password))))
      = inr response ->
    resp_ok response = false ->
    let a := login hostname fetch identifier password g in
    sent a = [api.requestOf hostname "/auth/login"
                            (api.post (Some (PLogin identifier password)))] /\
    (exists e, outcome a = inl e) /\
    guard a = g.
Proof.
  intros hostname fetch identifier password g response Hfetch Hok a. subst a.
  unfold login, api.login, api.apiFetch. cbn [fst snd].
  rewrite Hfetch, Hok. cbn [negb].
  destruct (api.errorMessage response);
    cbn [sent outcome guard]; split_ands; try reflexivity;
    eexists; reflexivity.
Qed.

End MoreGuardProperties.

(* ================================================================== *)
(** * Report generation without a configured client *)

(** Where no API key is configured, the report endpoint answers every
    well-formed POST with status 500 and the configuration message, and
    no model is called. *)
Theorem report_endpoint_without_api_key :
  forall (Report : Type) (parseReport : string -> option Report)
         (destructuringMessage : string)
         (items : list Item.t) (logs : list LogEntry.t) (users : list User.t),
    let service := geminiService.generateInventoryReport Report None
                     parseReport in
    let h :=
      generateReport.handler Report
        (fun i l u => snd (service i l u)) destructuringMessage
        (generateReport.mkApiRequest "POST"
           (Some (generateReport.mkBody (Some items) (Some logs)
                                        (Some users)))) in
    fst (service items logs users) = [] /\
    generateReport.status (generateReport.response h) = 500%N /\
    generateReport.json (generateReport.response h)
    = generateReport.Message
        ("API_KEY is not configured. Please set the API_KEY "
         ++ "environment variable to use this feature.").
Proof.
  intros Report parseReport destructuringMessage items logs users service h.
  subst service h. split_ands; reflexivity.
Qed.

(* ================================================================== *)
(** * More worked instances *)

Section MoreInstances.
Import InventoryContext.

(** The backend is down while Alice's items are fetched from a page
    served by the host [lab-pc]. *)
Lemma apiFetch_unreachable_backend_witness :
  let call := api.apiFetch (T := Item.t) (Some "lab-pc") unreachable
                           "/items" noOptions in
  List.length (fst call) = 1%nat /\
  snd call
  = inl (Error ("Could not connect to the backend server at "
                ++ "http://lab-pc:8080/api"
                ++ ". Is your Java backend server running?")).
Proof.
  cbv zeta.
  destruct (apiFetch_unreachable_backend
              (Some "lab-pc") Item.t unreachable "/items" noOptions
              (TypeError "Failed to fetch") eq_refl)
    as (Hsent & _ & _).
  split; [rewrite Hsent; reflexivity | reflexivity].
Defined.

(** A flask is added to the sample store. *)
Lemma mutation_success_applies_patch_witness :
  let newFlask := Item.mk "i3" "Erlenmeyer" "Glassware" 6 6 in
  let run :=
    perform None 2000%Z quietNewUser quiet quiet
            (AddItem (mkItemData "Erlenmeyer" "Glassware" 6))
            (answering newFlask) labStore in
  result run = inr tt /\
  items (state (final labStore run)) = [beaker; flask; newFlask] /\
  syncStatus (final labStore run) = synced /\
  lastSynced (final labStore run) = Some 2000%Z.
Proof.
  cbv zeta.
  destruct (mutation_success_applies_patch
              None 2000%Z quietNewUser quiet quiet
              (AddItem (mkItemData "Erlenmeyer" "Glassware" 6))
              (answering (Item.mk "i3" "Erlenmeyer" "Glassware" 6 6))
              labStore _ eq_refl eq_refl)
    as (Hres & _ & Hstate & Hstatus & Hsynced & _).
  split_ands; [exact Hres | rewrite Hstate; reflexivity
              | exact Hstatus | exact Hsynced].
Defined.

(** The sample stock keeps the invariant and is far below [2^53], so
    its sums are in order in a browser: 14 in total, 5 borrowed, 9
    available. *)
Lemma dashboard_sums_witness :
  Dashboard.totalItems roundToDouble labState = 14%Z /\
  (0 <= Dashboard.borrowedItems roundToDouble labState
     <= Dashboard.totalItems roundToDouble labState)%Z /\
  (Dashboard.totalItems roundToDouble labState
   - Dashboard.borrowedItems roundToDouble labState = 9)%Z.
Proof.
  destruct (dashboard_sums roundToDouble labState)
    as (Htotal & Hbounds & Havailable).
  - exact roundToDouble_exact.
  - intros i [<-|[<-|[]]]; cbn; lia.
  - vm_compute. discriminate.
  - split; [rewrite Htotal; reflexivity | split].
    + exact Hbounds.
    + rewrite Havailable. reflexivity.
Defined.

(** Past [2^53] the sums of a browser drift from the stock: with
    [2^53] pipette tips all lent out and one stand on the shelf, the
    total minus the borrowed count is 0, and one unit is available. *)
Example dashboard_sums_past_safe_integers :
  let tips := Item.mk "i8" "Pipette tips" "Consumables" (2 ^ 53) 0 in
  let stand := Item.mk "i9" "Stand" "Hardware" 1 1 in
  let state := mkState [tips; stand] [] [] [] [] [] in
  (Dashboard.totalItems roundToDouble state = 2 ^ 53)%Z /\
  (Dashboard.borrowedItems roundToDouble state = 2 ^ 53)%Z /\
  fold_left (fun sum item => (sum + Item.availableQuantity item)%Z)
            (items state) 0%Z
  = 1%Z.
Proof.
  cbv zeta. split_ands; vm_compute; reflexivity.
Qed.

(** A lab renames itself, reloads, resets the title to the default and
    reloads again: the old name is back. *)
Lemma settings_persist_unless_default_witness :
  let b := settingsService.mkBrowser true false false None in
  let renamed :=
    SettingsContext.updateSettings
      (SettingsContext.mkPartial (Some "Lab") None) (SettingsContext.mount b) in
  let reloaded := SettingsContext.mount (SettingsContext.browser renamed) in
  let reset :=
    SettingsContext.updateSettings
      (SettingsContext.mkPartial (Some "OliLab") None) reloaded in
  SettingsContext.settings reloaded = settingsService.mkSettings "Lab" "" /\
  SettingsContext.settings reset = SettingsContext.defaultSettings /\
  SettingsContext.settings
    (SettingsContext.mount (SettingsContext.browser reset))
  = settingsService.mkSettings "Lab" "".
Proof.
  cbv zeta.
  destruct (settings_persist_unless_default
              (SettingsContext.mkPartial (Some "Lab") None)
              (SettingsContext.mount
                 (settingsService.mkBrowser true false false None))
              eq_refl eq_refl eq_refl)
    as (_ & Hkept & _).
  destruct (settings_persist_unless_default
              (SettingsContext.mkPartial (Some "OliLab") None)
              (SettingsContext.mount
                 (SettingsContext.browser
                    (SettingsContext.updateSettings
                       (SettingsContext.mkPartial (Some "Lab") None)
                       (SettingsContext.mount
                          (settingsService.mkBrowser true false false None)))))
              eq_refl eq_refl eq_refl)
    as (Hcell & _ & Hstale).
  split_ands.
  - apply Hkept. discriminate.
  - exact Hcell.
  - destruct (Hstale eq_refl) as [_ Hold]. apply Hold. reflexivity.
Defined.

(** Alice logs in on a fresh page, her session is re-validated against
    the sample inventory, and the page is reloaded. *)
Lemma session_survives_reload_witness :
  let mounted :=
    AuthContext.restoreSession (AuthContext.mkGuard None true None) in
  let loggedIn :=
    AuthContext.guard
      (AuthContext.login None (answering aliceStored) "alice" "hunter2"
                         mounted) in
  let checked := AuthContext.revalidate labState false loggedIn in
  Reachable true checked /\
  AuthContext.currentUser checked = Some alice /\
  AuthContext.guardState (reload checked) = AuthContext.Authenticated alice.
Proof.
  cbv zeta.
  assert (Hreach :
            Reachable true
              (AuthContext.revalidate labState false
                 (AuthContext.guard
                    (AuthContext.login None (answering aliceStored) "alice"
                       "hunter2"
                       (AuthContext.restoreSession
                          (AuthContext.mkGuard None true None)))))).
  { eapply reach_step; [|apply step_revalidate].
    eapply reach_step; [|apply step_login].
    apply reach_mount. }
  split; [exact Hreach|]. split; [reflexivity|].
  destruct (session_survives_reload _ Hreach) as (_ & Hheld & _).
  destruct (Hheld alice eq_refl) as (_ & Happroved & _).
  destruct (Happroved eq_refl) as [Hstate _]. exact Hstate.
Defined.

(** Where the browser refuses the write, the same login rejects with
    the storage's exception and leaves Alice held with nothing stored:
    a reload comes back anonymous. *)
Example session_lost_when_write_refused :
  let mounted :=
    AuthContext.restoreSession (AuthContext.mkGuard None true None) in
  let a :=
    AuthContext.loginWriteRefused None (answering aliceStored) "alice"
                                  "hunter2" (Error "QuotaExceededError")
                                  mounted in
  Reachable false (AuthContext.guard a) /\
  AuthContext.outcome a = inl (Error "QuotaExceededError") /\
  AuthContext.currentUser (AuthContext.guard a) = Some aliceStored /\
  AuthContext.sessionStorage (AuthContext.guard a) = None /\
  AuthContext.guardState (reload (AuthContext.guard a))
  = AuthContext.Anonymous.
Proof.
  cbv zeta. split_ands; try reflexivity.
  eapply reach_step; [apply reach_mount|].
  apply (step_login_refused false _ None (answering aliceStored) "alice"
           "hunter2" (Error "QuotaExceededError") eq_refl).
Qed.

(** Alice's restored session over the sample inventory: after the
    fourth run of effect 2 the cell holds the fourth object built, and
    the effect is due again, as it is after every run. *)
Lemma revalidation_never_rests_witness :
  let mounted :=
    AuthContext.mkProvider (Some (AuthContext.mkHeld 0 alice))
                           (Some (AuthContext.Serialized alice)) 1 in
  AuthContext.runsAgain labState false
    (AuthContext.afterRuns 3 labState false mounted) = true /\
  AuthContext.cell (AuthContext.afterRuns 4 labState false mounted)
  = Some (AuthContext.mkHeld 4 alice) /\
  AuthContext.shown (AuthContext.afterRuns 4 labState false mounted)
  = aliceSession.
Proof.
  cbv zeta.
  destruct (revalidation_never_rests
              labState alice 3
              (AuthContext.mkProvider (Some (AuthContext.mkHeld 0 alice))
                                      (Some (AuthContext.Serialized alice)) 1)
              (AuthContext.mkHeld 0 alice))
    as (Hagain & Hcell & _ & Hshown).
  - reflexivity.
  - cbn. lia.
  - discriminate.
  - reflexivity.
  - reflexivity.
  - split_ands; [exact Hagain | rewrite Hcell; reflexivity
                | rewrite Hshown; reflexivity].
Defined.

(** A wrong password: the backend answers 401 with a JSON message. *)
Lemma login_refused_keeps_guard_witness :
  let fetch : Fetch User.t :=
    refusing 401
      (inr (JsonObject (FieldString "Invalid credentials") FieldAbsent))
      (inr "") in
  let anonymous := AuthContext.mkGuard None false None in
  let a := AuthContext.login None fetch "alice" "wrong" anonymous in
  AuthContext.outcome a = inl (Error "Invalid credentials") /\
  AuthContext.guard a = anonymous /\
  List.length (AuthContext.sent a) = 1%nat.
Proof.
  cbv zeta.
  destruct (login_refused_keeps_guard
              None
              (refusing 401
                 (inr (JsonObject (FieldString "Invalid credentials")
                                  FieldAbsent))
                 (inr ""))
              "alice" "wrong" (AuthContext.mkGuard None false None)
              _ eq_refl eq_refl)
    as (Hsent & _ & Hguard).
  split_ands; [reflexivity | exact Hguard | rewrite Hsent; reflexivity].
Defined.

(** The sidebar clock at a few distances, the last one in the future. *)
Example formatTimeAgo_sample :
  Sidebar.formatTimeAgo 100000%Z (Some 97000%Z) = "just now" /\
  Sidebar.formatTimeAgo 100000%Z (Some 41000%Z) = "59s ago" /\
  Sidebar.formatTimeAgo 100000%Z (Some 40000%Z) = "1m ago" /\
  Sidebar.formatTimeAgo 86400000%Z (Some 1%Z) = "23h ago" /\
  Sidebar.formatTimeAgo 86400000%Z (Some 0%Z) = "1d ago" /\
  Sidebar.formatTimeAgo 0%Z (Some 86400000%Z) = "just now".
Proof. split_ands; reflexivity. Qed.

(** The route guard on the sample session. *)
Example redirect_sample :
  App.redirect aliceSession "/users/u3" = Some "/dashboard" /\
  App.redirect aliceSession "/login" = Some "/dashboard" /\
  App.redirect aliceSession "/inventory" = None /\
  App.redirect (AuthContext.logout aliceSession) "/inventory" = Some "/login" /\
  App.redirect (AuthContext.logout aliceSession) "/signup" = None /\
  App.redirect (AuthContext.mkGuard None true None) "/inventory" = None.
Proof. split_ands; reflexivity. Qed.

(** The badges on the sample snapshot. *)
Example badges_sample :
  Sidebar.borrowLogBadgeCount labState = 2%nat /\
  Sidebar.borrowLogBadgeCount
    (markNotificationsAsRead_patch ["n1"] labState) = 1%nat /\
  Sidebar.pendingUsersCount labState = 1%nat /\
  Sidebar.pendingUsersCount (approveUser_patch carolApproved labState)
  = 0%nat.
Proof. split_ands; reflexivity. Qed.

End MoreInstances.
